(** * RoBO: the SGLD Bayesian neural network ([robo/models/bnn.py])

    A shallow embedding of [SGLDNet]: its sample buffer (a [deque] with
    [maxlen]), the fragment of numpy its normalisation and prediction code
    relies on, the objective it hands to the sampler, the training loop and
    the two prediction entry points.

    Numbers.  float64 values are modelled by the real numbers [R]: rounding,
    overflow, [inf] and [nan] are not part of the model, and a division by
    zero (which numpy answers with [inf] or [nan] and a warning, never an
    exception) is [Rdiv] by [0].  Integers are Python's unbounded integers,
    modelled by [Z] where the source allows any integer and by [nat] for
    counts and lengths.

    Collaborators.  The network's forward pass, its initialisation and the
    SGLD sampler (package [sgmcmc]) are taken as section variables.  They
    are total functions: the shape errors theano raises for inputs that do
    not fit the network are not modelled.  Calls of [logging] and of
    [time] are left out. *)

From Stdlib Require Import Reals ZArith List Bool Lia Lra.
Import ListNotations.

Set Implicit Arguments.

(** ** Outcomes of a Python call *)

(** The exceptions the modelled code can raise. *)
Inductive exception : Type :=
| ZeroDivisionError
| IndexError
| ValueError
| TypeError
| AttributeError
| AxisError.

(** Where the model stops short of Python: a loop that was given too little
    fuel, and an array of more than two dimensions. *)
Inductive limit : Type :=
| OutOfFuel
| RankAboveTwo.

Inductive outcome (A : Type) : Type :=
| Return (a : A)
| Raise (e : exception)
| Abort (l : limit).

Arguments Return {A} a.
Arguments Raise {A} e.
Arguments Abort {A} l.

Definition obind {A B : Type} (c : outcome A) (k : A -> outcome B) : outcome B :=
  match c with
  | Return a => k a
  | Raise e => Raise e
  | Abort l => Abort l
  end.

Declare Scope outcome_scope.
Delimit Scope outcome_scope with outcome.
Notation "x <- c ;; k" := (obind c (fun x => k))
  (at level 61, c at next level, right associativity) : outcome_scope.

Definition raises {A : Type} (c : outcome A) : bool :=
  match c with
  | Raise _ => true
  | _ => false
  end.

(** ** Python integers and slices *)

(** [a % b] on Python integers: floor modulo, [ZeroDivisionError] for [b = 0]. *)
Definition py_mod (a b : Z) : outcome Z :=
  if (b =? 0)%Z then Raise ZeroDivisionError else Return (a mod b)%Z.

(** The bound of a slice, as [PySlice_AdjustIndices] clips it for step 1. *)
Definition slice_bound (len i : Z) : Z :=
  if (i <? 0)%Z then Z.max (i + len) 0 else Z.min i len.

(** [l[start:stop]]. *)
Definition py_slice {A : Type} (l : list A) (start stop : Z) : list A :=
  let len := Z.of_nat (length l) in
  let a := slice_bound len start in
  let b := slice_bound len stop in
  firstn (Z.to_nat (b - a)) (skipn (Z.to_nat a) l).

(** ** [collections.deque] with a maximal length *)

Module deque.

Record t (A : Type) : Type := mk { maxlen : nat; items : list A }.

Arguments mk {A} maxlen items.

(** [deque(maxlen=n)] *)
Definition new {A : Type} (n : nat) : t A := mk n [].

Definition len {A : Type} (d : t A) : nat := length (items d).

(** [d.append(x)]: the item goes to the right end, and a deque that has
    grown past [maxlen] drops its leftmost item. *)
Definition append {A : Type} (d : t A) (x : A) : t A :=
  let l := items d ++ [x] in
  mk (maxlen d) (if maxlen d <? length l then tl l else l).

(** [d.clear()] *)
Definition clear {A : Type} (d : t A) : t A := mk (maxlen d) [].

(** [d[i]] for [i >= 0]. *)
Definition getitem {A : Type} (d : t A) (i : nat) : outcome A :=
  match nth_error (items d) i with
  | Some x => Return x
  | None => Raise IndexError
  end.

Definition extend {A : Type} (d : t A) (xs : list A) : t A :=
  fold_left append xs d.

End deque.

(** ** The fragment of numpy the model uses *)

Module np.

Local Open Scope R_scope.
Local Open Scope outcome_scope.

(** Arrays of at most two dimensions.  A matrix carries its column count,
    so that the shape [(0, c)] is not lost; its rows all have [ncol]
    entries (see [wf]). *)
Inductive ndarray : Type :=
| Scalar (x : R)
| Vec (v : list R)
| Mat (ncol : nat) (rows : list (list R)).

Definition wf (a : ndarray) : Prop :=
  match a with
  | Mat c rows => Forall (fun r => length r = c) rows
  | _ => True
  end.

(** [a.shape[0]] and [a.shape[1]]: the shape tuple is too short for an
    array of fewer dimensions. *)
Definition shape0 (a : ndarray) : outcome nat :=
  match a with
  | Scalar _ => Raise IndexError
  | Vec v => Return (length v)
  | Mat _ rows => Return (length rows)
  end.

Definition shape1 (a : ndarray) : outcome nat :=
  match a with
  | Mat c _ => Return c
  | _ => Raise IndexError
  end.

(** An elementwise function of one array. *)
Definition map_nd (f : R -> R) (a : ndarray) : ndarray :=
  match a with
  | Scalar x => Scalar (f x)
  | Vec v => Vec (map f v)
  | Mat c rows => Mat c (map (map f) rows)
  end.

(** Broadcasting of two axes: equal lengths, or one of them 1. *)
Definition bdim (m n : nat) : outcome nat :=
  if (m =? n)%nat then Return m
  else if (m =? 1)%nat then Return n
  else if (n =? 1)%nat then Return m
  else Raise ValueError.

Definition zipWith {A B : Type} (f : A -> A -> B) (u v : list A) : list B :=
  map (fun p => f (fst p) (snd p)) (combine u v).

(** The entries along one axis, once [bdim] has accepted its lengths. *)
Definition broadcast {A B : Type} (f : A -> A -> B) (d : A) (u v : list A) : list B :=
  if (length u =? length v)%nat then zipWith f u v
  else if (length u =? 1)%nat then map (f (hd d u)) v
  else map (fun x => f x (hd d v)) u.

(** An elementwise function of two arrays, with numpy's broadcasting:
    shapes are aligned at their last axis. *)
Definition binop (f : R -> R -> R) (a b : ndarray) : outcome ndarray :=
  match a, b with
  | Scalar x, _ => Return (map_nd (f x) b)
  | _, Scalar y => Return (map_nd (fun x => f x y) a)
  | Vec u, Vec v =>
      _ <- bdim (length u) (length v) ;;
      Return (Vec (broadcast f 0 u v))
  | Mat c rows, Vec v =>
      n <- bdim c (length v) ;;
      Return (Mat n (map (fun r => broadcast f 0 r v) rows))
  | Vec u, Mat c rows =>
      n <- bdim (length u) c ;;
      Return (Mat n (map (fun r => broadcast f 0 u r) rows))
  | Mat c1 rows1, Mat c2 rows2 =>
      n <- bdim c1 c2 ;;
      _ <- bdim (length rows1) (length rows2) ;;
      Return (Mat n (broadcast (broadcast f 0) [] rows1 rows2))
  end.

Definition add := binop Rplus.
Definition subtract := binop Rminus.
Definition multiply := binop Rmult.
Definition divide := binop Rdiv.

Definition sum_list (v : list R) : R := fold_left Rplus v 0.

(** Column [j] of a list of rows. *)
Definition column (j : nat) (rows : list (list R)) : list R :=
  map (fun r => nth j r 0) rows.

(** [np.add.reduce(a, axis=0)]: the sum of a vector, the sums of the
    columns of a matrix. *)
Definition sum0 (a : ndarray) : outcome ndarray :=
  match a with
  | Scalar _ => Raise AxisError
  | Vec v => Return (Scalar (sum_list v))
  | Mat c rows => Return (Vec (map (fun j => sum_list (column j rows)) (seq 0 c)))
  end.

(** [np.mean(a, axis=0)]: the sum along the first axis over its length.
    The mean of a vector is a numpy scalar, also for the empty vector
    (numpy warns and gives [nan], here [0 / 0]). *)
Definition mean0 (a : ndarray) : outcome ndarray :=
  s <- sum0 a ;;
  n <- shape0 a ;;
  Return (map_nd (fun x => x / INR n) s).

(** [np.var(a, axis=0)] with the default [ddof=0]: the mean of the squared
    deviations from the mean. *)
Definition var0 (a : ndarray) : outcome ndarray :=
  m <- mean0 a ;;
  d <- subtract a m ;;
  s <- sum0 (map_nd (fun x => x * x) d) ;;
  n <- shape0 a ;;
  Return (map_nd (fun x => x / INR n) s).

(** [np.std(a, axis=0)] *)
Definition std0 (a : ndarray) : outcome ndarray :=
  v <- var0 a ;;
  Return (map_nd sqrt v).

(** The sum and the mean over all entries ([T.sum(a)], [T.mean(a)]). *)
Definition sum_all (a : ndarray) : R :=
  match a with
  | Scalar x => x
  | Vec v => sum_list v
  | Mat _ rows => sum_list (map sum_list rows)
  end.

Definition size (a : ndarray) : nat :=
  match a with
  | Scalar _ => 1
  | Vec v => length v
  | Mat c rows => (length rows * c)%nat
  end.

Definition mean_all (a : ndarray) : R := sum_all a / INR (size a).

(** [a[start:stop]] *)
Definition slice0 (a : ndarray) (start stop : Z) : outcome ndarray :=
  match a with
  | Scalar _ => Raise IndexError
  | Vec v => Return (Vec (py_slice v start stop))
  | Mat c rows => Return (Mat c (py_slice rows start stop))
  end.

(** [a[:, 0]] *)
Definition col0 (a : ndarray) : outcome ndarray :=
  match a with
  | Mat c rows =>
      if (c =? 0)%nat then Raise IndexError
      else Return (Vec (map (fun r => nth 0 r 0) rows))
  | _ => Raise IndexError
  end.

(** [a[:, None]]: a numpy scalar cannot be indexed ([IndexError: invalid
    index to scalar variable]), a vector becomes a column, and a matrix
    would become three-dimensional. *)
Definition newaxis1 (a : ndarray) : outcome ndarray :=
  match a with
  | Scalar _ => Raise IndexError
  | Vec v => Return (Mat 1 (map (fun x => [x]) v))
  | Mat _ _ => Abort RankAboveTwo
  end.

Fixpoint scalars (p : list ndarray) : option (list R) :=
  match p with
  | [] => Some []
  | Scalar x :: q => option_map (cons x) (scalars q)
  | _ :: _ => None
  end.

Fixpoint vectors (n : nat) (p : list ndarray) : option (list (list R)) :=
  match p with
  | [] => Some []
  | Vec v :: q =>
      if (length v =? n)%nat then option_map (cons v) (vectors n q) else None
  | _ :: _ => None
  end.

(** [np.asarray(p)] for a Python list of arrays: the empty list is the
    empty vector (shape [(0,)]), and the arrays must agree in shape. *)
Definition asarray (p : list ndarray) : outcome ndarray :=
  match p with
  | [] => Return (Vec [])
  | Scalar _ :: _ =>
      match scalars p with
      | Some v => Return (Vec v)
      | None => Raise ValueError
      end
  | Vec v :: _ =>
      match vectors (length v) p with
      | Some rows => Return (Mat (length v) rows)
      | None => Raise ValueError
      end
  | Mat _ _ :: _ => Abort RankAboveTwo
  end.

(** [np.zeros([n, m])] *)
Definition zeros (n m : nat) : ndarray := Mat m (repeat (repeat 0 m) n).

End np.

(** ** The model class [SGLDNet] *)

Import np.

Section SGLD.

(** The state of a random number generator and of an SGLD sampler. *)
Variable Rng : Type.
Variable Sampler : Type.

(** [lasagne.layers.get_all_param_values(net)]: the list of the network's
    parameter arrays. *)
Definition Params : Type := list ndarray.

(** [get_net(n_inputs)]: the freshly initialised parameters of the
    network, drawn with the model's generator. *)
Variable get_net : Rng -> nat -> Params * Rng.

(** The network of [get_net] is a stack of dense layers ending in one
    linear unit: it maps every input row to one number. *)
Variable forward : Params -> list R -> R.

(** What [negativ_log_likelihood] returns: a symbolic expression in the
    parameters and the two input matrices [Xt] and [Yt]. *)
Definition objective : Type := Params -> ndarray -> ndarray -> outcome R.

(** [SGLDSampler(precondition=...)], [sampler.prepare_updates(nll, params,
    l_rate, inputs, scale_grad)] and [sampler.step(xmb, ymb)], which
    updates the live parameters and returns the objective's value. *)
Variable SGLDSampler : bool -> Sampler.
Variable prepare_updates : Sampler -> objective -> R -> nat -> Sampler.
Variable sampler_step :
  Sampler -> Params -> ndarray -> ndarray -> Sampler * Params * R.

(** The attributes [__init__] sets, and [net] and [sampler], which exist
    only once [train] has been entered.  [net] holds the live parameters
    of [self.net]. *)
Record SGLDNet : Type := mkSGLDNet {
  rng : Rng;
  n_nets : nat;
  l_rate : R;
  n_iters : Z;
  noise_std : R;
  wd : R;
  bsize : Z;
  burn_in : Z;
  precondition : bool;
  is_trained : bool;
  normalize_output : bool;
  normalize_input : bool;
  samples : deque.t Params;
  X : option ndarray;
  x_mean : option ndarray;
  x_std : option ndarray;
  Y : option ndarray;
  y_mean : option ndarray;
  y_std : option ndarray;
  net : option Params;
  sampler : option Sampler
}.

(** [SGLDNet(n_nets, l_rate, ...)] with an explicit generator. *)
Definition init (n_nets : nat) (l_rate : R) (n_iters : Z) (noise_std wd : R)
    (bsize burn_in : Z) (precondition normalize_output normalize_input : bool)
    (rng : Rng) : SGLDNet :=
  {| rng := rng; n_nets := n_nets; l_rate := l_rate; n_iters := n_iters;
     noise_std := noise_std; wd := wd; bsize := bsize; burn_in := burn_in;
     precondition := precondition; is_trained := false;
     normalize_output := normalize_output;
     normalize_input := normalize_input;
     samples := deque.new n_nets;
     X := None; x_mean := None; x_std := None;
     Y := None; y_mean := None; y_std := None;
     net := None; sampler := None |}.

(** Attribute assignments. *)
Definition set_net (v : option Params) (r : Rng) (s : SGLDNet) : SGLDNet :=
  mkSGLDNet r (n_nets s) (l_rate s) (n_iters s) (noise_std s) (wd s)
    (bsize s) (burn_in s) (precondition s) (is_trained s)
    (normalize_output s) (normalize_input s) (samples s)
    (X s) (x_mean s) (x_std s) (Y s) (y_mean s) (y_std s) v (sampler s).

Definition set_params (v : Params) (s : SGLDNet) : SGLDNet :=
  set_net (Some v) (rng s) s.

Definition set_sampler (v : Sampler) (s : SGLDNet) : SGLDNet :=
  mkSGLDNet (rng s) (n_nets s) (l_rate s) (n_iters s) (noise_std s) (wd s)
    (bsize s) (burn_in s) (precondition s) (is_trained s)
    (normalize_output s) (normalize_input s) (samples s)
    (X s) (x_mean s) (x_std s) (Y s) (y_mean s) (y_std s) (net s) (Some v).

Definition set_samples (v : deque.t Params) (s : SGLDNet) : SGLDNet :=
  mkSGLDNet (rng s) (n_nets s) (l_rate s) (n_iters s) (noise_std s) (wd s)
    (bsize s) (burn_in s) (precondition s) (is_trained s)
    (normalize_output s) (normalize_input s) v
    (X s) (x_mean s) (x_std s) (Y s) (y_mean s) (y_std s) (net s) (sampler s).

Definition set_X (x : ndarray) (s : SGLDNet) : SGLDNet :=
  mkSGLDNet (rng s) (n_nets s) (l_rate s) (n_iters s) (noise_std s) (wd s)
    (bsize s) (burn_in s) (precondition s) (is_trained s)
    (normalize_output s) (normalize_input s) (samples s)
    (Some x) (x_mean s) (x_std s) (Y s) (y_mean s) (y_std s)
    (net s) (sampler s).

Definition set_x_stats (m sd : ndarray) (s : SGLDNet) : SGLDNet :=
  mkSGLDNet (rng s) (n_nets s) (l_rate s) (n_iters s) (noise_std s) (wd s)
    (bsize s) (burn_in s) (precondition s) (is_trained s)
    (normalize_output s) (normalize_input s) (samples s)
    (X s) (Some m) (Some sd) (Y s) (y_mean s) (y_std s)
    (net s) (sampler s).

Definition set_Y (y : ndarray) (s : SGLDNet) : SGLDNet :=
  mkSGLDNet (rng s) (n_nets s) (l_rate s) (n_iters s) (noise_std s) (wd s)
    (bsize s) (burn_in s) (precondition s) (is_trained s)
    (normalize_output s) (normalize_input s) (samples s)
    (X s) (x_mean s) (x_std s) (Some y) (y_mean s) (y_std s)
    (net s) (sampler s).

Definition set_y_stats (m sd : ndarray) (s : SGLDNet) : SGLDNet :=
  mkSGLDNet (rng s) (n_nets s) (l_rate s) (n_iters s) (noise_std s) (wd s)
    (bsize s) (burn_in s) (precondition s) (is_trained s)
    (normalize_output s) (normalize_input s) (samples s)
    (X s) (x_mean s) (x_std s) (Y s) (Some m) (Some sd)
    (net s) (sampler s).

Definition set_bsize (b : Z) (s : SGLDNet) : SGLDNet :=
  mkSGLDNet (rng s) (n_nets s) (l_rate s) (n_iters s) (noise_std s) (wd s)
    b (burn_in s) (precondition s) (is_trained s)
    (normalize_output s) (normalize_input s) (samples s)
    (X s) (x_mean s) (x_std s) (Y s) (y_mean s) (y_std s)
    (net s) (sampler s).

Definition set_is_trained (b : bool) (s : SGLDNet) : SGLDNet :=
  mkSGLDNet (rng s) (n_nets s) (l_rate s) (n_iters s) (noise_std s) (wd s)
    (bsize s) (burn_in s) (precondition s) b
    (normalize_output s) (normalize_input s) (samples s)
    (X s) (x_mean s) (x_std s) (Y s) (y_mean s) (y_std s)
    (net s) (sampler s).

(** *** Methods: computations on the object's state that may raise *)

Definition M (A : Type) : Type := SGLDNet -> outcome A * SGLDNet.

Definition ret {A : Type} (a : A) : M A := fun s => (Return a, s).

Definition bind {A B : Type} (c : M A) (k : A -> M B) : M B :=
  fun s =>
    match c s with
    | (Return a, s') => k a s'
    | (Raise e, s') => (Raise e, s')
    | (Abort l, s') => (Abort l, s')
    end.

Definition lift {A : Type} (c : outcome A) : M A := fun s => (c, s).

Definition gets {A : Type} (f : SGLDNet -> A) : M A := fun s => (Return (f s), s).

Definition modify (f : SGLDNet -> SGLDNet) : M unit := fun s => (Return tt, f s).

(** Reading an attribute that must hold an object: [e] is raised for
    [None] or a missing attribute. *)
Definition attr {A : Type} (f : SGLDNet -> option A) (e : exception) : M A :=
  fun s =>
    match f s with
    | Some a => (Return a, s)
    | None => (Raise e, s)
    end.

Notation "x <- c ;; k" := (bind c (fun x => k))
  (at level 61, c at next level, right associativity).
Notation "c ;;; k" := (bind c (fun _ => k))
  (at level 61, right associativity).

Local Open Scope R_scope.

(** *** The network *)

(** [lasagne.layers.get_output(net, X)] at given parameter values: one
    output column, a row for every row of the input matrix. *)
Definition get_output (params : Params) (x : ndarray) : outcome ndarray :=
  match x with
  | Mat _ rows => Return (Mat 1 (map (fun r => [forward params r]) rows))
  | _ => Raise TypeError
  end.

(** [self.single_predict(x)]: the output at the live parameters. *)
Definition single_predict (x : ndarray) : M ndarray :=
  params <- attr net AttributeError ;;
  lift (get_output params x).

(** [lasagne.layers.set_all_param_values(self.net, sample)] *)
Definition set_all_param_values (sample : Params) : M unit :=
  _ <- attr net AttributeError ;;
  modify (set_params sample).

(** *** Normalisation (static methods) *)

Definition or_else (given : option ndarray) (computed : outcome ndarray) :
    outcome ndarray :=
  match given with
  | None => computed
  | Some a => Return a
  end.

Definition normalize_inputs (x : ndarray) (mean std : option ndarray) :
    outcome (ndarray * ndarray * ndarray) :=
  (mean <- or_else mean (mean0 x) ;;
   std <- or_else std (std0 x) ;;
   d <- subtract x mean ;;
   q <- divide d std ;;
   Return (q, mean, std))%outcome.

Definition normalize_targets (y : ndarray) (mean std : option ndarray) :
    outcome (ndarray * ndarray * ndarray) :=
  (mean <- or_else mean (mean0 y) ;;
   std <- or_else std (std0 y) ;;
   d <- subtract y mean ;;
   q <- divide d std ;;
   Return (q, mean, std))%outcome.

Definition denormalize (x mean std : ndarray) : outcome ndarray :=
  (p <- multiply x std ;;
   add mean p)%outcome.

(** *** The objective *)

Definition negativ_log_likelihood (Xsize : nat) (wd noise_std : R) : objective :=
  fun all_params Xt Yt =>
    (out <- get_output all_params Xt ;;
     d <- subtract Yt out ;;
     let err := mean_all (map_nd (fun e => e * e / noise_std ^ 2) d) in
     let prior_nll :=
       fold_left
         (fun acc p => acc + sum_all (map_nd (fun w => - (w * w) * 0.5 * wd) p))
         all_params 0 in
     Return (err - prior_nll / INR Xsize))%outcome.

(** *** Training *)

(** Lines 145-148: the mini-batch of iteration [i]. *)
Definition minibatch (i : Z) : M (ndarray * ndarray) :=
  bs <- gets bsize ;;
  x <- attr X AttributeError ;;
  n <- lift (shape0 x) ;;
  start <- lift (py_mod (i * bs) (Z.of_nat n)) ;;
  xmb <- lift (slice0 x start (start + bs)) ;;
  y <- attr Y TypeError ;;
  ymb <- lift (slice0 y start (start + bs)) ;;
  ret (xmb, ymb).

(** Line 150: one step of the sampler on the live parameters. *)
Definition step (xmb ymb : ndarray) : M R :=
  smp <- attr sampler AttributeError ;;
  params <- attr net AttributeError ;;
  let r := sampler_step smp params xmb ymb in
  modify (fun s => set_sampler (fst (fst r)) (set_params (snd (fst r)) s)) ;;;
  ret (snd r).

(** Lines 161-162. *)
Definition snapshot (i : Z) : M unit :=
  bi <- gets burn_in ;;
  if ((i mod 200 =? 0) && (bi <=? i))%Z then
    params <- attr net AttributeError ;;
    modify (fun s => set_samples (deque.append (samples s) params) s)
  else ret tt.

(** Lines 145-150. *)
Definition sgld_step (i : Z) : M R :=
  mb <- minibatch i ;;
  step (fst mb) (snd mb).

(** The body of the loop.  The report of every 1000th iteration (lines
    152-160) only logs and is left out. *)
Definition train_iter (i : Z) : M unit :=
  _ <- sgld_step i ;;
  snapshot i.

Definition loop_guard (i : Z) (s : SGLDNet) : bool :=
  (i <? n_iters s)%Z && (deque.len (samples s) <? n_nets s)%nat.

(** Lines 144-164: [while i < self.n_iters and len(self.samples) <
    self.n_nets].  The result is the final value of [i]. *)
Fixpoint train_loop (fuel : nat) (i : Z) {struct fuel} : M Z :=
  fun s =>
    if loop_guard i s then
      match fuel with
      | O => (Abort OutOfFuel, s)
      | S fuel' => (train_iter i ;;; train_loop fuel' (i + 1)) s
      end
    else (Return i, s).

(** Lines 108-112: the network and the sampler are built anew. *)
Definition build_net (n_inputs : nat) : M unit :=
  modify (fun s =>
    let r := get_net (rng s) n_inputs in
    set_sampler (SGLDSampler (precondition s)) (set_net (Some (fst r)) (snd r) s)).

(** Lines 116-124. *)
Definition store_inputs (x : ndarray) : M unit :=
  ni <- gets normalize_input ;;
  if ni : bool then
    r <- lift (normalize_inputs x None None) ;;
    modify (fun s => set_x_stats (snd (fst r)) (snd r) (set_X (fst (fst r)) s))
  else modify (set_X x).

Definition store_targets (y : ndarray) : M unit :=
  no <- gets normalize_output ;;
  if no : bool then
    r <- lift (normalize_targets y None None) ;;
    modify (fun s => set_y_stats (snd (fst r)) (snd r) (set_Y (fst (fst r)) s))
  else modify (set_Y y).

(** Lines 127-130: the objective [train] builds, scaled by the number of
    rows of [self.X]. *)
Definition train_nll (s : SGLDNet) (scale_grad : nat) : objective :=
  negativ_log_likelihood scale_grad (wd s) (noise_std s).

(** Lines 127-132. *)
Definition prepare (scale_grad : nat) : M unit :=
  smp <- attr sampler AttributeError ;;
  modify (fun s =>
    set_sampler (prepare_updates smp (train_nll s scale_grad) (l_rate s) scale_grad) s).

(** Lines 138-141. *)
Definition fit_bsize : M unit :=
  x <- attr X AttributeError ;;
  n <- lift (shape0 x) ;;
  bs <- gets bsize ;;
  if (Z.of_nat n <? bs)%Z then modify (set_bsize (Z.of_nat n)) else ret tt.

(** Lines 108-141: everything [train] does before its loop. *)
Definition train_setup (x y : ndarray) : M unit :=
  n_inputs <- lift (shape1 x) ;;
  build_net n_inputs ;;;
  modify (fun s => set_samples (deque.clear (samples s)) s) ;;;
  store_inputs x ;;;
  store_targets y ;;;
  xn <- attr X AttributeError ;;
  scale_grad <- lift (shape0 xn) ;;
  prepare scale_grad ;;;
  fit_bsize.

(** [self.train(X, Y)].  The loop is given the fuel [n_iters], which it
    cannot exhaust: [i] starts at 0 and the loop stops at [n_iters]
    (lemma [train_loop_fuel]). *)
Definition train (x y : ndarray) : M unit :=
  train_setup x y ;;;
  n <- gets n_iters ;;
  _ <- train_loop (Z.to_nat n) 0 ;;
  modify (set_is_trained true).

(** *** Prediction *)

(** Lines 213-216 and 251-254: the test inputs, normalised with the stored
    statistics. *)
Definition normalized_test (X_test : ndarray) : M ndarray :=
  ni <- gets normalize_input ;;
  if ni : bool then
    m <- gets x_mean ;;
    sd <- gets x_std ;;
    r <- lift (normalize_inputs X_test m sd) ;;
    ret (fst (fst r))
  else ret X_test.

(** Lines 220-223: [for sample in self.samples], appending to [p]. *)
Fixpoint predict_loop (X_ : ndarray) (smp : list Params) (p : list ndarray) :
    M (list ndarray) :=
  match smp with
  | [] => ret p
  | sample :: rest =>
      set_all_param_values sample ;;;
      out <- single_predict X_ ;;
      o <- lift (col0 out) ;;
      predict_loop X_ rest (p ++ [o])
  end.

(** Lines 229-230 and 259-262. *)
Definition denormalized (x : ndarray) : M ndarray :=
  no <- gets normalize_output ;;
  if no : bool then
    ym <- attr y_mean TypeError ;;
    ys <- attr y_std TypeError ;;
    lift (denormalize x ym ys)
  else ret x.

(** [self.predict(X_test)]: [None] for the bare [return] of line 210. *)
Definition predict (X_test : ndarray) : M (option (ndarray * ndarray)) :=
  trained <- gets is_trained ;;
  if negb trained then ret None
  else
    X_ <- normalized_test X_test ;;
    smp <- gets (fun s => deque.items (samples s)) ;;
    p <- predict_loop X_ smp [] ;;
    pa <- lift (asarray p) ;;
    m <- lift (mean0 pa) ;;
    v <- lift (var0 pa) ;;
    m <- denormalized m ;;
    m' <- lift (newaxis1 m) ;;
    v' <- lift (newaxis1 v) ;;
    ret (Some (m', v')).

Fixpoint replace_nth {A : Type} (i : nat) (x : A) (l : list A) : list A :=
  match l, i with
  | [], _ => []
  | _ :: t, O => x :: t
  | h :: t, S j => h :: replace_nth j x t
  end.

(** The values [f[i, :] = row] writes into a row of [m] entries. *)
Definition row_values (m : nat) (row : ndarray) : outcome (list R) :=
  let of_vec (v : list R) :=
    if (length v =? m)%nat then Return v
    else if (length v =? 1)%nat then Return (repeat (hd 0 v) m)
    else Raise ValueError in
  match row with
  | Scalar x => Return (repeat x m)
  | Vec v => of_vec v
  | Mat _ [r] => of_vec r
  | Mat _ _ => Raise ValueError
  end.

(** [f[i, :] = row] *)
Definition assign_row (f : ndarray) (i : nat) (row : ndarray) : outcome ndarray :=
  match f with
  | Mat m rows =>
      if (i <? length rows)%nat then
        (r <- row_values m row ;; Return (Mat m (replace_nth i r rows)))%outcome
      else Raise IndexError
  | _ => Raise IndexError
  end.

(** Lines 256-262: [for i in range(n_funcs)].  The arguments of line 257
    are evaluated in order: [self.net], then [self.samples[i]]. *)
Fixpoint sample_loop (X_ : ndarray) (idx : list nat) (f : ndarray) : M ndarray :=
  match idx with
  | [] => ret f
  | i :: rest =>
      _ <- attr net AttributeError ;;
      d <- gets samples ;;
      sample <- lift (deque.getitem d i) ;;
      set_all_param_values sample ;;;
      out <- single_predict X_ ;;
      o <- lift (col0 out) ;;
      row <- denormalized o ;;
      f' <- lift (assign_row f i row) ;;
      sample_loop X_ rest f'
  end.

(** [self.sample_functions(X_test, n_funcs)] *)
Definition sample_functions (X_test : ndarray) (n_funcs : nat) : M ndarray :=
  X_test_norm <- normalized_test X_test ;;
  n <- lift (shape0 X_test_norm) ;;
  sample_loop X_test_norm (seq 0 n_funcs) (zeros n_funcs n).

(** * Definitions for the statements *)

Local Open Scope nat_scope.

(** The squared deviations of the entries of [col] from [m]. *)
Definition sq_dev (m : R) (col : list R) : list R :=
  map (fun x => ((x - m) * (x - m))%R) col.

(** The last [n] entries of a list, in their order. *)
Definition lastn {A : Type} (n : nat) (l : list A) : list A :=
  skipn (length l - n) l.

(** The slice the spec describes: at most [n] entries from index [start]
    on, nothing taken from the front of the list. *)
Definition tail_slice {A : Type} (start n : nat) (l : list A) : list A :=
  firstn n (skipn start l).

(** The hyperparameters other than [bsize]. *)
Definition same_hyper (s s' : SGLDNet) : Prop :=
  n_nets s' = n_nets s /\ l_rate s' = l_rate s /\ n_iters s' = n_iters s /\
  noise_std s' = noise_std s /\ wd s' = wd s /\ burn_in s' = burn_in s /\
  precondition s' = precondition s.

(** The normalisation switches and the stored statistics. *)
Definition same_stats (s s' : SGLDNet) : Prop :=
  normalize_input s' = normalize_input s /\
  normalize_output s' = normalize_output s /\
  x_mean s' = x_mean s /\ x_std s' = x_std s /\
  y_mean s' = y_mean s /\ y_std s' = y_std s.

Definition same_config (s s' : SGLDNet) : Prop :=
  same_hyper s s' /\ bsize s' = bsize s /\ same_stats s s'.

(** A method keeps a relation between the state it starts in and the state
    it leaves, whether it returns or raises. *)
Definition keeps (P : SGLDNet -> SGLDNet -> Prop) {A : Type} (c : M A) : Prop :=
  forall s, P s (snd (c s)).

(** The state after [k] sampler steps from [s], for the iterations
    [0 .. k-1]: what the loop does to everything but the buffer. *)
Fixpoint chain (s : SGLDNet) (k : nat) : SGLDNet :=
  match k with
  | O => s
  | S k' => snd (sgld_step (Z.of_nat k') (chain s k'))
  end.

(** The live parameters at the end of iteration [j]. *)
Definition params_at (s : SGLDNet) (j : nat) : option Params :=
  net (chain s (S j)).

(** The test of line 161. *)
Definition snapshot_due (burn_in : Z) (k : nat) : bool :=
  ((Z.of_nat k mod 200 =? 0) && (burn_in <=? Z.of_nat k))%Z.

(** The iterations below [n_iters] at which line 161 holds. *)
Definition snapshot_iters (n_iters burn_in : Z) : list nat :=
  filter (snapshot_due burn_in) (seq 0 (Z.to_nat n_iters)).

(** The loop's counters alone: the value of [i] and the iterations whose
    parameters were stored, from iteration [k] on. *)
Fixpoint schedule (n_iters burn_in : Z) (n_nets fuel k : nat) (taken : list nat) :
    nat * list nat :=
  if ((Z.of_nat k <? n_iters)%Z && (length taken <? n_nets))%bool then
    match fuel with
    | O => (k, taken)
    | S fuel' =>
        schedule n_iters burn_in n_nets fuel' (S k)
          (if snapshot_due burn_in k then taken ++ [k] else taken)
    end
  else (k, taken).

(** A state in which the loop body cannot raise: data with at least one
    row, a network and a sampler. *)
Definition ready (s : SGLDNet) : Prop :=
  exists c rows cy yrows p smp,
    X s = Some (Mat c rows) /\ rows <> [] /\ Y s = Some (Mat cy yrows) /\
    net s = Some p /\ sampler s = Some smp.

Local Open Scope R_scope.

(** The entries of an array, row by row. *)
Definition entries (a : ndarray) : list R :=
  match a with
  | Scalar x => [x]
  | Vec v => v
  | Mat _ rows => concat rows
  end.

Definition mean_list (l : list R) : R := sum_list l / INR (length l).

(** The objective as the specification words it: the mean over the batch
    of the squared error over the squared noise, minus the sum over all
    parameter entries of [-0.5 * wd * p^2] divided by the row count [N] of
    the whole data set. *)
Definition nll_spec (N : nat) (wd noise_std : R) (params : Params)
    (xs : list (list R)) (ys : list R) : R :=
  mean_list
    (map (fun xy => (snd xy - forward params (fst xy)) ^ 2 / noise_std ^ 2)
       (combine xs ys))
  - sum_list (map (fun p => - 0.5 * wd * p ^ 2) (concat (map entries params)))
    / INR N.

(** A model trained on inputs of [D] columns and on one target column:
    [train] has returned, and the statistics of the enabled normalisations
    are stored, [mu] and [sd] being those of the targets. *)
Definition trained_on (s : SGLDNet) (D : nat) (mu sd : R) : Prop :=
  is_trained s = true /\
  (exists p, net s = Some p) /\
  (normalize_input s = true ->
   exists xm xs, x_mean s = Some (Vec xm) /\ x_std s = Some (Vec xs) /\
                 length xm = D /\ length xs = D) /\
  (normalize_output s = true ->
   y_mean s = Some (Vec [mu]) /\ y_std s = Some (Vec [sd])).

(** The mean over the samples at test point [j], and the variance with
    the number of samples as divisor. *)
Definition ensemble_mean (outs : list (list R)) (j : nat) : R :=
  mean_list (column j outs).

Definition population_variance (outs : list (list R)) (j : nat) : R :=
  mean_list (sq_dev (ensemble_mean outs j) (column j outs)).

(** The outputs of the stored samples on the rows [rows_]. *)
Definition sample_outputs (smp : list Params) (rows_ : list (list R)) :
    list (list R) :=
  map (fun sample => map (forward sample) rows_) smp.

(** The live network after the samples [smp] were loaded in turn. *)
Definition loaded (smp : list Params) (s : SGLDNet) : SGLDNet :=
  fold_left (fun st sample => set_params sample st) smp s.

(** The part of a state the loop of [sample_functions] reads and keeps:
    the buffer, a network, and the target statistics when enabled. *)
Definition draws_from (s : SGLDNet) (smp : list Params) (no : bool) (mu sd : R) :
    Prop :=
  deque.items (samples s) = smp /\
  (exists q, net s = Some q) /\
  normalize_output s = no /\
  (no = true -> y_mean s = Some (Vec [mu]) /\ y_std s = Some (Vec [sd])).

(** Row [i] of the result: the output of the buffer's [i]-th sample on the
    rows [rows_], mapped back when the targets were normalised. *)
Definition draw (smp : list Params) (no : bool) (mu sd : R)
    (rows_ : list (list R)) (i : nat) : list R :=
  map (fun m => if no then mu + m * sd else m)
    (map (forward (nth i smp [])) rows_).

(** A flag that is set stays set. *)
Definition stays_trained (s s' : SGLDNet) : Prop :=
  is_trained s = true -> is_trained s' = true.

(** The number of iterations [i] with [0 <= i < n_iters], [i % 200 == 0]
    and [i >= burn_in], in closed form: the multiples of 200 below
    [n_iters] less those below [burn_in]. *)
Definition due_count (n_iters burn_in : Z) : nat :=
  Z.to_nat ((n_iters + 199) / 200 - (Z.max burn_in 0 + 199) / 200).

(** The stored data. *)
Definition same_data (s s' : SGLDNet) : Prop :=
  X s' = X s /\ Y s' = Y s.



(** The value of [i] at which the loop of [train] stops, in closed form:
    [n_iters], or one past the iteration that stored the [n_nets]-th
    sample when that comes first. *)
Definition iterations_run (n_iters burn_in : Z) (n_nets : nat) : nat :=
  if (n_nets =? 0)%nat then 0%nat
  else Nat.min (Z.to_nat n_iters)
         (200 * (n_nets + Z.to_nat ((Z.max burn_in 0 + 199) / 200) - 1) + 1)%nat.

(** A call that ends within the model: it returns or raises. *)
Definition ends {A : Type} (c : outcome A) : Prop :=
  forall l : limit, c <> Abort l.

(** * Properties *)

Local Open Scope nat_scope.

(** ** Arrays *)

Lemma bdim_same (n : nat) : bdim n n = Return n.
Proof. unfold bdim. rewrite Nat.eqb_refl. reflexivity. Qed.

Lemma zipWith_length (A B : Type) (f : A -> A -> B) (u v : list A) :
  length (zipWith f u v) = Nat.min (length u) (length v).
Proof. unfold zipWith. rewrite length_map, length_combine. reflexivity. Qed.

Lemma broadcast_same (A B : Type) (f : A -> A -> B) (d : A) (u v : list A) :
  length u = length v -> broadcast f d u v = zipWith f u v.
Proof.
  intros Hlen. unfold broadcast. rewrite Hlen, Nat.eqb_refl. reflexivity.
Qed.

Lemma binop_mat_vec (f : R -> R -> R) (c : nat) (rows : list (list R)) (v : list R) :
  length v = c ->
  binop f (Mat c rows) (Vec v) =
  Return (Mat c (map (fun r => broadcast f 0%R r v) rows)).
Proof.
  intros Hlen. unfold binop. rewrite Hlen, bdim_same. reflexivity.
Qed.

Lemma mean0_mat (c : nat) (rows : list (list R)) :
  mean0 (Mat c rows) =
  Return (Vec (map (fun j => (sum_list (column j rows) / INR (length rows))%R) (seq 0 c))).
Proof. unfold mean0. cbn. rewrite map_map. reflexivity. Qed.

Lemma var0_mat_length (c : nat) (rows : list (list R)) :
  exists v, var0 (Mat c rows) = Return (Vec v) /\ length v = c.
Proof.
  unfold var0. rewrite mean0_mat. cbn [obind]. unfold subtract.
  rewrite binop_mat_vec by (rewrite length_map, length_seq; reflexivity).
  cbn. eexists. split; [reflexivity |].
  rewrite !length_map, length_seq. reflexivity.
Qed.

Lemma std0_mat_length (c : nat) (rows : list (list R)) :
  exists v, std0 (Mat c rows) = Return (Vec v) /\ length v = c.
Proof.
  destruct (var0_mat_length c rows) as (v & Hv & Hlen).
  unfold std0. rewrite Hv. cbn. eexists. split; [reflexivity |].
  rewrite length_map. exact Hlen.
Qed.

(** Normalising a matrix with its own statistics never raises and keeps
    its shape; the statistics have one entry for every column. *)
Lemma normalize_inputs_mat (c : nat) (rows : list (list R)) :
  exists rows' m sd,
    normalize_inputs (Mat c rows) None None = Return (Mat c rows', Vec m, Vec sd) /\
    length rows' = length rows /\ length m = c /\ length sd = c.
Proof.
  destruct (std0_mat_length c rows) as (sd & Hsd & Hlen).
  unfold normalize_inputs, or_else. rewrite mean0_mat, Hsd. cbn [obind].
  unfold subtract, divide.
  rewrite binop_mat_vec by (rewrite length_map, length_seq; reflexivity).
  cbn [obind]. rewrite binop_mat_vec by exact Hlen. cbn [obind].
  do 3 eexists. split; [reflexivity |].
  rewrite !length_map, length_seq. repeat split. exact Hlen.
Qed.

Lemma normalize_targets_mat (c : nat) (rows : list (list R)) :
  exists rows' m sd,
    normalize_targets (Mat c rows) None None = Return (Mat c rows', Vec m, Vec sd) /\
    length rows' = length rows /\ length m = c /\ length sd = c.
Proof. exact (normalize_inputs_mat c rows). Qed.

(** ** The sample buffer *)

Lemma deque_append_maxlen (A : Type) (d : deque.t A) (x : A) :
  deque.maxlen (deque.append d x) = deque.maxlen d.
Proof. reflexivity. Qed.

Lemma deque_append_items (A : Type) (d : deque.t A) (x : A) :
  length (deque.items d) <= deque.maxlen d ->
  deque.items (deque.append d x) = lastn (deque.maxlen d) (deque.items d ++ [x]).
Proof.
  intros Hlen. unfold deque.append, lastn. cbn [deque.items deque.maxlen].
  rewrite length_app. cbn [length].
  destruct (Nat.ltb_spec (deque.maxlen d) (length (deque.items d) + 1)) as [Hfull | Hroom].
  - replace (length (deque.items d) + 1 - deque.maxlen d) with 1 by lia.
    reflexivity.
  - replace (length (deque.items d) + 1 - deque.maxlen d) with 0 by lia.
    reflexivity.
Qed.

Lemma lastn_length (A : Type) (n : nat) (l : list A) :
  length (lastn n l) = Nat.min n (length l).
Proof. unfold lastn. rewrite length_skipn. lia. Qed.

Lemma lastn_app_lastn (A : Type) (n : nat) (l xs : list A) :
  lastn n (lastn n l ++ xs) = lastn n (l ++ xs).
Proof.
  unfold lastn.
  rewrite !length_app, length_skipn.
  assert (Hpre : skipn (length l - n) l ++ xs = skipn (length l - n) (l ++ xs)).
  { rewrite skipn_app. replace (length l - n - length l) with 0 by lia.
    reflexivity. }
  rewrite Hpre, skipn_skipn. f_equal. lia.
Qed.

(** After any run of appends the buffer holds the last [maxlen] of the
    entries it held or received. *)
Lemma deque_extend_items (A : Type) (xs : list A) :
  forall d : deque.t A,
    length (deque.items d) <= deque.maxlen d ->
    deque.maxlen (deque.extend d xs) = deque.maxlen d /\
    deque.items (deque.extend d xs) = lastn (deque.maxlen d) (deque.items d ++ xs).
Proof.
  induction xs as [| x xs IH]; intros d Hlen.
  - cbn. split; [reflexivity |]. rewrite app_nil_r. unfold lastn.
    replace (length (deque.items d) - deque.maxlen d) with 0 by lia.
    reflexivity.
  - cbn [deque.extend fold_left].
    assert (Hstep := deque_append_items d x Hlen).
    destruct (IH (deque.append d x)) as [Hmax Hitems].
    { rewrite Hstep, lastn_length, deque_append_maxlen. lia. }
    unfold deque.extend in Hmax, Hitems.
    rewrite Hmax, Hitems, deque_append_maxlen, Hstep. split; [reflexivity |].
    rewrite lastn_app_lastn, <- app_assoc. reflexivity.
Qed.

(** C3.  Whatever is appended to a fresh buffer of capacity [n], the buffer
    never holds more than [n] entries; once more than [n] entries were
    appended it holds exactly the last [n] of them, oldest first. *)
Theorem sample_buffer_keeps_most_recent (A : Type) (n : nat) (xs : list A) :
  deque.len (deque.extend (deque.new n) xs) <= n /\
  (n < length xs ->
   deque.len (deque.extend (deque.new n) xs) = n /\
   deque.items (deque.extend (deque.new n) xs) = skipn (length xs - n) xs).
Proof.
  destruct (@deque_extend_items A xs (deque.new n)) as [_ Hitems].
  { cbn. lia. }
  cbn [deque.new deque.items deque.maxlen app] in Hitems.
  unfold deque.len. rewrite Hitems, lastn_length.
  split; [lia |]. intros Hmore. split; [lia | reflexivity].
Qed.

(** ** Mini-batches *)

Lemma py_slice_forward (A : Type) (l : list A) (start n : Z) :
  (0 <= start)%Z -> (0 <= n)%Z ->
  py_slice l start (start + n) = tail_slice (Z.to_nat start) (Z.to_nat n) l.
Proof.
  intros Hstart Hn. unfold py_slice, tail_slice, slice_bound.
  destruct (Z.ltb_spec start 0) as [? | _]; [lia |].
  destruct (Z.ltb_spec (start + n) 0) as [? | _]; [lia |].
  set (len := Z.of_nat (length l)).
  assert (Hlen : length l = Z.to_nat len) by (unfold len; lia).
  destruct (Z.le_gt_cases start len) as [Hin | Hout].
  - rewrite (Z.min_l start len) by lia.
    destruct (Z.le_gt_cases (start + n) len) as [Hfit | Hcut].
    + rewrite Z.min_l by lia. f_equal. lia.
    + rewrite Z.min_r by lia.
      rewrite !firstn_all2; [reflexivity | |]; rewrite length_skipn; lia.
  - rewrite !Z.min_r by lia.
    rewrite (skipn_all2 l) by lia.
    rewrite (skipn_all2 (n := Z.to_nat start) l) by lia.
    rewrite !firstn_nil. reflexivity.
Qed.

Lemma tail_slice_length (A : Type) (start n : nat) (l : list A) :
  length (tail_slice start n l) = Nat.min n (length l - start).
Proof. unfold tail_slice. rewrite length_firstn, length_skipn. reflexivity. Qed.

Lemma tail_slice_truncated (A : Type) (start n : nat) (l : list A) :
  length l <= start + n -> tail_slice start n l = skipn start l.
Proof.
  intros Hcut. unfold tail_slice. apply firstn_all2. rewrite length_skipn. lia.
Qed.

(** C5.  With [N > 0] rows stored and a batch size that is not negative,
    the mini-batch of iteration [i] is the run of rows of [self.X] (and of
    [self.Y]) that starts at [(i * bsize) mod N] and has at most [bsize]
    rows; when [start + bsize] passes [N] it is the tail of the data from
    [start] on, and no row from the front is added. *)
Theorem minibatch_is_truncated_slice (s : SGLDNet) (c cy : nat)
    (rows yrows : list (list R)) (i : Z) :
  X s = Some (Mat c rows) ->
  Y s = Some (Mat cy yrows) ->
  rows <> [] ->
  (0 <= bsize s)%Z ->
  let N := Z.of_nat (length rows) in
  let start := ((i * bsize s) mod N)%Z in
  let xmb := tail_slice (Z.to_nat start) (Z.to_nat (bsize s)) rows in
  let ymb := tail_slice (Z.to_nat start) (Z.to_nat (bsize s)) yrows in
  minibatch i s = (Return (Mat c xmb, Mat cy ymb), s) /\
  (0 <= start < N)%Z /\
  length xmb = Nat.min (Z.to_nat (bsize s)) (length rows - Z.to_nat start) /\
  ((N < start + bsize s)%Z -> xmb = skipn (Z.to_nat start) rows).
Proof.
  intros HX HY Hrows Hbs N start xmb ymb.
  assert (HN : (0 < N)%Z).
  { unfold N. destruct rows; [contradiction | cbn [length]; lia]. }
  assert (Hstart : (0 <= start < N)%Z) by (apply Z.mod_pos_bound; exact HN).
  split; [| split; [exact Hstart | split]].
  - unfold minibatch, bind, gets, attr, lift, ret.
    rewrite HX. cbn [shape0]. fold N. unfold py_mod.
    destruct (Z.eqb_spec N 0) as [? | _]; [lia |].
    fold start. rewrite HY. cbn [slice0].
    rewrite !py_slice_forward by lia. reflexivity.
  - apply tail_slice_length.
  - intros Hcut. apply tail_slice_truncated. lia.
Qed.

(** ** What a call leaves untouched *)

Section Frames.

Variable P : SGLDNet -> SGLDNet -> Prop.
Hypothesis P_refl : forall s, P s s.
Hypothesis P_trans : forall s1 s2 s3, P s1 s2 -> P s2 s3 -> P s1 s3.

Lemma keeps_ret (A : Type) (a : A) : keeps P (ret a).
Proof. intros s. apply P_refl. Qed.

Lemma keeps_lift (A : Type) (c : outcome A) : keeps P (lift c).
Proof. intros s. apply P_refl. Qed.

Lemma keeps_gets (A : Type) (f : SGLDNet -> A) : keeps P (gets f).
Proof. intros s. apply P_refl. Qed.

Lemma keeps_attr (A : Type) (f : SGLDNet -> option A) (e : exception) :
  keeps P (attr f e).
Proof. intros s. unfold attr. destruct (f s); apply P_refl. Qed.

Lemma keeps_modify (f : SGLDNet -> SGLDNet) :
  (forall s, P s (f s)) -> keeps P (modify f).
Proof. intros Hf s. apply Hf. Qed.

Lemma keeps_bind (A B : Type) (c : M A) (k : A -> M B) :
  keeps P c -> (forall a, keeps P (k a)) -> keeps P (bind c k).
Proof.
  intros Hc Hk s. unfold bind. specialize (Hc s).
  destruct (c s) as [[a | e | l] s1]; cbn [snd] in *; try exact Hc.
  apply P_trans with s1; [exact Hc | apply Hk].
Qed.

End Frames.

Lemma same_hyper_refl (s : SGLDNet) : same_hyper s s.
Proof. unfold same_hyper. repeat split. Qed.

Lemma same_hyper_trans (s1 s2 s3 : SGLDNet) :
  same_hyper s1 s2 -> same_hyper s2 s3 -> same_hyper s1 s3.
Proof. unfold same_hyper. intuition congruence. Qed.

Lemma same_config_refl (s : SGLDNet) : same_config s s.
Proof. unfold same_config, same_hyper, same_stats. repeat split. Qed.

Lemma same_config_trans (s1 s2 s3 : SGLDNet) :
  same_config s1 s2 -> same_config s2 s3 -> same_config s1 s3.
Proof. unfold same_config, same_hyper, same_stats. intuition congruence. Qed.

Ltac frame_step :=
  cbv zeta;
  lazymatch goal with
  | |- keeps _ (ret _) => apply keeps_ret; apply same_config_refl
  | |- keeps _ (lift _) => apply keeps_lift; apply same_config_refl
  | |- keeps _ (gets _) => apply keeps_gets; apply same_config_refl
  | |- keeps _ (attr _ _) => apply keeps_attr; apply same_config_refl
  | |- keeps _ (modify _) => apply keeps_modify; intros ?; repeat split
  | |- keeps _ (bind _ _) =>
      apply keeps_bind;
      [apply same_config_trans | | intros ?]
  end.

Lemma sgld_step_keeps (i : Z) : keeps same_config (sgld_step i).
Proof. unfold sgld_step, minibatch, step. repeat frame_step. Qed.

Lemma snapshot_keeps (i : Z) : keeps same_config (snapshot i).
Proof.
  unfold snapshot. frame_step; [frame_step |].
  destruct ((i mod 200 =? 0) && (a <=? i))%Z; repeat frame_step.
Qed.

Lemma train_iter_keeps (i : Z) : keeps same_config (train_iter i).
Proof.
  unfold train_iter. frame_step; [apply sgld_step_keeps | apply snapshot_keeps].
Qed.

Lemma train_loop_keeps (fuel : nat) :
  forall i, keeps same_config (train_loop fuel i).
Proof.
  induction fuel as [| fuel IH]; intros i s; cbn [train_loop];
    destruct (loop_guard i s); try apply same_config_refl.
  apply (@keeps_bind same_config same_config_trans).
  - apply train_iter_keeps.
  - intros _. apply IH.
Qed.

(** The part of [train] from the loop on. *)
Lemma train_rest_keeps :
  keeps same_config
    (n <- gets n_iters ;; _ <- train_loop (Z.to_nat n) 0 ;; modify (set_is_trained true)).
Proof.
  frame_step; [frame_step |].
  frame_step; [apply train_loop_keeps | frame_step].
Qed.

(** Running a method on a state: the monad, the attribute assignments and
    the attribute reads are evaluated by value, so that the state stays a
    record of small fields. *)
Ltac mrun :=
  cbv beta iota zeta delta
    [bind ret lift gets modify attr fst snd
     set_net set_params set_sampler set_samples set_X set_x_stats set_Y
     set_y_stats set_bsize set_is_trained
     rng n_nets l_rate n_iters noise_std wd bsize burn_in precondition
     is_trained normalize_output normalize_input samples X x_mean x_std
     Y y_mean y_std net sampler train_nll].

Lemma bind_run (A B : Type) (c : M A) (k : A -> M B) (s s' : SGLDNet) (a : A) :
  c s = (Return a, s') -> bind c k s = k a s'.
Proof. intros Hc. unfold bind. rewrite Hc. reflexivity. Qed.

(** ** The set-up of [train] *)

(** On matrices the set-up returns: it rebuilds network and sampler,
    empties the buffer, stores the data with its row count unchanged, hands
    the sampler the objective scaled by that row count, and lowers [bsize]
    to the row count when it is larger. *)
Lemma train_setup_run (s : SGLDNet) (c cy : nat) (rows yrows : list (list R)) :
  exists s0 rows' yrows' p0,
    train_setup (Mat c rows) (Mat cy yrows) s = (Return tt, s0) /\
    X s0 = Some (Mat c rows') /\ length rows' = length rows /\
    Y s0 = Some (Mat cy yrows') /\ length yrows' = length yrows /\
    net s0 = Some p0 /\
    sampler s0 =
      Some (prepare_updates (SGLDSampler (precondition s))
              (train_nll s (length rows)) (l_rate s) (length rows)) /\
    samples s0 = deque.clear (samples s) /\
    bsize s0 =
      (if (Z.of_nat (length rows) <? bsize s)%Z
       then Z.of_nat (length rows) else bsize s) /\
    same_hyper s s0.
Proof.
  destruct (normalize_inputs_mat c rows) as (rows1 & m & sd & Hnx & Hlx & _).
  destruct (normalize_targets_mat cy yrows) as (rows2 & my & sdy & Hny & Hly & _).
  unfold train_setup, build_net, store_inputs, store_targets, prepare, fit_bsize.
  cbn [shape1]. mrun.
  destruct s as [r nn lr ni ns w bs bi pc tr no nin smp x xm xs y ym ys nt sm].
  mrun.
  destruct nin; rewrite ?Hnx; mrun; destruct no; rewrite ?Hny; mrun;
    cbn [shape0]; rewrite ?Hlx; mrun;
    destruct (Z.of_nat (length rows) <? bs)%Z; mrun;
    (do 4 eexists; split; [reflexivity |];
     split; [reflexivity |];
     split; [first [eassumption | reflexivity] |];
     split; [reflexivity |];
     split; [first [eassumption | reflexivity] |];
     do 4 (split; [reflexivity |]);
     unfold same_hyper; mrun; repeat split).
Qed.

(** The statistics the set-up stores: one entry for every column. *)
Lemma train_setup_stats (s s0 : SGLDNet) (c cy : nat) (rows yrows : list (list R)) :
  train_setup (Mat c rows) (Mat cy yrows) s = (Return tt, s0) ->
  normalize_input s0 = normalize_input s /\
  normalize_output s0 = normalize_output s /\
  (normalize_input s = true ->
   exists m sd, x_mean s0 = Some (Vec m) /\ x_std s0 = Some (Vec sd) /\
                length m = c /\ length sd = c) /\
  (normalize_output s = true ->
   exists m sd, y_mean s0 = Some (Vec m) /\ y_std s0 = Some (Vec sd) /\
                length m = cy /\ length sd = cy).
Proof.
  destruct (normalize_inputs_mat c rows) as (rows1 & m & sd & Hnx & Hlx & Hm & Hsd).
  destruct (normalize_targets_mat cy yrows) as (rows2 & my & sdy & Hny & Hly & Hmy & Hsdy).
  unfold train_setup, build_net, store_inputs, store_targets, prepare, fit_bsize.
  cbn [shape1]. mrun.
  destruct s as [r nn lr ni ns w bs bi pc tr no nin smp x xm xs y ym ys nt sm].
  mrun.
  destruct nin; rewrite ?Hnx; mrun; destruct no; rewrite ?Hny; mrun;
    cbn [shape0]; rewrite ?Hlx; mrun;
    destruct (Z.of_nat (length rows) <? bs)%Z; mrun;
    intros Hrun; injection Hrun as <-;
    (split; [reflexivity |]; split; [reflexivity |]; split; intros Hflag;
     try discriminate Hflag; do 2 eexists;
     (split; [reflexivity |]; split; [reflexivity |]; split; assumption)).
Qed.

(** C10.  A call of [train] on N rows sets the stored [bsize] to N when N
    is smaller and leaves it alone otherwise, whether the call returns or
    raises; the other hyperparameters keep their values.  So after a call
    with N < bsize, a second call on the same object with at least N rows
    still runs with batch size N. *)
Theorem train_overwrites_bsize (s : SGLDNet) (c cy : nat)
    (rows yrows : list (list R)) :
  let N := Z.of_nat (length rows) in
  let s' := snd (train (Mat c rows) (Mat cy yrows) s) in
  bsize s' = (if (N <? bsize s)%Z then N else bsize s) /\
  (n_nets s' = n_nets s /\ l_rate s' = l_rate s /\ n_iters s' = n_iters s /\
   noise_std s' = noise_std s /\ wd s' = wd s /\ burn_in s' = burn_in s /\
   precondition s' = precondition s) /\
  forall (c2 cy2 : nat) (rows2 yrows2 : list (list R)),
    (N < bsize s)%Z -> length rows <= length rows2 ->
    bsize (snd (train (Mat c2 rows2) (Mat cy2 yrows2) s')) = N.
Proof.
  assert (Hone : forall (t : SGLDNet) (d dy : nat) (r ry : list (list R)),
    bsize (snd (train (Mat d r) (Mat dy ry) t)) =
      (if (Z.of_nat (length r) <? bsize t)%Z then Z.of_nat (length r) else bsize t) /\
    same_hyper t (snd (train (Mat d r) (Mat dy ry) t))).
  { intros t d dy r ry.
    destruct (train_setup_run t d dy r ry)
      as (t0 & r' & ry' & p0 & Hrun & _ & _ & _ & _ & _ & _ & _ & Hbs & Hhyper).
    unfold train. rewrite bind_run with (1 := Hrun).
    destruct (train_rest_keeps t0) as (Hrest & Hb & _).
    split; [congruence | exact (same_hyper_trans Hhyper Hrest)]. }
  intros N s'. destruct (Hone s c cy rows yrows) as [Hbs Hhyper].
  fold s' in Hbs, Hhyper. fold N in Hbs.
  split; [exact Hbs | split; [exact Hhyper |]].
  intros c2 cy2 rows2 yrows2 Hsmall Hmore.
  destruct (Hone s' c2 cy2 rows2 yrows2) as [Hbs2 _].
  rewrite Hbs2, Hbs.
  destruct (Z.ltb_spec N (bsize s)) as [_ | ?]; [| lia].
  destruct (Z.ltb_spec (Z.of_nat (length rows2)) N) as [? | _]; [| reflexivity].
  unfold N in *. lia.
Qed.

(** ** The training loop *)

Lemma sgld_step_ready (i : Z) (s : SGLDNet) :
  ready s ->
  exists v, sgld_step i s = (Return v, snd (sgld_step i s)) /\
            ready (snd (sgld_step i s)).
Proof.
  intros (c & rows & cy & yrows & p & smp & HX & Hrows & HY & Hnet & Hsmp).
  destruct s as [r nn lr ni ns w bs bi pc tr no nin sm x xm xs y ym ys nt sa].
  cbn in HX, HY, Hnet, Hsmp. subst x y nt sa.
  unfold sgld_step, minibatch, step. mrun. cbn [shape0]. unfold py_mod.
  destruct (Z.eqb_spec (Z.of_nat (length rows)) 0) as [Hz | _].
  { destruct rows; [contradiction | cbn [length] in Hz; lia]. }
  cbn [slice0]. mrun. eexists. split; [reflexivity |].
  unfold ready. mrun. do 6 eexists. repeat split; try reflexivity. exact Hrows.
Qed.

Lemma sgld_step_set_samples (i : Z) (d : deque.t Params) (s : SGLDNet) :
  sgld_step i (set_samples d s) =
  (fst (sgld_step i s), set_samples d (snd (sgld_step i s))).
Proof.
  destruct s as [r nn lr ni ns w bs bi pc tr no nin sm x xm xs y ym ys nt sa].
  unfold sgld_step, minibatch, step. mrun.
  destruct x as [x |]; [| reflexivity].
  destruct (shape0 x); try reflexivity.
  destruct (py_mod _ _); try reflexivity.
  destruct (slice0 x _ _); try reflexivity.
  destruct y as [y |]; [| reflexivity].
  destruct (slice0 y _ _); try reflexivity.
  destruct sa; [| reflexivity].
  destruct nt; reflexivity.
Qed.

Lemma chain_ready (s : SGLDNet) (k : nat) :
  ready s -> ready (chain s k) /\ same_config s (chain s k).
Proof.
  intros Hs. induction k as [| k [Hr Hc]]; cbn [chain].
  - split; [exact Hs | apply same_config_refl].
  - destruct (sgld_step_ready (Z.of_nat k) Hr) as (v & _ & Hr').
    split; [exact Hr' |].
    exact (same_config_trans Hc (sgld_step_keeps (Z.of_nat k) (chain s k))).
Qed.

Lemma loop_guard_set_samples (i : Z) (d : deque.t Params) (s : SGLDNet) :
  loop_guard i (set_samples d s) =
  ((i <? n_iters s)%Z && (length (deque.items d) <? n_nets s))%bool.
Proof. destruct s. reflexivity. Qed.

(** One iteration from a ready state whose buffer is [d]. *)
Lemma train_iter_run (k : nat) (d : deque.t Params) (s : SGLDNet) :
  ready s ->
  exists p,
    net (snd (sgld_step (Z.of_nat k) s)) = Some p /\
    train_iter (Z.of_nat k) (set_samples d s) =
    (Return tt,
     set_samples (if snapshot_due (burn_in s) k then deque.append d p else d)
       (snd (sgld_step (Z.of_nat k) s))).
Proof.
  intros Hs.
  destruct (sgld_step_ready (Z.of_nat k) Hs) as (v & Hv & Hr).
  destruct (sgld_step_keeps (Z.of_nat k) s) as [(_ & _ & _ & _ & _ & Hbi & _) _].
  destruct Hr as (c & rows & cy & yrows & p & smp & _ & _ & _ & Hnet & _).
  exists p. split; [exact Hnet |].
  unfold train_iter.
  rewrite bind_run with (a := v) (s' := set_samples d (snd (sgld_step (Z.of_nat k) s))).
  2:{ rewrite sgld_step_set_samples, Hv. reflexivity. }
  rewrite <- Hbi. unfold snapshot_due.
  destruct (snd (sgld_step (Z.of_nat k) s))
    as [r nn lr ni ns w bs bi pc tr no nin sm x xm xs y ym ys nt sa].
  cbn in Hnet. subst nt. unfold snapshot. mrun.
  destruct ((Z.of_nat k mod 200 =? 0) && (bi <=? Z.of_nat k))%Z; reflexivity.
Qed.

(** The loop from iteration [k] on, with the buffer [d] holding the
    parameters of the iterations [taken]: it returns, and its counters are
    those of [schedule]. *)
Lemma train_loop_run (s0 : SGLDNet) :
  ready s0 ->
  forall (fuel k : nat) (d : deque.t Params) (taken : list nat),
    Z.to_nat (n_iters s0) - k <= fuel ->
    deque.maxlen d = n_nets s0 ->
    map Some (deque.items d) = map (params_at s0) taken ->
    let r := schedule (n_iters s0) (burn_in s0) (n_nets s0) fuel k taken in
    exists d',
      train_loop fuel (Z.of_nat k) (set_samples d (chain s0 k)) =
      (Return (Z.of_nat (fst r)), set_samples d' (chain s0 (fst r))) /\
      deque.maxlen d' = n_nets s0 /\
      map Some (deque.items d') = map (params_at s0) (snd r) /\
      loop_guard (Z.of_nat (fst r)) (set_samples d' (chain s0 (fst r))) = false.
Proof.
  intros Hs0. induction fuel as [| fuel IH]; intros k d taken Hfuel Hmax Hitems r.
  - destruct (chain_ready k Hs0) as [_ [(Hnn & _ & Hni & _) _]].
    assert (Hguard : loop_guard (Z.of_nat k) (set_samples d (chain s0 k)) =
              ((Z.of_nat k <? n_iters s0)%Z && (length taken <? n_nets s0))%bool).
    { rewrite loop_guard_set_samples, Hni, Hnn.
      rewrite <- (length_map Some (deque.items d)), Hitems, length_map.
      reflexivity. }
    subst r. cbn [schedule train_loop]. rewrite Hguard.
    destruct ((Z.of_nat k <? n_iters s0)%Z && (length taken <? n_nets s0))%bool eqn:Hg.
    + apply andb_prop in Hg. destruct Hg as [Hlt _].
      apply Z.ltb_lt in Hlt. lia.
    + cbn [fst snd]. exists d. repeat split; solve [assumption | reflexivity].
  - destruct (chain_ready k Hs0) as [Hrk [(Hnn & _ & Hni & _ & _ & Hbi & _) _]].
    assert (Hguard : loop_guard (Z.of_nat k) (set_samples d (chain s0 k)) =
              ((Z.of_nat k <? n_iters s0)%Z && (length taken <? n_nets s0))%bool).
    { rewrite loop_guard_set_samples, Hni, Hnn.
      rewrite <- (length_map Some (deque.items d)), Hitems, length_map.
      reflexivity. }
    subst r. cbn [schedule train_loop]. rewrite Hguard.
    destruct ((Z.of_nat k <? n_iters s0)%Z && (length taken <? n_nets s0))%bool eqn:Hg.
    + destruct (train_iter_run k d Hrk) as (p & Hp & Hiter).
      rewrite bind_run with (1 := Hiter).
      replace (Z.of_nat k + 1)%Z with (Z.of_nat (S k)) by lia.
      change (snd (sgld_step (Z.of_nat k) (chain s0 k))) with (chain s0 (S k)) in *.
      rewrite Hbi.
      apply andb_prop in Hg. destruct Hg as [Hlt Hroom].
      apply Z.ltb_lt in Hlt. apply Nat.ltb_lt in Hroom.
      apply IH.
      * lia.
      * destruct (snapshot_due (burn_in s0) k);
          rewrite ?deque_append_maxlen; exact Hmax.
      * destruct (snapshot_due (burn_in s0) k); [| exact Hitems].
        assert (Hlen : length (deque.items d) = length taken).
        { rewrite <- (length_map Some), Hitems, length_map. reflexivity. }
        unfold deque.append. cbn [deque.items].
        rewrite length_app. cbn [length].
        destruct (Nat.ltb_spec (deque.maxlen d) (length (deque.items d) + 1)) as [? | _];
          [lia |].
        rewrite !map_app, Hitems. cbn [map]. unfold params_at at 3.
        rewrite Hp. reflexivity.
    + cbn [fst snd]. exists d. repeat split; solve [assumption | reflexivity].
Qed.

(** The iterations [schedule] stores are the first [n_nets] iterations at
    which a snapshot is due. *)
Lemma schedule_taken (n b : Z) (m : nat) :
  forall (fuel k : nat) (taken : list nat),
    Z.to_nat n - k <= fuel ->
    length taken <= m ->
    snd (schedule n b m fuel k taken) =
    firstn m (taken ++ filter (snapshot_due b) (seq k (Z.to_nat n - k))).
Proof.
  induction fuel as [| fuel IH]; intros k taken Hfuel Hlen; cbn [schedule];
    destruct (Z.ltb_spec (Z.of_nat k) n) as [Hk | Hk];
    destruct (Nat.ltb_spec (length taken) m) as [Hroom | Hfull];
    cbn [andb snd]; try lia.
  - replace (Z.to_nat n - k) with 0 by lia. cbn [seq filter].
    rewrite app_nil_r, firstn_all2 by lia. reflexivity.
  - replace (Z.to_nat n - k) with 0 by lia. cbn [seq filter].
    rewrite app_nil_r, firstn_all2 by lia. reflexivity.
  - rewrite IH.
    + replace (Z.to_nat n - k) with (S (Z.to_nat n - S k)) by lia.
      cbn [seq filter].
      destruct (snapshot_due b k); [rewrite <- app_assoc |]; reflexivity.
    + lia.
    + destruct (snapshot_due b k); [rewrite length_app; cbn [length] |]; lia.
  - rewrite firstn_app, firstn_all2 by lia.
    replace (m - length taken) with 0 by lia.
    cbn [firstn]. rewrite app_nil_r. reflexivity.
  - replace (Z.to_nat n - k) with 0 by lia. cbn [seq filter].
    rewrite app_nil_r, firstn_all2 by lia. reflexivity.
  - rewrite firstn_app, firstn_all2 by lia.
    replace (m - length taken) with 0 by lia.
    cbn [firstn]. rewrite app_nil_r. reflexivity.
Qed.

Lemma set_samples_same (s : SGLDNet) : set_samples (samples s) s = s.
Proof. destruct s. reflexivity. Qed.

Lemma samples_set_samples (d : deque.t Params) (s : SGLDNet) :
  samples (set_samples d s) = d.
Proof. reflexivity. Qed.

Lemma py_mod_no_abort (a b : Z) (l : limit) : py_mod a b <> Abort l.
Proof. unfold py_mod. destruct (b =? 0)%Z; discriminate. Qed.

Lemma sgld_step_no_abort (i : Z) (s : SGLDNet) (l : limit) :
  fst (sgld_step i s) <> Abort l.
Proof.
  destruct s as [r nn lr ni ns w bs bi pc tr no nin sm x xm xs y ym ys nt sa].
  unfold sgld_step, minibatch, step. mrun.
  destruct x as [[? | ? | ? ?] |]; cbn [shape0 slice0]; try discriminate;
    (destruct (py_mod _ _) eqn:Hmod; [| discriminate | exfalso; exact (@py_mod_no_abort _ _ _ Hmod)]);
    (destruct y as [[? | ? | ? ?] |]; cbn [slice0]; try discriminate);
    destruct sa; try discriminate; destruct nt; discriminate.
Qed.

Lemma train_iter_no_abort (i : Z) (s : SGLDNet) (l : limit) :
  fst (train_iter i s) <> Abort l.
Proof.
  unfold train_iter, bind.
  destruct (sgld_step i s) as [[v | e | l'] s1] eqn:Hstep; cbn [fst]; try discriminate.
  - destruct s1 as [r nn lr ni ns w bs bi pc tr no nin sm x xm xs y ym ys nt sa].
    unfold snapshot. mrun.
    destruct ((i mod 200 =? 0) && (bi <=? i))%Z; [| discriminate].
    destruct nt; discriminate.
  - intros _. apply (@sgld_step_no_abort i s l'). rewrite Hstep. reflexivity.
Qed.

(** The fuel [train] gives its loop is enough: the loop never stops for
    lack of fuel, whatever the state it starts in. *)
Lemma train_loop_fuel (fuel : nat) :
  forall (i : Z) (s : SGLDNet),
    (n_iters s - i <= Z.of_nat fuel)%Z ->
    fst (train_loop fuel i s) <> Abort OutOfFuel.
Proof.
  induction fuel as [| fuel IH]; intros i s Hfuel; cbn [train_loop];
    destruct (loop_guard i s) eqn:Hguard; try discriminate;
    apply andb_prop in Hguard; destruct Hguard as [Hlt _]; apply Z.ltb_lt in Hlt.
  - lia.
  - unfold bind.
    destruct (train_iter i s) as [[u | e | l] s1] eqn:Hiter; try discriminate.
    + apply IH.
      destruct (train_iter_keeps i s) as ((_ & _ & Hni & _) & _).
      rewrite Hiter in Hni. cbn [snd] in Hni. rewrite Hni. lia.
    + intros _. apply (@train_iter_no_abort i s l). rewrite Hiter. reflexivity.
Qed.

(** [train] on data with at least one row: the set-up, the loop with the
    counters of [schedule], and the final state. *)
Lemma train_run (s : SGLDNet) (c cy : nat) (rows yrows : list (list R)) :
  rows <> [] ->
  deque.maxlen (samples s) = n_nets s ->
  exists (s0 : SGLDNet) (d' : deque.t Params),
    let r := schedule (n_iters s) (burn_in s) (n_nets s) (Z.to_nat (n_iters s)) 0 [] in
    let s1 := set_samples d' (chain s0 (fst r)) in
    train_setup (Mat c rows) (Mat cy yrows) s = (Return tt, s0) /\
    train_loop (Z.to_nat (n_iters s0)) 0 s0 = (Return (Z.of_nat (fst r)), s1) /\
    loop_guard (Z.of_nat (fst r)) s1 = false /\
    train (Mat c rows) (Mat cy yrows) s = (Return tt, set_is_trained true s1) /\
    map Some (deque.items d') = map (params_at s0) (snd r) /\
    ready (chain s0 (fst r)) /\ same_config s0 (chain s0 (fst r)).
Proof.
  intros Hrows Hmax.
  destruct (train_setup_run s c cy rows yrows)
    as (s0 & rows' & yrows' & p0 & Hrun & HX & Hlx & HY & _ & Hnet & Hsmp & Hbuf & _
        & (Hnn & _ & Hni & _ & _ & Hbi & _)).
  assert (Hready : ready s0).
  { exists c, rows', cy, yrows', p0. eexists. repeat split; try eassumption.
    intros ->. destruct rows; [contradiction | discriminate]. }
  destruct (@train_loop_run s0 Hready (Z.to_nat (n_iters s0)) 0 (samples s0) [])
    as (d' & Hloop & _ & Hitems & Hguard).
  { lia. }
  { rewrite Hbuf. cbn. congruence. }
  { rewrite Hbuf. reflexivity. }
  cbn [chain Z.of_nat] in Hloop. rewrite set_samples_same in Hloop.
  rewrite Hni, Hbi, Hnn in *.
  exists s0, d'. cbv zeta.
  split; [exact Hrun |]. split; [rewrite Hni; exact Hloop |].
  split; [exact Hguard |]. split; [| split; [exact Hitems |]].
  - unfold train. rewrite bind_run with (1 := Hrun).
    unfold bind at 1. unfold gets at 1. rewrite Hni.
    rewrite bind_run with (1 := Hloop). reflexivity.
  - apply chain_ready. exact Hready.
Qed.

(** C1.  On N >= 1 rows of inputs and N rows of one target each, and
    with the buffer [__init__] builds, [train] returns.  Its loop starts
    from the state [s0] the set-up leaves and ends, at [i = i_end], in a
    state where the guard [i < n_iters and len(samples) < n_nets] is false.
    The buffer then holds the parameters of the first [n_nets] iterations
    [i] below [n_iters] with [i % 200 == 0] and [i >= burn_in], in order.
    With [n_iters = 2000], [burn_in = 0], [bsize = 5] and [n_nets = 5]
    these are the iterations 0, 200, 400, 600 and 800, and the loop ends at
    [i = 801]. *)
Theorem train_collects_every_200th (s : SGLDNet) (c : nat)
    (rows yrows : list (list R)) :
  rows <> [] ->
  length yrows = length rows ->
  deque.maxlen (samples s) = n_nets s ->
  exists (s0 s1 : SGLDNet) (i_end : Z),
    train_setup (Mat c rows) (Mat 1 yrows) s = (Return tt, s0) /\
    train_loop (Z.to_nat (n_iters s0)) 0 s0 = (Return i_end, s1) /\
    loop_guard i_end s1 = false /\
    train (Mat c rows) (Mat 1 yrows) s = (Return tt, set_is_trained true s1) /\
    map Some (deque.items (samples s1)) =
      map (params_at s0)
        (firstn (n_nets s) (snapshot_iters (n_iters s) (burn_in s))) /\
    (n_iters s = 2000%Z -> burn_in s = 0%Z -> bsize s = 5%Z -> n_nets s = 5 ->
     i_end = 801%Z /\
     map Some (deque.items (samples s1)) =
       map (params_at s0) [0; 200; 400; 600; 800]).
Proof.
  intros Hrows _ Hmax.
  destruct (train_run s c 1 yrows Hrows Hmax)
    as (s0 & d' & Hrun & Hloop & Hguard & Htrain & Hitems & _).
  set (r := schedule (n_iters s) (burn_in s) (n_nets s) (Z.to_nat (n_iters s)) 0 [])
    in *.
  exists s0, (set_samples d' (chain s0 (fst r))), (Z.of_nat (fst r)).
  rewrite samples_set_samples.
  split; [exact Hrun |]. split; [exact Hloop |]. split; [exact Hguard |].
  split; [exact Htrain |]. split.
  - rewrite Hitems. unfold r. rewrite schedule_taken by (cbn [length]; lia).
    rewrite Nat.sub_0_r. reflexivity.
  - intros En Eb _ Em. rewrite Hitems. unfold r. rewrite En, Eb, Em.
    assert (Hsched : schedule 2000 0 5 (Z.to_nat 2000) 0 [] =
                     (801, [0; 200; 400; 600; 800]))
      by (vm_compute; reflexivity).
    rewrite Hsched. split; reflexivity.
Qed.

(** ** The objective *)

Local Open Scope R_scope.

Lemma fold_left_Rplus (l : list R) (a : R) :
  fold_left Rplus l a = a + sum_list l.
Proof.
  unfold sum_list. revert a. induction l as [| x l IH]; intros a; cbn [fold_left].
  - ring.
  - rewrite (IH (a + x)), (IH (0 + x)). ring.
Qed.

Lemma sum_list_nil : sum_list [] = 0.
Proof. reflexivity. Qed.

Lemma sum_list_cons (x : R) (l : list R) : sum_list (x :: l) = x + sum_list l.
Proof. unfold sum_list at 1. cbn [fold_left]. rewrite fold_left_Rplus. ring. Qed.

Lemma sum_list_app (l1 l2 : list R) :
  sum_list (l1 ++ l2) = sum_list l1 + sum_list l2.
Proof.
  induction l1 as [| x l1 IH]; cbn [app].
  - rewrite sum_list_nil. ring.
  - rewrite !sum_list_cons, IH. ring.
Qed.

Lemma sum_list_concat (ls : list (list R)) :
  sum_list (concat ls) = sum_list (map sum_list ls).
Proof.
  induction ls as [| l ls IH]; cbn [concat map].
  - reflexivity.
  - rewrite sum_list_app, sum_list_cons, IH. reflexivity.
Qed.

Lemma sum_list_ext (A : Type) (f g : A -> R) (l : list A) :
  (forall a, f a = g a) -> sum_list (map f l) = sum_list (map g l).
Proof. intros Hfg. f_equal. apply map_ext. exact Hfg. Qed.

Lemma sum_all_entries (a : ndarray) : sum_all a = sum_list (entries a).
Proof.
  destruct a as [x | v | c rows]; cbn [sum_all entries].
  - rewrite sum_list_cons, sum_list_nil. ring.
  - reflexivity.
  - rewrite sum_list_concat. reflexivity.
Qed.

Lemma entries_map_nd (g : R -> R) (a : ndarray) :
  entries (map_nd g a) = map g (entries a).
Proof.
  destruct a as [x | v | c rows]; cbn [map_nd entries map]; try reflexivity.
  rewrite concat_map. reflexivity.
Qed.

Lemma fold_left_sum (A : Type) (h : A -> R) (l : list A) (a : R) :
  fold_left (fun acc p => acc + h p) l a = a + sum_list (map h l).
Proof.
  revert a. induction l as [| x l IH]; intros a; cbn [fold_left map].
  - rewrite sum_list_nil. ring.
  - rewrite IH, sum_list_cons. ring.
Qed.

(** The error column [Yt - out] of a batch with one target per row. *)
Lemma error_column (params : Params) (xs : list (list R)) :
  forall ys : list R,
    zipWith (broadcast Rminus 0) (map (fun y => [y]) ys)
      (map (fun r => [forward params r]) xs) =
    map (fun xy => [snd xy - forward params (fst xy)]) (combine xs ys).
Proof.
  unfold zipWith.
  induction xs as [| x xs IH]; intros [| y ys]; cbn [map combine]; try reflexivity.
  f_equal. apply IH.
Qed.

(** The objective of [negativ_log_likelihood] on a batch with one target
    per row is the specification's formula. *)
Lemma negativ_log_likelihood_formula (N : nat) (w ns : R) (params : Params)
    (cb : nat) (xs : list (list R)) (ys : list R) :
  length xs = length ys ->
  negativ_log_likelihood N w ns params (Mat cb xs) (Mat 1 (map (fun y => [y]) ys)) =
  Return (nll_spec N w ns params xs ys).
Proof.
  intros Hlen. unfold negativ_log_likelihood, get_output, subtract, binop.
  cbn [obind]. rewrite bdim_same. cbn [obind].
  rewrite !length_map, <- Hlen, bdim_same. cbn [obind].
  rewrite broadcast_same by (rewrite !length_map; symmetry; exact Hlen).
  rewrite error_column. unfold nll_spec. do 2 f_equal.
  - unfold mean_all, mean_list. cbn [map_nd sum_all size].
    rewrite !length_map, Nat.mul_1_r, !map_map. f_equal.
    apply sum_list_ext. intros [x y]. cbn [map fst snd].
    rewrite sum_list_cons, sum_list_nil. unfold Rdiv. ring.
  - f_equal. rewrite fold_left_sum, Rplus_0_l.
    rewrite concat_map, sum_list_concat, !map_map.
    apply sum_list_ext. intros p.
    rewrite sum_all_entries, entries_map_nd. apply sum_list_ext. intros x.
    assert (Hhalf : 0.5 = 1 / 2) by lra.
    assert (Hneg : -0.5 = - (1 / 2)) by lra.
    rewrite Hhalf, Hneg. field.
Qed.

(** C2.  The objective [train] hands to the sampler is
    [negativ_log_likelihood] with [Xsize] the row count N of the whole data
    set, whatever the batch size: on a batch it is the batch mean of
    [(Y - f(X))^2 / noise_std^2] minus the sum over the parameters of
    [-0.5 * wd * p^2] divided by N. *)
Theorem train_objective_scales_prior_by_N (s : SGLDNet) (c cy : nat)
    (rows yrows : list (list R)) :
  exists s0 : SGLDNet,
    train_setup (Mat c rows) (Mat cy yrows) s = (Return tt, s0) /\
    sampler s0 =
      Some (prepare_updates (SGLDSampler (precondition s))
              (train_nll s (length rows)) (l_rate s) (length rows)) /\
    forall (params : Params) (cb : nat) (xs : list (list R)) (ys : list R),
      length xs = length ys ->
      train_nll s (length rows) params (Mat cb xs) (Mat 1 (map (fun y => [y]) ys)) =
      Return (nll_spec (length rows) (wd s) (noise_std s) params xs ys).
Proof.
  destruct (train_setup_run s c cy rows yrows)
    as (s0 & _ & _ & _ & Hrun & _ & _ & _ & _ & _ & Hsmp & _).
  exists s0. split; [exact Hrun |]. split; [exact Hsmp |].
  intros params cb xs ys Hlen. unfold train_nll.
  apply negativ_log_likelihood_formula. exact Hlen.
Qed.

(** ** Normalisation *)

Lemma row_round_trip (r : list R) :
  forall m sd : list R,
    length m = length r -> length sd = length r ->
    Forall (fun v => v <> 0) sd ->
    broadcast Rplus 0 m
      (broadcast Rmult 0 (broadcast Rdiv 0 (broadcast Rminus 0 r m) sd) sd) = r.
Proof.
  intros m sd Hm Hsd Hnz.
  assert (Hin : broadcast Rmult 0 (broadcast Rdiv 0 (broadcast Rminus 0 r m) sd) sd =
                zipWith Rmult (zipWith Rdiv (zipWith Rminus r m) sd) sd).
  { rewrite (broadcast_same Rminus 0 r m) by congruence.
    rewrite (broadcast_same Rdiv) by (rewrite zipWith_length; lia).
    rewrite (broadcast_same Rmult) by (rewrite !zipWith_length; lia).
    reflexivity. }
  rewrite Hin, broadcast_same by (rewrite !zipWith_length; lia).
  clear Hin. revert m sd Hm Hsd Hnz. unfold zipWith.
  induction r as [| x r IH]; intros [| a m] [| b sd] Hm Hsd Hnz;
    try discriminate; cbn [combine map fst snd]; [reflexivity |].
  inversion Hnz as [| ? ? Hb Hrest]; subst.
  f_equal; [field; exact Hb |].
  apply IH; [cbn in Hm; lia | cbn in Hsd; lia | exact Hrest].
Qed.

(** C9.  When normalisation with the array's own statistics returns and no
    entry of the standard deviation is zero, denormalising the normalised
    array with the returned mean and deviation gives the array back. *)
Theorem denormalize_inverts_normalize (x q mean std : ndarray) :
  wf x ->
  normalize_inputs x None None = Return (q, mean, std) ->
  Forall (fun v => v <> 0) (entries std) ->
  denormalize q mean std = Return x.
Proof.
  intros Hwf Hnorm Hnz. destruct x as [x | v | c rows].
  - discriminate Hnorm.
  - cbn in Hnorm.
    remember (sum_list v / INR (length v)) as mu eqn:Emu.
    remember (sqrt _) as sg eqn:Esg in Hnorm.
    injection Hnorm as <- <- <-. clear Emu Esg.
    cbn [entries] in Hnz. apply Forall_inv in Hnz.
    cbn. rewrite !map_map. do 2 f_equal.
    rewrite <- (map_id v) at 2. apply map_ext. intros a. field. exact Hnz.
  - destruct (std0_mat_length c rows) as (sd & Hsd & Hlen).
    unfold normalize_inputs, or_else in Hnorm.
    rewrite mean0_mat, Hsd in Hnorm. cbn [obind] in Hnorm.
    unfold subtract, divide in Hnorm.
    rewrite binop_mat_vec in Hnorm by (rewrite length_map, length_seq; reflexivity).
    cbn [obind] in Hnorm. rewrite binop_mat_vec in Hnorm by exact Hlen.
    cbn [obind] in Hnorm. injection Hnorm as <- <- <-.
    cbn [entries] in Hnz.
    unfold denormalize, multiply, add.
    rewrite binop_mat_vec by exact Hlen. cbn [obind binop].
    rewrite length_map, length_seq, bdim_same. cbn [obind].
    do 2 f_equal. rewrite !map_map.
    etransitivity; [| apply map_id].
    apply map_ext_in. intros r Hr.
    cbn [wf] in Hwf. rewrite Forall_forall in Hwf. specialize (Hwf r Hr).
    apply row_round_trip; [rewrite length_map, length_seq | | exact Hnz]; congruence.
Qed.

(** ** Prediction *)

Lemma bdim_1_r (n : nat) : bdim n 1 = Return n.
Proof.
  unfold bdim. destruct (Nat.eqb_spec n 1) as [-> | _]; reflexivity.
Qed.

Lemma bdim_1_l (n : nat) : bdim 1 n = Return n.
Proof.
  unfold bdim. destruct (Nat.eqb_spec 1 n) as [<- | _]; reflexivity.
Qed.

Lemma broadcast_singleton_r (f : R -> R -> R) (u : list R) (b : R) :
  broadcast f 0 u [b] = map (fun x => f x b) u.
Proof.
  unfold broadcast. cbn [length hd].
  destruct (Nat.eqb_spec (length u) 1) as [Hone | _]; [| reflexivity].
  destruct u as [| a [| ? ?]]; try discriminate. reflexivity.
Qed.

Lemma broadcast_singleton_l (f : R -> R -> R) (a : R) (v : list R) :
  broadcast f 0 [a] v = map (f a) v.
Proof.
  unfold broadcast. cbn [length hd].
  destruct (Nat.eqb_spec 1 (length v)) as [Hone | _]; [| reflexivity].
  destruct v as [| b [| ? ?]]; try discriminate. reflexivity.
Qed.

Lemma denormalize_vec (m : list R) (mu sd : R) :
  denormalize (Vec m) (Vec [mu]) (Vec [sd]) =
  Return (Vec (map (fun x => mu + x * sd) m)).
Proof.
  unfold denormalize, multiply, add, binop. cbn [length].
  rewrite bdim_1_r. cbn [obind]. rewrite bdim_1_l. cbn [obind].
  rewrite broadcast_singleton_r, broadcast_singleton_l, map_map. reflexivity.
Qed.

Lemma nth_zipWith (f : R -> R -> R) (j : nat) :
  forall u v : list R,
    length u = length v ->
    nth j (zipWith f u v) 0 =
    if (j <? length u)%nat then f (nth j u 0) (nth j v 0) else 0.
Proof.
  unfold zipWith.
  induction j as [| j IH]; intros [| a u] [| b v] Hlen; try discriminate;
    cbn [combine map nth length]; try reflexivity.
  rewrite IH by (cbn in Hlen; lia). reflexivity.
Qed.

Lemma nth_map_seq (g : nat -> R) (n j : nat) :
  (j < n)%nat -> nth j (map g (seq 0 n)) 0 = g j.
Proof.
  intros Hj.
  rewrite (nth_indep _ 0 (g 0%nat)) by (rewrite length_map, length_seq; exact Hj).
  rewrite map_nth, seq_nth by exact Hj. reflexivity.
Qed.

Lemma nth_map_in (g : R -> R) (l : list R) (j : nat) :
  (j < length l)%nat -> nth j (map g l) 0 = g (nth j l 0).
Proof.
  intros Hj. rewrite (nth_indep _ 0 (g 0)) by (rewrite length_map; exact Hj).
  apply map_nth.
Qed.

Lemma vectors_all (n : nat) (rows : list (list R)) :
  Forall (fun r => length r = n) rows ->
  vectors n (map Vec rows) = Some rows.
Proof.
  induction 1 as [| r rows Hr _ IH]; cbn [map vectors]; [reflexivity |].
  rewrite Hr, Nat.eqb_refl, IH. reflexivity.
Qed.

Lemma normalized_test_run (s : SGLDNet) (D : nat) (mu sd : R)
    (rows : list (list R)) :
  trained_on s D mu sd ->
  exists rows_,
    normalized_test (Mat D rows) s = (Return (Mat D rows_), s) /\
    length rows_ = length rows.
Proof.
  intros (_ & _ & Hin & _). unfold normalized_test, bind, gets.
  destruct (normalize_input s).
  - destruct (Hin eq_refl) as (xm & xs & -> & -> & Hm & Hs).
    unfold normalize_inputs, or_else, lift, ret, subtract, divide. cbn [obind].
    rewrite binop_mat_vec by exact Hm. cbn [obind].
    rewrite binop_mat_vec by exact Hs. cbn [obind fst].
    eexists. split; [reflexivity |]. rewrite !length_map. reflexivity.
  - exists rows. split; reflexivity.
Qed.

Lemma loaded_fields (smp : list Params) :
  forall s : SGLDNet,
    normalize_output (loaded smp s) = normalize_output s /\
    y_mean (loaded smp s) = y_mean s /\ y_std (loaded smp s) = y_std s.
Proof.
  unfold loaded. induction smp as [| sample smp IH]; intros s; cbn [fold_left].
  - repeat split.
  - destruct (IH (set_params sample s)) as (H1 & H2 & H3).
    rewrite H1, H2, H3. repeat split.
Qed.

(** The loop of [predict] returns the output column of every sample, in
    the order of the buffer, and leaves the last sample loaded. *)
Lemma predict_loop_run (D : nat) (rows_ : list (list R)) (smp : list Params) :
  forall (p : list ndarray) (s : SGLDNet),
    (exists q, net s = Some q) ->
    predict_loop (Mat D rows_) smp p s =
    (Return (p ++ map (fun sample => Vec (map (forward sample) rows_)) smp),
     loaded smp s).
Proof.
  induction smp as [| sample smp IH]; intros p s [q Hq]; cbn [predict_loop map].
  - rewrite app_nil_r. reflexivity.
  - assert (Hstep :
      (set_all_param_values sample ;;;
       out <- single_predict (Mat D rows_) ;;
       lift (col0 out)) s =
      (Return (Vec (map (forward sample) rows_)), set_params sample s)).
    { destruct s as [r nn lr ni ns w bs bi pc tr no nin sm x xm xs y ym ys nt sa].
      cbn in Hq. subst nt.
      unfold set_all_param_values, single_predict. mrun.
      cbn [get_output col0 Nat.eqb]. rewrite map_map. reflexivity. }
    unfold set_all_param_values, single_predict, bind, attr, modify, lift in *.
    rewrite Hq in *. cbn [set_params set_net net] in *.
    cbn [get_output col0 Nat.eqb] in *. rewrite map_map in *.
    cbn [nth] in *.
    rewrite IH by (eexists; reflexivity).
    rewrite <- app_assoc. reflexivity.
Qed.

Lemma column_length (j : nat) (rows : list (list R)) :
  length (column j rows) = length rows.
Proof. unfold column. apply length_map. Qed.

Lemma mean0_outs (n : nat) (outs : list (list R)) :
  mean0 (Mat n outs) = Return (Vec (map (ensemble_mean outs) (seq 0 n))).
Proof.
  rewrite mean0_mat. do 2 f_equal. apply map_ext. intros j.
  unfold ensemble_mean, mean_list. rewrite column_length. reflexivity.
Qed.

Lemma var0_outs (n : nat) (outs : list (list R)) :
  Forall (fun r => length r = n) outs ->
  var0 (Mat n outs) = Return (Vec (map (population_variance outs) (seq 0 n))).
Proof.
  intros Hwf. unfold var0. rewrite mean0_outs. cbn [obind]. unfold subtract.
  rewrite binop_mat_vec by (rewrite length_map, length_seq; reflexivity).
  cbn [obind map_nd sum0 shape0]. cbn [map_nd]. rewrite map_map.
  do 2 f_equal. apply map_ext_in. intros j Hj.
  apply in_seq in Hj. unfold population_variance, mean_list.
  unfold sq_dev at 2. rewrite length_map, column_length. f_equal. f_equal.
  unfold column, sq_dev. rewrite !map_map.
  apply map_ext_in. intros r Hr.
  rewrite Forall_forall in Hwf. specialize (Hwf r Hr).
  rewrite broadcast_same by (rewrite length_map, length_seq; exact Hwf).
  rewrite nth_map_in by (rewrite zipWith_length, length_map, length_seq; lia).
  rewrite nth_zipWith by (rewrite length_map, length_seq; exact Hwf).
  destruct (Nat.ltb_spec j (length r)) as [_ | ?]; [| lia].
  rewrite nth_map_seq by lia. reflexivity.
Qed.

Lemma bind_gets (A B : Type) (f : SGLDNet -> A) (k : A -> M B) (s : SGLDNet) :
  bind (gets f) k s = k (f s) s.
Proof. reflexivity. Qed.

Lemma bind_lift (A B : Type) (c : outcome A) (a : A) (k : A -> M B) (s : SGLDNet) :
  c = Return a -> bind (lift c) k s = k a s.
Proof. intros ->. reflexivity. Qed.

Lemma asarray_outs (n : nat) (outs : list (list R)) :
  outs <> [] -> Forall (fun r => length r = n) outs ->
  asarray (map Vec outs) = Return (Mat n outs).
Proof.
  intros Hne Hwf. destruct outs as [| o outs]; [contradiction |].
  assert (Ho : length o = n) by (inversion Hwf; assumption).
  cbn [map asarray]. rewrite Ho.
  change (Vec o :: map Vec outs) with (map Vec (o :: outs)).
  rewrite vectors_all by exact Hwf. reflexivity.
Qed.

Lemma sample_outputs_wf (smp : list Params) (rows_ : list (list R)) :
  Forall (fun r => length r = length rows_) (sample_outputs smp rows_).
Proof.
  unfold sample_outputs. apply Forall_forall. intros r Hr.
  apply in_map_iff in Hr. destruct Hr as (sample & <- & _). apply length_map.
Qed.

(** C4.  On a trained model whose buffer is not empty, [predict] returns
    for every test point the mean of the samples' outputs and their
    variance with the number of samples as divisor.  With
    [normalize_output] the mean is mapped back by [mu + m * sd]; the
    variance is returned as computed, in the units of the normalised
    targets. *)
Theorem predict_mean_and_population_variance (s : SGLDNet) (D : nat) (mu sd : R)
    (rows : list (list R)) :
  trained_on s D mu sd ->
  deque.items (samples s) <> [] ->
  exists rows_,
    normalized_test (Mat D rows) s = (Return (Mat D rows_), s) /\
    let outs := sample_outputs (deque.items (samples s)) rows_ in
    let denorm := fun m => if normalize_output s then mu + m * sd else m in
    predict (Mat D rows) s =
    (Return
       (Some
          (Mat 1 (map (fun j => [denorm (ensemble_mean outs j)]) (seq 0 (length rows))),
           Mat 1 (map (fun j => [population_variance outs j]) (seq 0 (length rows))))),
     loaded (deque.items (samples s)) s).
Proof.
  intros Htr Hne.
  destruct (normalized_test_run rows Htr) as (rows_ & Hnt & Hlen).
  destruct Htr as (Histr & Hnet & _ & Hout).
  exists rows_. split; [exact Hnt |]. intros outs denorm.
  assert (Houts : outs <> []).
  { unfold outs, sample_outputs. destruct (deque.items (samples s));
      [contradiction | discriminate]. }
  unfold predict. rewrite bind_gets, Histr. cbn [negb].
  rewrite bind_run with (1 := Hnt). rewrite bind_gets.
  rewrite bind_run with (1 := @predict_loop_run D rows_ _ [] s Hnet). cbn [app].
  rewrite <- (map_map (fun sample => map (forward sample) rows_) Vec).
  fold (sample_outputs (deque.items (samples s)) rows_). fold outs.
  assert (Hwf : Forall (fun r => length r = length rows_) outs)
    by apply sample_outputs_wf.
  rewrite bind_lift with (1 := asarray_outs Houts Hwf).
  rewrite bind_lift with (1 := mean0_outs _ outs).
  rewrite bind_lift with (1 := var0_outs Hwf).
  destruct (loaded_fields (deque.items (samples s)) s) as (Hno & Hym & Hys).
  unfold denormalized. rewrite bind_run
    with (a := Vec (map denorm (map (ensemble_mean outs) (seq 0 (length rows_)))))
         (s' := loaded (deque.items (samples s)) s).
  - cbn [newaxis1]. unfold bind, lift, ret. rewrite !map_map, Hlen. reflexivity.
  - rewrite bind_gets, Hno. unfold denorm. destruct (normalize_output s).
    + destruct (Hout eq_refl) as [Emu Esd].
      unfold bind, attr. rewrite Hym, Emu, Hys, Esd.
      unfold lift. rewrite denormalize_vec. reflexivity.
    + unfold ret. rewrite map_id. reflexivity.
Qed.

Lemma filter_none (A : Type) (f : A -> bool) (l : list A) :
  (forall x, In x l -> f x = false) -> filter f l = [].
Proof.
  induction l as [| a l IH]; intros Hf; cbn [filter]; [reflexivity |].
  rewrite (Hf a) by (left; reflexivity).
  apply IH. intros x Hx. apply Hf. right. exact Hx.
Qed.

Lemma snapshot_iters_none (n b : Z) : (n <= b)%Z -> snapshot_iters n b = [].
Proof.
  intros Hnb. unfold snapshot_iters. apply filter_none. intros k Hk.
  apply in_seq in Hk. unfold snapshot_due.
  destruct (Z.leb_spec b (Z.of_nat k)) as [? | _]; [lia | apply andb_false_r].
Qed.

(** What [train] establishes: on N >= 1 rows and one target column it
    returns a trained model in the sense of [trained_on], whose buffer is
    empty when [burn_in >= n_iters]. *)
Lemma train_gives_trained_on (s : SGLDNet) (c : nat) (rows yrows : list (list R)) :
  rows <> [] ->
  deque.maxlen (samples s) = n_nets s ->
  exists (mu sd : R) (s' : SGLDNet),
    train (Mat c rows) (Mat 1 yrows) s = (Return tt, s') /\
    trained_on s' c mu sd /\
    ((n_iters s <= burn_in s)%Z -> deque.items (samples s') = []).
Proof.
  intros Hrows Hmax.
  destruct (train_run s c 1 yrows Hrows Hmax)
    as (s0 & d' & Hrun & _ & _ & Htrain & Hitems & Hready & Hcfg).
  assert (Hst := Hrun). apply train_setup_stats in Hst.
  destruct Hst as (Hni & Hno & Hx & Hy).
  destruct Hcfg as (_ & _ & Hi & Ho & Hxm & Hxs & Hym & Hys).
  destruct Hready as (? & ? & ? & ? & pk & ? & _ & _ & _ & Hnetk & _).
  assert (Hstats : exists mu sd,
            normalize_output s = true ->
            y_mean s0 = Some (Vec [mu]) /\ y_std s0 = Some (Vec [sd])).
  { destruct (normalize_output s).
    - destruct (Hy eq_refl) as (m & sd & Em & Esd & Hm & Hsd).
      destruct m as [| mu [| ? ?]]; try discriminate.
      destruct sd as [| sg [| ? ?]]; try discriminate.
      exists mu, sg. intros _. split; assumption.
    - exists 0, 0. intros Hflag. discriminate Hflag. }
  destruct Hstats as (mu & sd & Hout).
  set (r := schedule (n_iters s) (burn_in s) (n_nets s) (Z.to_nat (n_iters s)) 0 [])
    in *.
  exists mu, sd, (set_is_trained true (set_samples d' (chain s0 (fst r)))).
  split; [exact Htrain |].
  destruct (chain s0 (fst r))
    as [rg nn lr ni ns w bs bi pc tr no nin smp xk xm xs yk ym ys nt sm].
  cbn in Hi, Ho, Hxm, Hxs, Hym, Hys, Hnetk. subst.
  split.
  - unfold trained_on. mrun. split; [reflexivity |]. split; [exists pk; reflexivity |].
    split; intros Hflag.
    + apply Hx. rewrite <- Hni. exact Hflag.
    + apply Hout. rewrite <- Hno. exact Hflag.
  - intros Hnone. mrun.
    assert (Hr : snd r = []).
    { unfold r. rewrite schedule_taken by (cbn [length]; lia).
      rewrite Nat.sub_0_r. cbn [app].
      fold (snapshot_iters (n_iters s) (burn_in s)).
      rewrite snapshot_iters_none by exact Hnone. apply firstn_nil. }
    rewrite Hr in Hitems. cbn [map] in Hitems.
    destruct (deque.items d'); [reflexivity | discriminate].
Qed.

(** C7 (as the code has it).  On a model whose [is_trained] is false,
    [predict] returns [None] and raises nothing; the state is untouched. *)
Theorem predict_untrained_returns_none (s : SGLDNet) (X_test : ndarray) :
  is_trained s = false ->
  predict X_test s = (Return None, s) /\ raises (fst (predict X_test s)) = false.
Proof.
  intros Hno. unfold predict. rewrite bind_gets, Hno. split; reflexivity.
Qed.

(** On a trained model whose buffer is empty, [predict] returns no
    statistics: the aggregate over the empty list is a scalar, and line
    232, which indexes it with [[:, None]], raises [IndexError]. *)
Lemma predict_on_empty_buffer (s : SGLDNet) (D : nat) (mu sd : R)
    (rows : list (list R)) :
  trained_on s D mu sd ->
  deque.items (samples s) = [] ->
  predict (Mat D rows) s = (Raise IndexError, s).
Proof.
  intros Htr Hempty.
  destruct (normalized_test_run rows Htr) as (rows_ & Hnt & _).
  destruct Htr as (Histr & _ & _ & Hout).
  unfold predict. rewrite bind_gets, Histr. cbn [negb].
  rewrite bind_run with (1 := Hnt). rewrite bind_gets, Hempty.
  cbn [predict_loop]. unfold ret at 1. unfold bind at 1.
  cbn [asarray]. unfold lift at 1. unfold bind at 1.
  unfold mean0. cbn [sum0 shape0 obind map_nd]. unfold lift at 1. unfold bind at 1.
  unfold var0, mean0, subtract. cbn. unfold lift at 1. unfold bind at 1.
  unfold denormalized. rewrite bind_gets.
  destruct (normalize_output s).
  - destruct (Hout eq_refl) as [Emu Esd].
    unfold bind, attr, lift. rewrite Emu, Esd. reflexivity.
  - reflexivity.
Qed.

(** C8 (as the code has it).  [train] on N >= 1 rows and one target column
    returns a model that stores no sample when [burn_in >= n_iters]; and
    whenever the trained model's buffer is empty, [predict] on test inputs
    of the training width returns no statistics but raises [IndexError]
    (line 232 indexes the scalar aggregate of the empty list). *)
Theorem predict_empty_buffer_raises (s : SGLDNet) (c : nat)
    (rows yrows : list (list R)) :
  rows <> [] ->
  deque.maxlen (samples s) = n_nets s ->
  exists s' : SGLDNet,
    train (Mat c rows) (Mat 1 yrows) s = (Return tt, s') /\
    ((n_iters s <= burn_in s)%Z -> deque.items (samples s') = []) /\
    (deque.items (samples s') = [] ->
     forall test_rows : list (list R),
       predict (Mat c test_rows) s' = (Raise IndexError, s')).
Proof.
  intros Hrows Hmax.
  destruct (train_gives_trained_on s c yrows Hrows Hmax)
    as (mu & sd & s' & Htrain & Hon & Hnone).
  exists s'. split; [exact Htrain |]. split; [exact Hnone |].
  intros Hempty test_rows. exact (predict_on_empty_buffer test_rows Hon Hempty).
Qed.

(** ** Function draws *)

Lemma draws_from_set_params (s : SGLDNet) (smp : list Params) (no : bool)
    (mu sd : R) (sample : Params) :
  draws_from s smp no mu sd -> draws_from (set_params sample s) smp no mu sd.
Proof.
  intros (Hs & _ & Hno & Hy). destruct s. cbn in *.
  repeat split; try assumption; try (apply Hy; assumption).
  eexists. reflexivity.
Qed.

Lemma replace_nth_app (A : Type) (l1 l2 : list A) (x y : A) (k : nat) :
  length l1 = k -> replace_nth k x (l1 ++ y :: l2) = l1 ++ x :: l2.
Proof.
  intros <-. induction l1 as [| a l1 IH]; cbn [length app replace_nth];
    [reflexivity | rewrite IH; reflexivity].
Qed.

(** One round of the loop with a sample at index [i]. *)
Lemma sample_loop_step (D : nat) (rows_ : list (list R)) (smp : list Params)
    (no : bool) (mu sd : R) (s : SGLDNet) (i : nat) (rest : list nat)
    (frows : list (list R)) :
  draws_from s smp no mu sd ->
  (i < length smp)%nat -> (i < length frows)%nat ->
  sample_loop (Mat D rows_) (i :: rest) (Mat (length rows_) frows) s =
  sample_loop (Mat D rows_) rest
    (Mat (length rows_) (replace_nth i (draw smp no mu sd rows_ i) frows))
    (set_params (nth i smp []) s).
Proof.
  intros (Hs & (q & Hq) & Hno & Hy) Hi Hf.
  assert (Hnth : nth_error smp i = Some (nth i smp [])) by (apply nth_error_nth'; exact Hi).
  assert (Hrows : forall g : R -> R,
            row_values (length rows_) (Vec (map g (map (forward (nth i smp [])) rows_))) =
            Return (map g (map (forward (nth i smp [])) rows_))).
  { intros g. unfold row_values. rewrite !length_map, Nat.eqb_refl. reflexivity. }
  apply Nat.ltb_lt in Hf.
  destruct s as [r nn lr ni ns w bs bi pc tr no' nin sm x xm xs y ym ys nt sa].
  cbn in Hs, Hq, Hno, Hy. subst nt no'.
  cbn [sample_loop]. unfold set_all_param_values, single_predict, denormalized.
  mrun. unfold deque.getitem. rewrite Hs, Hnth. mrun.
  cbn [get_output col0 Nat.eqb]. mrun. rewrite map_map. cbn [nth].
  destruct no.
  - destruct (Hy eq_refl) as [-> ->]. mrun. rewrite denormalize_vec. mrun.
    unfold assign_row. rewrite Hf, Hrows. reflexivity.
  - mrun. unfold assign_row. rewrite Hf.
    rewrite <- (map_id (map (forward (nth i smp [])) rows_)) at 1.
    rewrite Hrows. reflexivity.
Qed.

(** One round of the loop with no sample at index [i]. *)
Lemma sample_loop_out_of_range (X_ : ndarray) (smp : list Params) (no : bool)
    (mu sd : R) (s : SGLDNet) (i : nat) (rest : list nat) (f : ndarray) :
  draws_from s smp no mu sd ->
  (length smp <= i)%nat ->
  sample_loop X_ (i :: rest) f s = (Raise IndexError, s).
Proof.
  intros (Hs & (q & Hq) & _) Hi.
  apply nth_error_None in Hi.
  cbn [sample_loop]. unfold bind at 1. unfold attr at 1. rewrite Hq.
  rewrite bind_gets. unfold bind at 1. unfold lift at 1.
  unfold deque.getitem. rewrite Hs, Hi. reflexivity.
Qed.

Lemma sample_loop_rows (D : nat) (rows_ : list (list R)) (smp : list Params)
    (no : bool) (mu sd : R) (s : SGLDNet) (k : nat) (m : nat)
    (z : list R) (rest0 : list (list R)) :
  draws_from s smp no mu sd -> (k < length smp)%nat ->
  sample_loop (Mat D rows_) (seq k (S m))
    (Mat (length rows_) (map (draw smp no mu sd rows_) (seq 0 k) ++ z :: rest0)) s =
  sample_loop (Mat D rows_) (seq (S k) m)
    (Mat (length rows_) (map (draw smp no mu sd rows_) (seq 0 (S k)) ++ rest0))
    (set_params (nth k smp []) s).
Proof.
  intros Hs Hk. change (seq k (S m)) with (k :: seq (S k) m).
  rewrite sample_loop_step with (1 := Hs);
    [| exact Hk | rewrite length_app, length_map, length_seq; cbn [length]; lia].
  rewrite replace_nth_app by (rewrite length_map, length_seq; reflexivity).
  rewrite seq_S, map_app, <- app_assoc. reflexivity.
Qed.

(** The loop fills the rows in the order of the buffer. *)
Lemma sample_loop_run (D : nat) (rows_ : list (list R)) (smp : list Params)
    (no : bool) (mu sd : R) :
  forall (m k : nat) (s : SGLDNet) (rest0 : list (list R)),
    draws_from s smp no mu sd -> (k + m <= length smp)%nat -> length rest0 = m ->
    exists s',
      sample_loop (Mat D rows_) (seq k m)
        (Mat (length rows_) (map (draw smp no mu sd rows_) (seq 0 k) ++ rest0)) s =
      (Return (Mat (length rows_) (map (draw smp no mu sd rows_) (seq 0 (k + m)))), s').
Proof.
  induction m as [| m IH]; intros k s rest0 Hs Hk Hrest.
  - destruct rest0; [| discriminate]. exists s.
    cbn [seq sample_loop]. rewrite app_nil_r, Nat.add_0_r. reflexivity.
  - destruct rest0 as [| z rest0]; [discriminate |].
    rewrite sample_loop_rows by (exact Hs || lia).
    replace (k + S m)%nat with (S k + m)%nat by lia.
    apply IH; [apply draws_from_set_params; exact Hs | lia |].
    cbn [length] in Hrest. lia.
Qed.

(** With more rows asked for than the buffer has samples, the loop raises
    at the first index past the buffer. *)
Lemma sample_loop_overrun (D : nat) (rows_ : list (list R)) (smp : list Params)
    (no : bool) (mu sd : R) :
  forall (m k : nat) (s : SGLDNet) (rest0 : list (list R)),
    draws_from s smp no mu sd ->
    (k <= length smp)%nat -> (length smp < k + m)%nat -> length rest0 = m ->
    exists s',
      sample_loop (Mat D rows_) (seq k m)
        (Mat (length rows_) (map (draw smp no mu sd rows_) (seq 0 k) ++ rest0)) s =
      (Raise IndexError, s').
Proof.
  induction m as [| m IH]; intros k s rest0 Hs Hk Hover Hrest; [lia |].
  destruct rest0 as [| z rest0]; [discriminate |].
  destruct (Nat.eq_dec k (length smp)) as [Hend | Hin].
  - exists s. cbn [seq]. apply sample_loop_out_of_range with (1 := Hs). lia.
  - rewrite sample_loop_rows by (exact Hs || lia).
    apply IH; [apply draws_from_set_params; exact Hs | lia | lia |].
    cbn [length] in Hrest. lia.
Qed.

(** C6.  On a trained model, [sample_functions] with [n_funcs] no larger
    than the buffer returns the matrix whose row [i] is the output of the
    buffer's [i]-th sample, mapped back when the targets were normalised;
    with [n_funcs] larger than the buffer it raises [IndexError]. *)
Theorem sample_functions_reads_buffer_in_order (s : SGLDNet) (D : nat)
    (mu sd : R) (rows : list (list R)) (n_funcs : nat) :
  trained_on s D mu sd ->
  exists rows_,
    normalized_test (Mat D rows) s = (Return (Mat D rows_), s) /\
    let smp := deque.items (samples s) in
    let row := draw smp (normalize_output s) mu sd rows_ in
    ((n_funcs <= length smp)%nat ->
     exists s',
       sample_functions (Mat D rows) n_funcs s =
       (Return (Mat (length rows) (map row (seq 0 n_funcs))), s')) /\
    ((length smp < n_funcs)%nat ->
     exists s', sample_functions (Mat D rows) n_funcs s = (Raise IndexError, s')).
Proof.
  intros Htr.
  destruct (normalized_test_run rows Htr) as (rows_ & Hnt & Hlen).
  destruct Htr as (_ & Hnet & _ & Hout).
  exists rows_. split; [exact Hnt |]. intros smp row.
  assert (Hs : draws_from s smp (normalize_output s) mu sd).
  { repeat split; try assumption; apply Hout; assumption. }
  assert (Hstart : sample_functions (Mat D rows) n_funcs s =
            sample_loop (Mat D rows_) (seq 0 n_funcs)
              (Mat (length rows_) (map row (seq 0 0) ++ repeat (repeat 0 (length rows_)) n_funcs))
              s).
  { unfold sample_functions. rewrite bind_run with (1 := Hnt). reflexivity. }
  rewrite Hstart. split; intros Hn.
  - destruct (@sample_loop_run D rows_ smp (normalize_output s) mu sd n_funcs 0 s
                (repeat (repeat 0 (length rows_)) n_funcs) Hs)
      as (s' & Hrun); [lia | apply repeat_length |].
    exists s'. unfold row. rewrite Hrun, Hlen. reflexivity.
  - apply (@sample_loop_overrun D rows_ smp (normalize_output s) mu sd n_funcs 0 s
             (repeat (repeat 0 (length rows_)) n_funcs) Hs);
      [lia | lia | apply repeat_length].
Qed.

(** ** Calls of [train] at the edges *)

Local Open Scope nat_scope.

Lemma train_setup_forgets_buffer (c : nat) (rows : list (list R)) (y : ndarray)
    (d : deque.t Params) (s : SGLDNet) :
  deque.maxlen d = deque.maxlen (samples s) ->
  train_setup (Mat c rows) y (set_samples d s) = train_setup (Mat c rows) y s.
Proof.
  intros Hmax.
  destruct s as [r nn lr ni ns w bs bi pc tr no nin smp xk xm xs yk ym ys nt sm].
  destruct d as [ml it]. destruct smp as [ml' it']. cbn in Hmax. subst ml'.
  unfold train_setup, build_net. cbn [shape1]. mrun. reflexivity.
Qed.

(** X1.  [train] on a matrix of inputs empties the buffer before it stores
    anything (line 114): what the buffer held before the call changes
    neither the outcome of the call nor the state it leaves. *)
Theorem train_forgets_buffer (c : nat) (rows : list (list R)) (y : ndarray)
    (d : deque.t Params) (s : SGLDNet) :
  deque.maxlen d = deque.maxlen (samples s) ->
  train (Mat c rows) y (set_samples d s) = train (Mat c rows) y s.
Proof.
  intros Hmax. unfold train. unfold bind at 1 3.
  rewrite train_setup_forgets_buffer by exact Hmax. reflexivity.
Qed.

(** More of what the set-up leaves: the trained flag as it was, the
    network as [get_net] initialised it, and the data as given or
    normalised with its own statistics. *)
Lemma train_setup_more (s s0 : SGLDNet) (c cy : nat) (rows yrows : list (list R)) :
  train_setup (Mat c rows) (Mat cy yrows) s = (Return tt, s0) ->
  is_trained s0 = is_trained s /\
  net s0 = Some (fst (get_net (rng s) c)) /\
  (normalize_input s = false -> X s0 = Some (Mat c rows)) /\
  (normalize_input s = true ->
   exists q m sd,
     normalize_inputs (Mat c rows) None None = Return (q, m, sd) /\
     X s0 = Some q /\ x_mean s0 = Some m /\ x_std s0 = Some sd) /\
  (normalize_output s = false -> Y s0 = Some (Mat cy yrows)) /\
  (normalize_output s = true ->
   exists q m sd,
     normalize_targets (Mat cy yrows) None None = Return (q, m, sd) /\
     Y s0 = Some q /\ y_mean s0 = Some m /\ y_std s0 = Some sd).
Proof.
  destruct (normalize_inputs_mat c rows) as (rows1 & m & sd & Hnx & Hlx & Hm & Hsd).
  destruct (normalize_targets_mat cy yrows) as (rows2 & my & sdy & Hny & Hly & Hmy & Hsdy).
  unfold train_setup, build_net, store_inputs, store_targets, prepare, fit_bsize.
  cbn [shape1]. mrun.
  destruct s as [r nn lr ni ns w bs bi pc tr no nin smp x xm xs y ym ys nt sm].
  mrun.
  destruct nin; rewrite ?Hnx; mrun; destruct no; rewrite ?Hny; mrun;
    cbn [shape0]; rewrite ?Hlx; mrun;
    destruct (Z.of_nat (length rows) <? bs)%Z; mrun;
    intros Hrun; injection Hrun as <-;
    (split; [reflexivity |]; split; [reflexivity |];
     split; [intros Hflag; try discriminate Hflag; reflexivity |];
     split; [intros Hflag; try discriminate Hflag;
             do 3 eexists; repeat apply conj; reflexivity |];
     split; [intros Hflag; try discriminate Hflag; reflexivity |];
     intros Hflag; try discriminate Hflag;
     do 3 eexists; repeat apply conj; reflexivity).
Qed.

Lemma train_loop_guard_false (fuel : nat) (i : Z) (s : SGLDNet) :
  loop_guard i s = false -> train_loop fuel i s = (Return i, s).
Proof. intros Hg. destruct fuel; cbn [train_loop]; rewrite Hg; reflexivity. Qed.

Lemma train_from_setup (x y : ndarray) (s s0 : SGLDNet) :
  train_setup x y s = (Return tt, s0) ->
  train x y s =
  bind (train_loop (Z.to_nat (n_iters s0)) 0) (fun _ => modify (set_is_trained true)) s0.
Proof.
  intros Hrun. unfold train. rewrite bind_run with (1 := Hrun). reflexivity.
Qed.

(** X2.  With [n_iters <= 0] or [n_nets = 0] the loop of [train] is never
    entered: the call returns and sets [is_trained], though no sampler step
    was made and no sample stored; the network has the weights [get_net]
    drew. *)
Theorem train_without_iterations (s : SGLDNet) (c cy : nat)
    (rows yrows : list (list R)) :
  (n_iters s <= 0)%Z \/ n_nets s = 0 ->
  exists s' : SGLDNet,
    train (Mat c rows) (Mat cy yrows) s = (Return tt, s') /\
    is_trained s' = true /\
    deque.items (samples s') = [] /\
    net s' = Some (fst (get_net (rng s) c)).
Proof.
  intros Hnone.
  destruct (train_setup_run s c cy rows yrows)
    as (s0 & rows' & yrows' & p0 & Hrun & _ & _ & _ & _ & _ & _ & Hbuf & _
        & (Hnn & _ & Hni & _)).
  assert (Hmore := Hrun). apply train_setup_more in Hmore.
  destruct Hmore as (_ & Hnet & _).
  assert (Hguard : loop_guard 0 s0 = false).
  { unfold loop_guard, deque.len. rewrite Hbuf, Hni, Hnn. cbn [deque.clear deque.items length].
    destruct Hnone as [Hn | Hm].
    - destruct (Z.ltb_spec 0 (n_iters s)) as [? | _]; [lia | reflexivity].
    - rewrite Hm. apply andb_false_r. }
  exists (set_is_trained true s0).
  rewrite train_from_setup with (1 := Hrun).
  unfold bind at 1. rewrite train_loop_guard_false by exact Hguard.
  split; [reflexivity |].
  destruct s0 as [r nn lr ni ns w bs bi pc tr no nin smp x xm xs y ym ys nt sm].
  cbn in Hbuf, Hnet. subst smp nt. repeat apply conj; reflexivity.
Qed.

(** X3.  On inputs with no row the first mini-batch of [train] divides by the
    row count: when the loop is entered ([n_iters > 0] and [n_nets > 0])
    the call raises [ZeroDivisionError] at line 145.  By then the buffer
    was emptied and [bsize] lowered to 0; [is_trained] is what it was. *)
Theorem train_on_no_rows (s : SGLDNet) (c cy : nat) (yrows : list (list R)) :
  (0 < n_iters s)%Z -> 0 < n_nets s ->
  exists s' : SGLDNet,
    train (Mat c []) (Mat cy yrows) s = (Raise ZeroDivisionError, s') /\
    deque.items (samples s') = [] /\
    is_trained s' = is_trained s /\
    bsize s' = Z.min (bsize s) 0.
Proof.
  intros Hn Hm.
  destruct (train_setup_run s c cy [] yrows)
    as (s0 & rows' & yrows' & p0 & Hrun & HX & Hlx & _ & _ & _ & _ & Hbuf & Hbs
        & (Hnn & _ & Hni & _)).
  assert (Hmore := Hrun). apply train_setup_more in Hmore.
  destruct Hmore as (Htr & _).
  exists s0. rewrite train_from_setup with (1 := Hrun).
  split; [| split; [rewrite Hbuf; reflexivity | split; [exact Htr |]]].
  - assert (Hguard : loop_guard 0 s0 = true).
    { unfold loop_guard, deque.len. rewrite Hbuf, Hni, Hnn.
      cbn [deque.clear deque.items length].
      apply andb_true_intro. split; [apply Z.ltb_lt | apply Nat.ltb_lt]; assumption. }
    destruct (Z.to_nat (n_iters s0)) as [| fuel] eqn:Hfuel; [lia |].
    unfold bind at 1. cbn [train_loop]. rewrite Hguard.
    unfold bind at 1. unfold train_iter. unfold bind at 1.
    unfold sgld_step. unfold bind at 1.
    unfold minibatch, bind, gets, attr, lift. rewrite HX. cbn [shape0].
    rewrite Hlx. reflexivity.
  - rewrite Hbs. cbn [length Z.of_nat].
    destruct (Z.ltb_spec 0 (bsize s)); lia.
Qed.

(** *** The trained flag *)

Lemma stays_trained_refl (s : SGLDNet) : stays_trained s s.
Proof. intros H. exact H. Qed.

Lemma stays_trained_trans (s1 s2 s3 : SGLDNet) :
  stays_trained s1 s2 -> stays_trained s2 s3 -> stays_trained s1 s3.
Proof. unfold stays_trained. auto. Qed.

Ltac flag_step :=
  cbv zeta;
  lazymatch goal with
  | |- keeps _ (ret _) => apply keeps_ret; apply stays_trained_refl
  | |- keeps _ (lift _) => apply keeps_lift; apply stays_trained_refl
  | |- keeps _ (gets _) => apply keeps_gets; apply stays_trained_refl
  | |- keeps _ (attr _ _) => apply keeps_attr; apply stays_trained_refl
  | |- keeps _ (modify _) =>
      apply keeps_modify; let s := fresh "s" in let H := fresh "H" in
      intros s H; destruct s; first [exact H | reflexivity]
  | |- keeps _ (bind _ _) =>
      apply keeps_bind; [apply stays_trained_trans | | intros ?]
  | |- keeps _ (if ?b then _ else _) => destruct b
  end.

Lemma train_iter_flag (i : Z) : keeps stays_trained (train_iter i).
Proof.
  unfold train_iter, sgld_step, minibatch, step, snapshot. repeat flag_step.
Qed.

Lemma train_loop_flag (fuel : nat) :
  forall i, keeps stays_trained (train_loop fuel i).
Proof.
  induction fuel as [| fuel IH]; intros i s; cbn [train_loop];
    destruct (loop_guard i s); try apply stays_trained_refl.
  apply (@keeps_bind stays_trained stays_trained_trans).
  - apply train_iter_flag.
  - intros _. apply IH.
Qed.

Lemma train_setup_flag (x y : ndarray) : keeps stays_trained (train_setup x y).
Proof.
  unfold train_setup, build_net, store_inputs, store_targets, prepare, fit_bsize.
  repeat flag_step.
Qed.

(** X4.  No line of [train] sets [is_trained] to false: a model that was
    trained still reports so after any later call of [train], also one that
    raised after emptying the buffer; and every call that returns leaves
    the flag set. *)
Theorem train_never_unsets_is_trained (x y : ndarray) (s : SGLDNet) :
  (is_trained s = true -> is_trained (snd (train x y s)) = true) /\
  (fst (train x y s) = Return tt -> is_trained (snd (train x y s)) = true).
Proof.
  split.
  - assert (Hk : keeps stays_trained (train x y)).
    { unfold train. flag_step; [apply train_setup_flag |].
      flag_step; [flag_step |].
      flag_step; [apply train_loop_flag | flag_step]. }
    apply Hk.
  - unfold train, bind, gets, modify.
    destruct (train_setup x y s) as [[[] | e | l] s0]; cbn [fst]; try discriminate.
    destruct (train_loop _ _ s0) as [[i | e | l] s1]; cbn [fst]; try discriminate.
    intros _. destruct s1. reflexivity.
Qed.

(** *** How many samples a call collects *)

Lemma snapshot_count (b : Z) (m : nat) :
  length (filter (snapshot_due b) (seq 0 m)) =
  Z.to_nat ((Z.of_nat m + 199) / 200 - (Z.max b 0 + 199) / 200).
Proof.
  induction m as [| m IH].
  - cbn [seq filter length Z.of_nat]. Z.div_mod_to_equations. lia.
  - rewrite seq_S, filter_app, length_app, IH. cbn [Nat.add seq filter].
    unfold snapshot_due.
    destruct (Z.eqb_spec (Z.of_nat m mod 200) 0) as [Hmod | Hmod];
      destruct (Z.leb_spec b (Z.of_nat m)) as [Hb | Hb];
      cbn [andb length]; rewrite Nat2Z.inj_succ;
      Z.div_mod_to_equations; lia.
Qed.

Lemma snapshot_iters_count (n b : Z) :
  length (snapshot_iters n b) = due_count n b.
Proof.
  unfold snapshot_iters, due_count. rewrite snapshot_count.
  Z.div_mod_to_equations. lia.
Qed.

(** X5.  On N >= 1 rows, [train] returns with
    [min(n_nets, ceil(n_iters / 200) - ceil(max(burn_in, 0) / 200))]
    samples in the buffer: one for every multiple of 200 from [burn_in] up
    to [n_iters - 1], until the buffer is full. *)
Theorem train_sample_count (s : SGLDNet) (c cy : nat) (rows yrows : list (list R)) :
  rows <> [] ->
  deque.maxlen (samples s) = n_nets s ->
  exists s' : SGLDNet,
    train (Mat c rows) (Mat cy yrows) s = (Return tt, s') /\
    deque.len (samples s') =
      Nat.min (n_nets s) (due_count (n_iters s) (burn_in s)).
Proof.
  intros Hrows Hmax.
  destruct (train_run s c cy yrows Hrows Hmax)
    as (s0 & d' & _ & _ & _ & Htrain & Hitems & _).
  set (r := schedule (n_iters s) (burn_in s) (n_nets s) (Z.to_nat (n_iters s)) 0 [])
    in *.
  exists (set_is_trained true (set_samples d' (chain s0 (fst r)))).
  split; [exact Htrain |].
  change (samples (set_is_trained true (set_samples d' (chain s0 (fst r))))) with d'.
  unfold deque.len.
  rewrite <- (length_map Some), Hitems, length_map. unfold r.
  rewrite schedule_taken by (cbn [length]; lia).
  rewrite Nat.sub_0_r. cbn [app].
  fold (snapshot_iters (n_iters s) (burn_in s)).
  rewrite length_firstn, snapshot_iters_count. reflexivity.
Qed.

(** ** More on prediction *)

Local Open Scope R_scope.

(** [predict] on a trained model with a non-empty buffer, step by step. *)
Lemma predict_run (s : SGLDNet) (D : nat) (mu sd : R) (rows : list (list R)) :
  trained_on s D mu sd ->
  deque.items (samples s) <> [] ->
  exists rows_,
    normalized_test (Mat D rows) s = (Return (Mat D rows_), s) /\
    length rows_ = length rows /\
    let outs := sample_outputs (deque.items (samples s)) rows_ in
    let denorm := fun m => if normalize_output s then mu + m * sd else m in
    predict (Mat D rows) s =
    (Return
       (Some
          (Mat 1 (map (fun j => [denorm (ensemble_mean outs j)]) (seq 0 (length rows))),
           Mat 1 (map (fun j => [population_variance outs j]) (seq 0 (length rows))))),
     loaded (deque.items (samples s)) s).
Proof.
  intros Htr Hne.
  destruct (normalized_test_run rows Htr) as (rows_ & Hnt & Hlen).
  destruct Htr as (Histr & Hnet & _ & Hout).
  exists rows_. split; [exact Hnt |]. split; [exact Hlen |]. intros outs denorm.
  assert (Houts : outs <> []).
  { unfold outs, sample_outputs. destruct (deque.items (samples s));
      [contradiction | discriminate]. }
  unfold predict. rewrite bind_gets, Histr. cbn [negb].
  rewrite bind_run with (1 := Hnt). rewrite bind_gets.
  rewrite bind_run with (1 := @predict_loop_run D rows_ _ [] s Hnet). cbn [app].
  rewrite <- (map_map (fun sample => map (forward sample) rows_) Vec).
  fold (sample_outputs (deque.items (samples s)) rows_). fold outs.
  assert (Hwf : Forall (fun r => length r = length rows_) outs)
    by apply sample_outputs_wf.
  rewrite bind_lift with (1 := asarray_outs Houts Hwf).
  rewrite bind_lift with (1 := mean0_outs _ outs).
  rewrite bind_lift with (1 := var0_outs Hwf).
  destruct (loaded_fields (deque.items (samples s)) s) as (Hno & Hym & Hys).
  unfold denormalized. rewrite bind_run
    with (a := Vec (map denorm (map (ensemble_mean outs) (seq 0 (length rows_)))))
         (s' := loaded (deque.items (samples s)) s).
  - cbn [newaxis1]. unfold bind, lift, ret. rewrite !map_map, Hlen. reflexivity.
  - rewrite bind_gets, Hno. unfold denorm. destruct (normalize_output s).
    + destruct (Hout eq_refl) as [Emu Esd].
      unfold bind, attr. rewrite Hym, Emu, Hys, Esd.
      unfold lift. rewrite denormalize_vec. reflexivity.
    + unfold ret. rewrite map_id. reflexivity.
Qed.

Lemma set_params_twice (p q : Params) (s : SGLDNet) :
  set_params q (set_params p s) = set_params q s.
Proof. destruct s. reflexivity. Qed.

Lemma loaded_last (smp : list Params) :
  forall s : SGLDNet,
    smp <> [] -> loaded smp s = set_params (last smp []) s.
Proof.
  unfold loaded.
  induction smp as [| a smp IH]; intros s Hne; [contradiction |].
  destruct smp as [| b smp]; [reflexivity |].
  cbn [fold_left] in *. rewrite IH by discriminate.
  rewrite set_params_twice. reflexivity.
Qed.

(** X6.  [predict] is no read-only query: it loads every stored sample into the
    network and restores nothing, so it leaves the network with the weights
    of the newest sample in place of those the sampler had reached.  No
    other attribute changes. *)
Theorem predict_leaves_last_sample_loaded (s : SGLDNet) (D : nat) (mu sd : R)
    (rows : list (list R)) :
  trained_on s D mu sd ->
  deque.items (samples s) <> [] ->
  exists m v : ndarray,
    predict (Mat D rows) s =
    (Return (Some (m, v)), set_params (last (deque.items (samples s)) []) s).
Proof.
  intros Htr Hne.
  destruct (predict_run rows Htr Hne) as (rows_ & _ & _ & Hpred).
  cbv zeta in Hpred. rewrite loaded_last in Hpred by exact Hne.
  do 2 eexists. exact Hpred.
Qed.

(** The result of [predict] does not depend on the weights the network
    holds when it is called. *)
Lemma predict_set_params (X_test : ndarray) (q : Params) (s : SGLDNet) :
  (exists p, net s = Some p) ->
  fst (predict X_test (set_params q s)) = fst (predict X_test s).
Proof.
  intros [p Hp].
  destruct s as [r nn lr ni ns w bs bi pc tr no nin sm x xm xs y ym ys nt sa].
  cbn in Hp. subst nt. unfold predict, normalized_test. mrun.
  destruct tr; cbn [negb]; [| reflexivity].
  destruct nin; mrun.
  - destruct (normalize_inputs X_test xm xs) as [[[a b] c] | e | l]; mrun;
      try reflexivity.
    destruct (deque.items sm) as [| sample rest]; cbn [predict_loop];
      unfold set_all_param_values; mrun.
    + destruct (asarray []) as [pa | e | l]; try reflexivity.
      destruct (mean0 pa) as [m | e | l]; try reflexivity.
      destruct (var0 pa) as [v | e | l]; try reflexivity.
      unfold denormalized. mrun. destruct no; mrun.
      * destruct ym; [| reflexivity]. destruct ys; [| reflexivity].
        destruct (denormalize _ _ _) as [m' | e | l]; try reflexivity.
        destruct (newaxis1 m'); try reflexivity.
        destruct (newaxis1 v); reflexivity.
      * destruct (newaxis1 m); try reflexivity.
        destruct (newaxis1 v); reflexivity.
    + reflexivity.
  - destruct (deque.items sm) as [| sample rest]; cbn [predict_loop];
      unfold set_all_param_values; mrun.
    + destruct (asarray []) as [pa | e | l]; try reflexivity.
      destruct (mean0 pa) as [m | e | l]; try reflexivity.
      destruct (var0 pa) as [v | e | l]; try reflexivity.
      unfold denormalized. mrun. destruct no; mrun.
      * destruct ym; [| reflexivity]. destruct ys; [| reflexivity].
        destruct (denormalize _ _ _) as [m' | e | l]; try reflexivity.
        destruct (newaxis1 m'); try reflexivity.
        destruct (newaxis1 v); reflexivity.
      * destruct (newaxis1 m); try reflexivity.
        destruct (newaxis1 v); reflexivity.
    + reflexivity.
Qed.

(** X7.  Though [predict] changes the network, a second call returns what the
    first call would have returned: every call reloads the stored samples
    itself. *)
Theorem predict_is_repeatable (s : SGLDNet) (D : nat) (mu sd : R)
    (rows : list (list R)) (X_test : ndarray) :
  trained_on s D mu sd ->
  deque.items (samples s) <> [] ->
  fst (predict X_test (snd (predict (Mat D rows) s))) = fst (predict X_test s).
Proof.
  intros Htr Hne.
  destruct (predict_run rows Htr Hne) as (rows_ & _ & _ & Hpred).
  cbv zeta in Hpred. rewrite Hpred. cbn [snd].
  rewrite loaded_last by exact Hne.
  apply predict_set_params. destruct Htr as (_ & Hnet & _). exact Hnet.
Qed.

(** ** Sums, means and deviations *)

Lemma sum_list_scale (c : R) (l : list R) :
  sum_list (map (fun x => c * x) l) = c * sum_list l.
Proof.
  induction l as [| x l IH]; cbn [map].
  - rewrite sum_list_nil. ring.
  - rewrite !sum_list_cons, IH. ring.
Qed.

Lemma sum_list_affine (a b : R) (l : list R) :
  sum_list (map (fun x => a + x * b) l) = INR (length l) * a + sum_list l * b.
Proof.
  induction l as [| x l IH]; cbn [map length].
  - rewrite sum_list_nil. cbn [INR]. ring.
  - rewrite !sum_list_cons, IH, S_INR. ring.
Qed.

Lemma INR_length_nonzero (A : Type) (l : list A) : l <> [] -> INR (length l) <> 0.
Proof.
  intros Hne. apply not_0_INR. destruct l; [contradiction | discriminate].
Qed.

Lemma mean_list_affine (a b : R) (l : list R) :
  l <> [] -> mean_list (map (fun x => a + x * b) l) = a + mean_list l * b.
Proof.
  intros Hne. unfold mean_list. rewrite sum_list_affine, length_map.
  field. apply INR_length_nonzero. exact Hne.
Qed.

Lemma mean_list_scale (c : R) (l : list R) :
  mean_list (map (fun x => c * x) l) = c * mean_list l.
Proof.
  unfold mean_list. rewrite sum_list_scale, length_map. unfold Rdiv. ring.
Qed.

Lemma mean_list_single (x : R) : mean_list [x] = x.
Proof.
  unfold mean_list. rewrite sum_list_cons, sum_list_nil. cbn [length INR]. field.
Qed.

Lemma sq_dev_affine (a b m : R) (l : list R) :
  sq_dev (a + m * b) (map (fun x => a + x * b) l) =
  map (fun d => b * b * d) (sq_dev m l).
Proof.
  unfold sq_dev. rewrite !map_map. apply map_ext. intros x. ring.
Qed.

Lemma sum_list_nonneg (l : list R) :
  Forall (fun x => 0 <= x) l -> 0 <= sum_list l.
Proof.
  induction 1 as [| x l Hx _ IH].
  - rewrite sum_list_nil. lra.
  - rewrite sum_list_cons. lra.
Qed.

Lemma mean_list_nonneg (l : list R) :
  Forall (fun x => 0 <= x) l -> 0 <= mean_list l.
Proof.
  intros Hl. unfold mean_list. destruct l as [| x l].
  - rewrite sum_list_nil. unfold Rdiv. rewrite Rmult_0_l. lra.
  - apply Rmult_le_pos; [apply sum_list_nonneg; exact Hl |].
    apply Rlt_le, Rinv_0_lt_compat, lt_0_INR. cbn [length]. lia.
Qed.

Lemma sq_dev_nonneg (m : R) (l : list R) : Forall (fun x => 0 <= x) (sq_dev m l).
Proof.
  unfold sq_dev. apply Forall_forall. intros d Hd.
  apply in_map_iff in Hd. destruct Hd as (x & <- & _).
  change (0 <= Rsqr (x - m)). apply Rle_0_sqr.
Qed.

Lemma population_variance_nonneg (outs : list (list R)) (j : nat) :
  0 <= population_variance outs j.
Proof. unfold population_variance. apply mean_list_nonneg, sq_dev_nonneg. Qed.

Lemma map_seq_nth (A B : Type) (g : A -> B) (d : A) (l : list A) :
  map (fun j => g (nth j l d)) (seq 0 (length l)) = map g l.
Proof.
  induction l as [| a l IH]; cbn [length seq map nth]; [reflexivity |].
  rewrite <- seq_shift, map_map. cbn [nth]. rewrite IH. reflexivity.
Qed.

Lemma nth_map_seq_any (A : Type) (g : nat -> A) (d : A) (n j : nat) :
  (j < n)%nat -> nth j (map g (seq 0 n)) d = g j.
Proof.
  intros Hj.
  rewrite (nth_indep _ d (g 0%nat)) by (rewrite length_map, length_seq; exact Hj).
  rewrite map_nth, seq_nth by exact Hj. reflexivity.
Qed.

Lemma column_map (g : R -> R) (n j : nat) (outs : list (list R)) :
  Forall (fun r => length r = n) outs -> (j < n)%nat ->
  column j (map (map g) outs) = map g (column j outs).
Proof.
  intros Hwf Hj. unfold column. rewrite !map_map. apply map_ext_in.
  intros r Hr. rewrite Forall_forall in Hwf. specialize (Hwf r Hr).
  apply nth_map_in. lia.
Qed.

(** ** The variance [predict] reports *)

(** X8.  The variance [predict] returns is never negative. *)
Theorem predict_variance_nonnegative (s : SGLDNet) (D : nat) (mu sd : R)
    (rows : list (list R)) :
  trained_on s D mu sd ->
  deque.items (samples s) <> [] ->
  exists (m : ndarray) (vs : list (list R)) (s' : SGLDNet),
    predict (Mat D rows) s = (Return (Some (m, Mat 1 vs)), s') /\
    length vs = length rows /\
    Forall (fun r => exists v, r = [v] /\ 0 <= v) vs.
Proof.
  intros Htr Hne.
  destruct (predict_run rows Htr Hne) as (rows_ & _ & _ & Hpred).
  cbv zeta in Hpred. do 3 eexists. split; [exact Hpred |].
  split; [rewrite length_map, length_seq; reflexivity |].
  apply Forall_forall. intros r Hr. apply in_map_iff in Hr.
  destruct Hr as (j & <- & _). eexists. split; [reflexivity |].
  apply population_variance_nonneg.
Qed.

(** X9.  With a single sample in the buffer (as for [n_nets = 1]) the mean
    [predict] returns is that sample's output, mapped back when the targets
    were normalised, and the variance is 0 at every test point. *)
Theorem predict_single_sample (s : SGLDNet) (D : nat) (mu sd : R)
    (rows : list (list R)) (sample : Params) :
  trained_on s D mu sd ->
  deque.items (samples s) = [sample] ->
  exists rows_,
    normalized_test (Mat D rows) s = (Return (Mat D rows_), s) /\
    let denorm := fun m => if normalize_output s then mu + m * sd else m in
    predict (Mat D rows) s =
    (Return
       (Some (Mat 1 (map (fun r => [denorm (forward sample r)]) rows_),
              Mat 1 (map (fun _ => [0]) rows_))),
     set_params sample s).
Proof.
  intros Htr Hone.
  assert (Hne : deque.items (samples s) <> []) by (rewrite Hone; discriminate).
  destruct (predict_run rows Htr Hne) as (rows_ & Hnt & Hlen & Hpred).
  exists rows_. split; [exact Hnt |].
  cbv beta zeta in Hpred |- *. rewrite Hpred, Hone.
  unfold loaded, sample_outputs. cbn [fold_left map].
  set (o := map (forward sample) rows_).
  assert (Ho : length o = length rows) by (unfold o; rewrite length_map; exact Hlen).
  rewrite <- Ho.
  assert (Hmean : forall g : R -> R,
            map (fun j => [g (ensemble_mean [o] j)]) (seq 0 (length o)) =
            map (fun r => [g (forward sample r)]) rows_).
  { intros g. transitivity (map (fun x => [g x]) o).
    - rewrite <- (map_seq_nth (fun x => [g x]) 0 o).
      apply map_ext. intros j. unfold ensemble_mean, column. cbn [map].
      rewrite mean_list_single. reflexivity.
    - unfold o. rewrite map_map. reflexivity. }
  assert (Hvar : map (fun j => [population_variance [o] j]) (seq 0 (length o)) =
                 map (fun _ => [0]) rows_).
  { transitivity (map (fun _ : R => [0]) o).
    - rewrite <- (map_seq_nth (fun _ : R => [0]) 0 o).
      apply map_ext. intros j.
      unfold population_variance, ensemble_mean, column, sq_dev.
      cbn [map]. rewrite !mean_list_single. f_equal. ring.
    - unfold o. rewrite map_map. reflexivity. }
  specialize (Hmean (fun m => if normalize_output s then mu + m * sd else m)).
  cbv beta in Hmean. rewrite Hvar, Hmean. reflexivity.
Qed.

(** ** [predict] and [sample_functions] together *)

Lemma draws_are_outputs (smp : list Params) (no : bool) (mu sd : R)
    (rows_ : list (list R)) :
  map (draw smp no mu sd rows_) (seq 0 (length smp)) =
  map (map (fun m => if no then mu + m * sd else m)) (sample_outputs smp rows_).
Proof.
  unfold draw, sample_outputs. rewrite map_map.
  apply (map_seq_nth
           (fun sample =>
              map (fun m => if no then mu + m * sd else m) (map (forward sample) rows_))
           [] smp).
Qed.

(** X10.  The mean [predict] returns is the mean of the functions
    [sample_functions] draws when asked for one per stored sample.  The
    variance of these functions is [y_std ** 2] times the variance
    [predict] returns when the targets were normalised: [predict] maps the
    mean back to the units of the targets, not the variance. *)
Theorem predict_summarises_sample_functions (s : SGLDNet) (D : nat) (mu sd : R)
    (rows : list (list R)) :
  trained_on s D mu sd ->
  deque.items (samples s) <> [] ->
  exists (M V F : list (list R)) (s1 s2 : SGLDNet),
    predict (Mat D rows) s = (Return (Some (Mat 1 M, Mat 1 V)), s1) /\
    sample_functions (Mat D rows) (deque.len (samples s)) s =
      (Return (Mat (length rows) F), s2) /\
    forall j : nat, (j < length rows)%nat ->
      nth j M [] = [ensemble_mean F j] /\
      exists v : R,
        nth j V [] = [v] /\
        population_variance F j = (if normalize_output s then sd * sd * v else v).
Proof.
  intros Htr Hne.
  destruct (predict_run rows Htr Hne) as (rows_ & Hnt & Hlen & Hpred).
  cbv zeta in Hpred.
  set (smp := deque.items (samples s)) in *.
  set (outs := sample_outputs smp rows_) in *.
  set (no := normalize_output s) in *.
  assert (Hs : draws_from s smp no mu sd).
  { destruct Htr as (_ & Hnet & _ & Hout).
    repeat split; try assumption; apply Hout; assumption. }
  destruct (@sample_loop_run D rows_ smp no mu sd (length smp) 0 s
              (repeat (repeat 0 (length rows_)) (length smp)) Hs)
    as (s2 & Hrun); [lia | apply repeat_length |].
  cbn [Nat.add seq map app] in Hrun.
  do 3 eexists. exists (loaded smp s), s2.
  split; [exact Hpred |]. split.
  { unfold sample_functions. rewrite bind_run with (1 := Hnt).
    unfold deque.len. fold smp. cbn [shape0]. unfold bind at 1. unfold lift at 1.
    unfold zeros. rewrite <- Hlen. exact Hrun. }
  intros j Hj. rewrite draws_are_outputs. fold outs.
  assert (Hwf : Forall (fun r => length r = length rows) outs).
  { rewrite <- Hlen. apply sample_outputs_wf. }
  assert (Hcol : column j outs <> []).
  { unfold column, outs, sample_outputs. fold smp in Hne.
    destruct smp; [contradiction | discriminate]. }
  rewrite !nth_map_seq_any by exact Hj.
  unfold population_variance, ensemble_mean.
  rewrite (column_map _ Hwf Hj).
  split.
  - f_equal. destruct no.
    + rewrite mean_list_affine by exact Hcol. reflexivity.
    + rewrite map_id. reflexivity.
  - eexists. split; [reflexivity |]. destruct no.
    + rewrite mean_list_affine by exact Hcol.
      rewrite sq_dev_affine, mean_list_scale. reflexivity.
    + rewrite map_id. reflexivity.
Qed.

(** ** Normalisation with the data's own statistics *)

Lemma map_const_seq (A : Type) (a : A) (n : nat) :
  forall k : nat, map (fun _ => a) (seq k n) = repeat a n.
Proof.
  induction n as [| n IH]; intros k; cbn [seq map repeat]; [reflexivity |].
  rewrite IH. reflexivity.
Qed.

(** What [normalize_inputs] returns for a matrix: every entry less the
    mean of its column, over the deviation of its column. *)
Lemma normalize_inputs_formula (c : nat) (rows : list (list R)) :
  Forall (fun r => length r = c) rows ->
  let ms := map (ensemble_mean rows) (seq 0 c) in
  let sds := map (fun j => sqrt (population_variance rows j)) (seq 0 c) in
  normalize_inputs (Mat c rows) None None =
  Return (Mat c (map (fun r => zipWith Rdiv (zipWith Rminus r ms) sds) rows),
          Vec ms, Vec sds).
Proof.
  intros Hwf ms sds.
  assert (Hms : length ms = c) by (unfold ms; rewrite length_map, length_seq; reflexivity).
  assert (Hsds : length sds = c) by (unfold sds; rewrite length_map, length_seq; reflexivity).
  unfold normalize_inputs, or_else, std0.
  rewrite mean0_outs, (var0_outs Hwf). cbn [obind map_nd]. rewrite map_map.
  fold ms. fold sds. unfold subtract, divide.
  rewrite binop_mat_vec by exact Hms. cbn [obind].
  rewrite binop_mat_vec by exact Hsds. cbn [obind].
  rewrite map_map. do 4 f_equal. apply map_ext_in. intros r Hr.
  rewrite Forall_forall in Hwf. specialize (Hwf r Hr).
  rewrite (broadcast_same Rminus 0 r ms) by congruence.
  rewrite broadcast_same by (rewrite zipWith_length; lia).
  reflexivity.
Qed.

Lemma normalized_column (c : nat) (rows : list (list R)) (ms sds : list R) (j : nat) :
  Forall (fun r => length r = c) rows ->
  length ms = c -> length sds = c -> (j < c)%nat ->
  column j (map (fun r => zipWith Rdiv (zipWith Rminus r ms) sds) rows) =
  map (fun x => - nth j ms 0 / nth j sds 0 + x * / nth j sds 0) (column j rows).
Proof.
  intros Hwf Hms Hsds Hj. unfold column. rewrite !map_map.
  apply map_ext_in. intros r Hr.
  rewrite Forall_forall in Hwf. specialize (Hwf r Hr).
  rewrite nth_zipWith by (rewrite zipWith_length; lia).
  rewrite zipWith_length, Hwf, Hms, Nat.min_id.
  destruct (Nat.ltb_spec j c) as [_ | ?]; [| lia].
  rewrite nth_zipWith by congruence. rewrite Hwf.
  destruct (Nat.ltb_spec j c) as [_ | ?]; [| lia].
  unfold Rdiv. ring.
Qed.

(** The statistics of a matrix normalised with its own statistics. *)
Lemma standardised (c : nat) (rows : list (list R)) (q m sd : ndarray) :
  Forall (fun r => length r = c) rows ->
  rows <> [] ->
  normalize_inputs (Mat c rows) None None = Return (q, m, sd) ->
  Forall (fun v => v <> 0) (entries sd) ->
  mean0 q = Return (Vec (repeat 0 c)) /\
  var0 q = Return (Vec (repeat 1 c)) /\
  std0 q = Return (Vec (repeat 1 c)).
Proof.
  intros Hwf Hrows Hnorm Hnz.
  rewrite (normalize_inputs_formula Hwf) in Hnorm. cbv zeta in Hnorm.
  injection Hnorm as <- <- <-. cbn [entries] in Hnz.
  set (ms := map (ensemble_mean rows) (seq 0 c)) in *.
  set (sds := map (fun j => sqrt (population_variance rows j)) (seq 0 c)) in *.
  assert (Hms : length ms = c) by (unfold ms; rewrite length_map, length_seq; reflexivity).
  assert (Hsds : length sds = c) by (unfold sds; rewrite length_map, length_seq; reflexivity).
  set (qrows := map (fun r => zipWith Rdiv (zipWith Rminus r ms) sds) rows).
  assert (Hqwf : Forall (fun r => length r = c) qrows).
  { unfold qrows. apply Forall_forall. intros r Hr. apply in_map_iff in Hr.
    destruct Hr as (r0 & <- & Hr0). rewrite Forall_forall in Hwf.
    specialize (Hwf r0 Hr0). rewrite !zipWith_length. lia. }
  assert (Hcol : forall j, column j rows <> []).
  { intros j. unfold column. destruct rows; [contradiction | discriminate]. }
  assert (Hmj : forall j, (j < c)%nat -> nth j ms 0 = mean_list (column j rows)).
  { intros j Hj. unfold ms. rewrite nth_map_seq by exact Hj. reflexivity. }
  assert (Hsj : forall j, (j < c)%nat ->
            nth j sds 0 <> 0 /\
            nth j sds 0 * nth j sds 0 = population_variance rows j).
  { intros j Hj. split.
    - rewrite Forall_forall in Hnz. apply Hnz. apply nth_In. lia.
    - unfold sds. rewrite nth_map_seq by exact Hj.
      apply sqrt_sqrt, population_variance_nonneg. }
  assert (Hmean : forall j, (j < c)%nat -> ensemble_mean qrows j = 0).
  { intros j Hj. unfold ensemble_mean, qrows.
    rewrite (@normalized_column c rows ms sds j Hwf Hms Hsds Hj).
    rewrite mean_list_affine by apply Hcol.
    rewrite (Hmj j Hj). destruct (Hsj j Hj) as [Hz _]. field. exact Hz. }
  assert (Hvar : forall j, (j < c)%nat -> population_variance qrows j = 1).
  { intros j Hj. unfold population_variance, ensemble_mean, qrows.
    rewrite (@normalized_column c rows ms sds j Hwf Hms Hsds Hj).
    rewrite mean_list_affine by apply Hcol.
    rewrite sq_dev_affine, mean_list_scale.
    destruct (Hsj j Hj) as [Hz Hsq].
    fold (ensemble_mean rows j). fold (population_variance rows j).
    rewrite <- Hsq. field. exact Hz. }
  assert (Hv : var0 (Mat c qrows) = Return (Vec (repeat 1 c))).
  { rewrite (var0_outs Hqwf). do 2 f_equal.
    rewrite <- (map_const_seq 1 c 0). apply map_ext_in.
    intros j Hj. apply in_seq in Hj. apply Hvar. lia. }
  split; [| split; [exact Hv |]].
  - rewrite mean0_outs. do 2 f_equal.
    rewrite <- (map_const_seq 0 c 0). apply map_ext_in.
    intros j Hj. apply in_seq in Hj. apply Hmean. lia.
  - unfold std0. rewrite Hv. cbn [obind map_nd]. do 2 f_equal.
    rewrite map_repeat, sqrt_1. reflexivity.
Qed.

(** X11.  Inputs, or targets, normalised with their own statistics have mean 0
    and variance 1 in every column that is not constant. *)
Theorem normalize_gives_zero_mean_unit_variance (c : nat) (rows : list (list R))
    (q m sd : ndarray) :
  wf (Mat c rows) ->
  rows <> [] ->
  normalize_inputs (Mat c rows) None None = Return (q, m, sd) \/
  normalize_targets (Mat c rows) None None = Return (q, m, sd) ->
  Forall (fun v => v <> 0) (entries sd) ->
  mean0 q = Return (Vec (repeat 0 c)) /\
  var0 q = Return (Vec (repeat 1 c)) /\
  std0 q = Return (Vec (repeat 1 c)).
Proof.
  intros Hwf Hrows [Hnorm | Hnorm] Hnz;
    exact (standardised Hwf Hrows Hnorm Hnz).
Qed.

(** *** The data [train] stores *)

Lemma same_data_refl (s : SGLDNet) : same_data s s.
Proof. split; reflexivity. Qed.

Lemma same_data_trans (s1 s2 s3 : SGLDNet) :
  same_data s1 s2 -> same_data s2 s3 -> same_data s1 s3.
Proof. unfold same_data. intuition congruence. Qed.

Ltac data_step :=
  cbv zeta;
  lazymatch goal with
  | |- keeps _ (ret _) => apply keeps_ret; apply same_data_refl
  | |- keeps _ (lift _) => apply keeps_lift; apply same_data_refl
  | |- keeps _ (gets _) => apply keeps_gets; apply same_data_refl
  | |- keeps _ (attr _ _) => apply keeps_attr; apply same_data_refl
  | |- keeps _ (modify _) =>
      apply keeps_modify; let s := fresh "s" in
      intros s; destruct s; split; reflexivity
  | |- keeps _ (bind _ _) =>
      apply keeps_bind; [apply same_data_trans | | intros ?]
  | |- keeps _ (if ?b then _ else _) => destruct b
  end.

Lemma train_iter_data (i : Z) : keeps same_data (train_iter i).
Proof.
  unfold train_iter, sgld_step, minibatch, step, snapshot. repeat data_step.
Qed.

Lemma train_loop_data (fuel : nat) :
  forall i, keeps same_data (train_loop fuel i).
Proof.
  induction fuel as [| fuel IH]; intros i s; cbn [train_loop];
    destruct (loop_guard i s); try apply same_data_refl.
  apply (@keeps_bind same_data same_data_trans).
  - apply train_iter_data.
  - intros _. apply IH.
Qed.

(** The part of [train] from the loop on changes neither the stored data
    nor the stored statistics. *)
Lemma train_rest_data :
  keeps same_data
    (n <- gets n_iters ;; _ <- train_loop (Z.to_nat n) 0 ;; modify (set_is_trained true)).
Proof.
  data_step; [data_step |].
  data_step; [apply train_loop_data | data_step].
Qed.

(** X12.  With both normalisations enabled, [train] keeps the statistics of the
    data of this call and the data normalised with them, whatever the
    object stored before and whether or not the loop then raises: the
    stored inputs and targets have mean 0 and variance 1 in every column
    that is not constant. *)
Theorem train_stores_standardised_data (s : SGLDNet) (c cy : nat)
    (rows yrows : list (list R)) :
  wf (Mat c rows) -> wf (Mat cy yrows) ->
  rows <> [] -> yrows <> [] ->
  normalize_input s = true -> normalize_output s = true ->
  let s' := snd (train (Mat c rows) (Mat cy yrows) s) in
  exists qx mx sx qy my sy : ndarray,
    normalize_inputs (Mat c rows) None None = Return (qx, mx, sx) /\
    normalize_targets (Mat cy yrows) None None = Return (qy, my, sy) /\
    X s' = Some qx /\ x_mean s' = Some mx /\ x_std s' = Some sx /\
    Y s' = Some qy /\ y_mean s' = Some my /\ y_std s' = Some sy /\
    (Forall (fun v => v <> 0) (entries sx) ->
     mean0 qx = Return (Vec (repeat 0 c)) /\ var0 qx = Return (Vec (repeat 1 c))) /\
    (Forall (fun v => v <> 0) (entries sy) ->
     mean0 qy = Return (Vec (repeat 0 cy)) /\ var0 qy = Return (Vec (repeat 1 cy))).
Proof.
  intros Hwx Hwy Hrows Hyrows Hni Hno s'.
  destruct (train_setup_run s c cy rows yrows)
    as (s0 & rows' & yrows' & p0 & Hrun & _).
  assert (Hmore := Hrun). apply train_setup_more in Hmore.
  destruct Hmore as (_ & _ & _ & Hx & _ & Hy).
  destruct (Hx Hni) as (qx & mx & sx & Hnx & HX & Hxm & Hxs).
  destruct (Hy Hno) as (qy & my & sy & Hny & HY & Hym & Hys).
  assert (Hs' : s' =
            snd ((n <- gets n_iters ;; _ <- train_loop (Z.to_nat n) 0 ;;
                  modify (set_is_trained true)) s0)).
  { unfold s', train. rewrite bind_run with (1 := Hrun). reflexivity. }
  destruct (train_rest_keeps s0) as (_ & _ & (_ & _ & Kxm & Kxs & Kym & Kys)).
  destruct (train_rest_data s0) as (KX & KY).
  rewrite <- Hs' in Kxm, Kxs, Kym, Kys, KX, KY.
  exists qx, mx, sx, qy, my, sy.
  split; [exact Hnx |]. split; [exact Hny |].
  split; [congruence |]. split; [congruence |]. split; [congruence |].
  split; [congruence |]. split; [congruence |]. split; [congruence |].
  split; intros Hnz.
  - destruct (standardised Hwx Hrows Hnx Hnz) as (Hm & Hv & _). split; assumption.
  - destruct (standardised Hwy Hyrows Hny Hnz) as (Hm & Hv & _). split; assumption.
Qed.

(** ** The objective as a penalised error *)




(** ** Mini-batches over an epoch *)

Lemma minibatch_run (s : SGLDNet) (c cy : nat) (rows yrows : list (list R)) (i : Z) :
  X s = Some (Mat c rows) ->
  Y s = Some (Mat cy yrows) ->
  rows <> [] ->
  (0 <= bsize s)%Z ->
  let start := Z.to_nat ((i * bsize s) mod Z.of_nat (length rows)) in
  minibatch i s =
  (Return (Mat c (tail_slice start (Z.to_nat (bsize s)) rows),
           Mat cy (tail_slice start (Z.to_nat (bsize s)) yrows)), s).
Proof.
  intros HX HY Hrows Hbs start.
  assert (HN : (0 < Z.of_nat (length rows))%Z).
  { destruct rows; [contradiction | cbn [length]; lia]. }
  assert (Hstart := Z.mod_pos_bound (i * bsize s) _ HN).
  unfold minibatch, bind, gets, attr, lift, ret.
  rewrite HX. cbn [shape0]. unfold py_mod.
  destruct (Z.eqb_spec (Z.of_nat (length rows)) 0) as [? | _]; [lia |].
  rewrite HY. cbn [slice0].
  rewrite !py_slice_forward by lia. reflexivity.
Qed.

Lemma concat_tail_slices (A : Type) (b : nat) :
  forall (q : nat) (l : list A),
    length l = (q * b)%nat ->
    concat (map (fun i => tail_slice (i * b) b l) (seq 0 q)) = l.
Proof.
  unfold tail_slice.
  induction q as [| q IH]; intros l Hlen.
  - cbn [seq map concat]. destruct l; [reflexivity | discriminate].
  - cbn [seq map concat]. rewrite <- seq_shift, map_map.
    cbn [Nat.mul skipn].
    transitivity (firstn b l ++ skipn b l); [| apply firstn_skipn].
    f_equal.
    etransitivity; [| apply (IH (skipn b l)); rewrite length_skipn; lia].
    f_equal. apply map_ext. intros i.
    rewrite skipn_skipn. do 2 f_equal. lia.
Qed.

(** X14.  When [bsize] divides the row count N, the mini-batches of the
    iterations 0 .. N/bsize - 1 have [bsize] rows each and, put one after
    the other, are the stored data in its order: every row is used once in
    every N/bsize iterations.  The batch of iteration [i + N/bsize] is that
    of iteration [i]. *)
Theorem minibatches_cover_the_data (s : SGLDNet) (c cy : nat)
    (rows yrows : list (list R)) (q : nat) :
  X s = Some (Mat c rows) ->
  Y s = Some (Mat cy yrows) ->
  (0 < bsize s)%Z -> (0 < q)%nat ->
  length rows = (q * Z.to_nat (bsize s))%nat ->
  let b := Z.to_nat (bsize s) in
  let batch := fun i : nat => tail_slice (i * b) b rows in
  (forall i : nat, (i < q)%nat ->
     length (batch i) = b /\
     exists ymb, minibatch (Z.of_nat i) s = (Return (Mat c (batch i), ymb), s)) /\
  concat (map batch (seq 0 q)) = rows /\
  (forall i : Z, minibatch (i + Z.of_nat q) s = minibatch i s).
Proof.
  intros HX HY Hbs Hq Hlen b batch.
  assert (Hb : (0 < b)%nat) by (unfold b; lia).
  assert (Hrows : rows <> []).
  { intros ->. cbn [length] in Hlen. fold b in Hlen. nia. }
  assert (HN : Z.of_nat (length rows) = (Z.of_nat q * bsize s)%Z).
  { rewrite Hlen, Nat2Z.inj_mul. unfold b. lia. }
  split; [| split].
  - intros i Hi. split.
    + unfold batch. rewrite tail_slice_length, Hlen. fold b. nia.
    + eexists.
      rewrite (@minibatch_run s c cy rows yrows (Z.of_nat i) HX HY Hrows) by lia.
      cbv zeta. rewrite HN.
      rewrite Z.mod_small by nia.
      replace (Z.to_nat (Z.of_nat i * bsize s)) with (i * b)%nat by (unfold b; nia).
      reflexivity.
  - unfold batch. apply concat_tail_slices. exact Hlen.
  - intros i.
    rewrite !(@minibatch_run s c cy rows yrows _ HX HY Hrows) by lia.
    cbv zeta. rewrite HN.
    replace ((i + Z.of_nat q) * bsize s)%Z
      with (i * bsize s + 1 * (Z.of_nat q * bsize s))%Z by ring.
    rewrite Z_mod_plus_full. reflexivity.
Qed.

(** X15.  When the data has no more rows than [bsize], [train] sets [bsize] to
    the row count and every iteration's mini-batch is the whole of the
    stored data. *)
Theorem small_data_gives_full_batches (s : SGLDNet) (c cy : nat)
    (rows yrows : list (list R)) :
  rows <> [] ->
  length yrows = length rows ->
  (Z.of_nat (length rows) <= bsize s)%Z ->
  exists (s0 : SGLDNet) (xs ys : list (list R)),
    train_setup (Mat c rows) (Mat cy yrows) s = (Return tt, s0) /\
    X s0 = Some (Mat c xs) /\ Y s0 = Some (Mat cy ys) /\
    bsize s0 = Z.of_nat (length rows) /\
    forall i : Z, minibatch i s0 = (Return (Mat c xs, Mat cy ys), s0).
Proof.
  intros Hrows Hy Hsmall.
  destruct (train_setup_run s c cy rows yrows)
    as (s0 & xs & ys & p0 & Hrun & HX & Hlx & HY & Hly & _ & _ & _ & Hbs & _).
  assert (Hbs0 : bsize s0 = Z.of_nat (length rows)).
  { rewrite Hbs. destruct (Z.ltb_spec (Z.of_nat (length rows)) (bsize s)); lia. }
  assert (Hxs : xs <> []).
  { intros ->. destruct rows; [contradiction | discriminate]. }
  exists s0, xs, ys. split; [exact Hrun |]. split; [exact HX |].
  split; [exact HY |]. split; [exact Hbs0 |]. intros i.
  rewrite (@minibatch_run s0 c cy xs ys i HX HY Hxs) by lia.
  assert (HN : (0 < Z.of_nat (length rows))%Z).
  { destruct rows; [contradiction | cbn [length]; lia]. }
  cbv zeta. rewrite Hbs0, Hlx, Z.mod_mul by lia.
  unfold tail_slice. cbn [Z.to_nat skipn].
  rewrite !firstn_all2 by lia. reflexivity.
Qed.

(** ** [sample_functions] on a model that was never trained *)

(** X16.  [sample_functions] does not look at [is_trained].  On an object as
    [__init__] leaves it, asking for one function or more raises
    [AttributeError] at line 257, where [self.net] is read before it was
    ever assigned; asking for none returns the empty array of shape
    [(0, N)].  The object is left as it was. *)
Theorem sample_functions_on_fresh_model (nn : nat) (lr : R) (ni : Z) (ns w : R)
    (bs bi : Z) (pc no nin : bool) (r : Rng) (D : nat) (rows : list (list R))
    (k : nat) :
  let s := init nn lr ni ns w bs bi pc no nin r in
  sample_functions (Mat D rows) (S k) s = (Raise AttributeError, s) /\
  sample_functions (Mat D rows) 0 s = (Return (Mat (length rows) []), s).
Proof.
  intros s.
  assert (Hnt : exists rows_,
            normalized_test (Mat D rows) s = (Return (Mat D rows_), s) /\
            length rows_ = length rows).
  { unfold normalized_test, s, init. mrun. destruct nin.
    - destruct (normalize_inputs_mat D rows) as (rows' & m & sd & Hn & Hl & _).
      rewrite Hn. mrun. exists rows'. split; [reflexivity | exact Hl].
    - mrun. exists rows. split; reflexivity. }
  destruct Hnt as (rows_ & Hnt & Hlen).
  unfold sample_functions. split; rewrite bind_run with (1 := Hnt);
    cbn [shape0]; unfold bind at 1; unfold lift at 1; rewrite Hlen; reflexivity.
Qed.

(** ** How long the loop of [train] runs *)

Local Open Scope nat_scope.

Lemma guard_below_iterations_run (n b : Z) (m k : nat) :
  ((Z.of_nat k <? n)%Z && (length (filter (snapshot_due b) (seq 0 k)) <? m))%bool =
  (k <? iterations_run n b m).
Proof.
  rewrite snapshot_count. unfold iterations_run.
  destruct (Nat.eqb_spec m 0) as [Hm | Hm];
    destruct (Z.ltb_spec (Z.of_nat k) n);
    destruct (Nat.ltb_spec
                (Z.to_nat ((Z.of_nat k + 199) / 200 - (Z.max b 0 + 199) / 200)) m);
    cbn [andb];
    match goal with
    | |- _ = (?a <? ?c) => destruct (Nat.ltb_spec a c)
    end; try reflexivity; exfalso;
    Z.div_mod_to_equations; lia.
Qed.

Lemma schedule_fst (n b : Z) (m : nat) :
  forall (fuel k : nat) (taken : list nat),
    Z.to_nat n - k <= fuel ->
    length taken = length (filter (snapshot_due b) (seq 0 k)) ->
    k <= iterations_run n b m ->
    fst (schedule n b m fuel k taken) = iterations_run n b m.
Proof.
  assert (Hcap : iterations_run n b m <= Z.to_nat n).
  { unfold iterations_run. destruct (m =? 0); lia. }
  induction fuel as [| fuel IH]; intros k taken Hfuel Hlen Hk; cbn [schedule];
    rewrite Hlen, guard_below_iterations_run;
    destruct (Nat.ltb_spec k (iterations_run n b m)) as [Hlt | Hge];
    cbn [fst]; try lia.
  apply IH; [lia | | lia].
  rewrite seq_S, filter_app, length_app. cbn [Nat.add seq filter].
    destruct (snapshot_due b k); [rewrite length_app |]; cbn [length]; lia.
Qed.

(** X17.  On N >= 1 rows the loop of [train] makes
    [min(n_iters, 200 * (n_nets + ceil(max(burn_in, 0) / 200) - 1) + 1)]
    sampler steps (none for [n_nets = 0]): it stops right after the
    iteration that stored the [n_nets]-th sample, and later iterations up
    to [n_iters] are never run.  The network is left with the weights of
    the last step made. *)
Theorem train_iteration_count (s : SGLDNet) (c cy : nat)
    (rows yrows : list (list R)) :
  rows <> [] ->
  deque.maxlen (samples s) = n_nets s ->
  let k := iterations_run (n_iters s) (burn_in s) (n_nets s) in
  exists s0 s1 : SGLDNet,
    train_setup (Mat c rows) (Mat cy yrows) s = (Return tt, s0) /\
    train_loop (Z.to_nat (n_iters s0)) 0 s0 = (Return (Z.of_nat k), s1) /\
    train (Mat c rows) (Mat cy yrows) s = (Return tt, set_is_trained true s1) /\
    net s1 = net (chain s0 k).
Proof.
  intros Hrows Hmax k.
  destruct (train_run s c cy yrows Hrows Hmax)
    as (s0 & d' & Hrun & Hloop & _ & Htrain & _).
  cbv zeta in Hloop, Htrain.
  rewrite schedule_fst in Hloop, Htrain by (cbn [seq filter length]; lia).
  fold k in Hloop, Htrain.
  exists s0, (set_samples d' (chain s0 k)).
  split; [exact Hrun |]. split; [exact Hloop |]. split; [exact Htrain |].
  reflexivity.
Qed.

(** *** Termination *)

Lemma ends_obind (A B : Type) (c : outcome A) (k : A -> outcome B) :
  ends c -> (forall a, ends (k a)) -> ends (obind c k).
Proof.
  intros Hc Hk l. destruct c as [a | e | l']; cbn [obind].
  - apply Hk.
  - discriminate.
  - intros _. exact (Hc l' eq_refl).
Qed.

Lemma ends_return (A : Type) (a : A) : ends (Return a).
Proof. intros l. discriminate. Qed.

Lemma ends_bdim (m n : nat) : ends (bdim m n).
Proof.
  intros l. unfold bdim. destruct (m =? n); [discriminate |].
  destruct (m =? 1); [discriminate |]. destruct (n =? 1); discriminate.
Qed.

Lemma ends_binop (f : R -> R -> R) (a b : ndarray) : ends (binop f a b).
Proof.
  destruct a as [x | u | c rows], b as [y | v | c' rows']; cbn [binop];
    try apply ends_return;
    repeat (apply ends_obind; [apply ends_bdim | intros ?]);
    apply ends_return.
Qed.

Lemma ends_sum0 (a : ndarray) : ends (sum0 a).
Proof. intros l. destruct a; discriminate. Qed.

Lemma ends_shape0 (a : ndarray) : ends (shape0 a).
Proof. intros l. destruct a; discriminate. Qed.

Lemma ends_mean0 (a : ndarray) : ends (mean0 a).
Proof.
  unfold mean0. apply ends_obind; [apply ends_sum0 | intros ?].
  apply ends_obind; [apply ends_shape0 | intros ?]. apply ends_return.
Qed.

Lemma ends_std0 (a : ndarray) : ends (std0 a).
Proof.
  unfold std0, var0, subtract.
  apply ends_obind; [| intros ?; apply ends_return].
  apply ends_obind; [apply ends_mean0 | intros ?].
  apply ends_obind; [apply ends_binop | intros ?].
  apply ends_obind; [apply ends_sum0 | intros ?].
  apply ends_obind; [apply ends_shape0 | intros ?]. apply ends_return.
Qed.

Lemma ends_normalize_inputs (x : ndarray) : ends (normalize_inputs x None None).
Proof.
  unfold normalize_inputs, or_else, subtract, divide.
  apply ends_obind; [apply ends_mean0 | intros ?].
  apply ends_obind; [apply ends_std0 | intros ?].
  apply ends_obind; [apply ends_binop | intros ?].
  apply ends_obind; [apply ends_binop | intros ?]. apply ends_return.
Qed.

(** The set-up of [train] stays within the model, whatever the arrays. *)
Lemma ends_train_setup (x y : ndarray) (s : SGLDNet) : ends (fst (train_setup x y s)).
Proof.
  intros l.
  destruct s as [r nn lr ni ns w bs bi pc tr no nin smp xk xm xs yk ym ys nt sm].
  unfold train_setup, build_net, store_inputs, store_targets, prepare, fit_bsize.
  mrun.
  destruct (shape1 x) as [n | e | l'] eqn:Hs1; mrun; try discriminate.
  2:{ destruct x; discriminate. }
  destruct nin; mrun.
  - destruct (normalize_inputs x None None) as [[[q m] sd] | e | l'] eqn:Hn; mrun;
      try discriminate.
    2:{ intros Heq. injection Heq as ->. exact (@ends_normalize_inputs x l Hn). }
    destruct no; mrun.
    + destruct (normalize_targets y None None) as [[[qy my] sdy] | e | l'] eqn:Hy; mrun;
        try discriminate.
      2:{ intros Heq. injection Heq as ->. exact (@ends_normalize_inputs y l Hy). }
      destruct (shape0 q) as [k | e | l'] eqn:Hk; mrun; try discriminate.
      2:{ destruct q; discriminate. }
      destruct (Z.of_nat k <? bs)%Z; discriminate.
    + destruct (shape0 q) as [k | e | l'] eqn:Hk; mrun; try discriminate.
      2:{ destruct q; discriminate. }
      destruct (Z.of_nat k <? bs)%Z; discriminate.
  - destruct no; mrun.
    + destruct (normalize_targets y None None) as [[[qy my] sdy] | e | l'] eqn:Hy; mrun;
        try discriminate.
      2:{ intros Heq. injection Heq as ->. exact (@ends_normalize_inputs y l Hy). }
      destruct (shape0 x) as [k | e | l'] eqn:Hk; mrun; try discriminate.
      2:{ destruct x; discriminate. }
      destruct (Z.of_nat k <? bs)%Z; discriminate.
    + destruct (shape0 x) as [k | e | l'] eqn:Hk; mrun; try discriminate.
      2:{ destruct x; discriminate. }
      destruct (Z.of_nat k <? bs)%Z; discriminate.
Qed.

(** With fuel for the iterations that are left, the loop stays within the
    model. *)
Lemma ends_train_loop (fuel : nat) :
  forall (i : Z) (s : SGLDNet),
    (n_iters s - i <= Z.of_nat fuel)%Z -> ends (fst (train_loop fuel i s)).
Proof.
  induction fuel as [| fuel IH]; intros i s Hfuel l; cbn [train_loop];
    destruct (loop_guard i s) eqn:Hguard; try discriminate;
    apply andb_prop in Hguard; destruct Hguard as [Hlt _]; apply Z.ltb_lt in Hlt.
  - lia.
  - unfold bind.
    destruct (train_iter i s) as [[u | e | l'] s1] eqn:Hiter; try discriminate.
    + apply IH.
      destruct (train_iter_keeps i s) as ((_ & _ & Hni & _) & _).
      rewrite Hiter in Hni. cbn [snd] in Hni. rewrite Hni. lia.
    + intros _. apply (@train_iter_no_abort i s l'). rewrite Hiter. reflexivity.
Qed.

(** X18.  [train] always ends, by returning or by raising a Python exception,
    whatever the arrays it is given and the state of the object: the loop
    counts [i] up to [n_iters], which no line of the loop changes, so that
    it makes at most [n_iters] iterations. *)
Theorem train_terminates (x y : ndarray) (s : SGLDNet) :
  ends (fst (train x y s)).
Proof.
  intros l. unfold train. unfold bind at 1.
  destruct (train_setup x y s) as [[[] | e | l'] s0] eqn:Hsetup; try discriminate.
  - rewrite bind_gets. unfold bind.
    destruct (train_loop (Z.to_nat (n_iters s0)) 0 s0) as [[i | e | l'] s1] eqn:Hloop;
      try discriminate.
    intros Heq. cbn [fst] in Heq. injection Heq as ->.
    apply (@ends_train_loop (Z.to_nat (n_iters s0)) 0 s0) with (l := l); [lia |].
    rewrite Hloop. reflexivity.
  - intros Heq. cbn [fst] in Heq. injection Heq as ->.
    apply (@ends_train_setup x y s l). rewrite Hsetup. reflexivity.
Qed.

(** ** Normalisation with given statistics *)

Local Open Scope R_scope.

(** X19.  With a mean and a deviation passed in (as [predict] and
    [sample_functions] pass those of the training data), the normalisers
    compute no statistics of their own: they return the ones given, and
    [denormalize] with them gives the array back when no deviation is
    zero. *)
Theorem normalize_with_given_statistics (c : nat) (rows : list (list R))
    (m sd : list R) :
  wf (Mat c rows) ->
  length m = c -> length sd = c ->
  Forall (fun v => v <> 0) sd ->
  exists q : ndarray,
    normalize_inputs (Mat c rows) (Some (Vec m)) (Some (Vec sd)) =
      Return (q, Vec m, Vec sd) /\
    normalize_targets (Mat c rows) (Some (Vec m)) (Some (Vec sd)) =
      Return (q, Vec m, Vec sd) /\
    denormalize q (Vec m) (Vec sd) = Return (Mat c rows).
Proof.
  intros Hwf Hm Hsd Hnz.
  assert (Hnorm : normalize_inputs (Mat c rows) (Some (Vec m)) (Some (Vec sd)) =
            Return (Mat c (map (fun r => broadcast Rdiv 0 (broadcast Rminus 0 r m) sd) rows),
                    Vec m, Vec sd)).
  { unfold normalize_inputs, or_else, subtract, divide. cbn [obind].
    rewrite binop_mat_vec by exact Hm. cbn [obind].
    rewrite binop_mat_vec by exact Hsd. cbn [obind].
    rewrite map_map. reflexivity. }
  eexists. split; [exact Hnorm |]. split; [exact Hnorm |].
  unfold denormalize, multiply, add.
  rewrite binop_mat_vec by exact Hsd. cbn [obind binop].
  rewrite Hm, bdim_same. cbn [obind].
  do 2 f_equal. rewrite !map_map.
  etransitivity; [| apply map_id].
  apply map_ext_in. intros r Hr.
  cbn [wf] in Hwf. rewrite Forall_forall in Hwf. specialize (Hwf r Hr).
  apply row_round_trip; [| | exact Hnz]; congruence.
Qed.

(** ** Test inputs of the wrong width *)

(** X20.  With normalised inputs, test points whose column count differs from
    that of the training data (neither count being 1, which numpy would
    broadcast) make [predict] and [sample_functions] raise [ValueError]
    when they subtract the stored mean; the object is left as it was. *)
Theorem wrong_width_raises_value_error (s : SGLDNet) (D D' : nat) (mu sd : R)
    (rows : list (list R)) :
  trained_on s D mu sd ->
  normalize_input s = true ->
  D' <> D -> D' <> 1%nat -> D <> 1%nat ->
  predict (Mat D' rows) s = (Raise ValueError, s) /\
  forall n_funcs : nat,
    sample_functions (Mat D' rows) n_funcs s = (Raise ValueError, s).
Proof.
  intros (Htr & _ & Hin & _) Hni Hne H1 H2.
  destruct (Hin Hni) as (xm & xs & Hxm & Hxs & Hlm & Hls).
  assert (Hnt : normalized_test (Mat D' rows) s = (Raise ValueError, s)).
  { unfold normalized_test. rewrite bind_gets, Hni, !bind_gets, Hxm, Hxs.
    unfold normalize_inputs, or_else, subtract, binop. cbn [obind].
    rewrite Hlm. unfold bdim.
    destruct (Nat.eqb_spec D' D) as [? | _]; [contradiction |].
    destruct (Nat.eqb_spec D' 1) as [? | _]; [contradiction |].
    destruct (Nat.eqb_spec D 1) as [? | _]; [contradiction |].
    reflexivity. }
  split.
  - unfold predict. rewrite bind_gets, Htr. cbn [negb].
    unfold bind at 1. rewrite Hnt. reflexivity.
  - intros n_funcs. unfold sample_functions. unfold bind at 1.
    rewrite Hnt. reflexivity.
Qed.

Local Open Scope nat_scope.

End SGLD.

(** * Concrete runs *)

(** A small instance of the collaborators: one weight vector, a network
    that adds the sum of its weights to the first input, and a sampler step
    that adds one to every weight. *)
Definition toy_get_net (r : unit) (n_inputs : nat) : Params * unit :=
  ([Vec (repeat 0%R n_inputs)], r).

Definition toy_forward (params : Params) (row : list R) : R :=
  (sum_list (map sum_all params) + hd 0 row)%R.

Definition toy_SGLDSampler (precondition : bool) : unit := tt.

Definition toy_prepare_updates (smp : unit) (nll : objective) (l_rate : R)
    (scale_grad : nat) : unit := smp.

Definition toy_step (smp : unit) (params : Params) (xmb ymb : ndarray) :
    unit * Params * R :=
  (smp, map (map_nd (fun w => (w + 1)%R)) params, 0%R).

Definition toy_train : ndarray -> ndarray -> M unit unit unit :=
  train toy_get_net toy_forward toy_SGLDSampler toy_prepare_updates toy_step.

Definition toy_predict : ndarray -> M unit unit (option (ndarray * ndarray)) :=
  predict toy_forward.

Definition toy_sample_functions : ndarray -> nat -> M unit unit ndarray :=
  sample_functions toy_forward.

(** [SGLDNet(n_nets=5, n_iters=2000, bsize=5, burn_in=0,
    normalize_output=False, normalize_input=False)] *)
Definition toy_model : SGLDNet unit unit :=
  init unit 5 0.001%R 2000 0.1%R 0.00001%R 5 0 true false false tt.

(** [SGLDNet(n_nets=2, n_iters=201, burn_in=0, ...)], trained on one row:
    the buffer holds the weights of the iterations 0 and 200, which are 1
    and 201. *)
Definition toy_two : SGLDNet unit unit :=
  init unit 2 0.001%R 201 0.1%R 0.00001%R 5 0 true false false tt.

Definition toy_trained : SGLDNet unit unit :=
  snd (toy_train (Mat 1 [[1%R]]) (Mat 1 [[1%R]]) toy_two).

(** [SGLDNet(n_nets=5, n_iters=5, burn_in=5, ...)], trained on one row:
    the buffer stays empty. *)
Definition toy_short : SGLDNet unit unit :=
  init unit 5 0.001%R 5 0.1%R 0.00001%R 5 5 true false false tt.

Definition toy_emptied : SGLDNet unit unit :=
  snd (toy_train (Mat 1 [[1%R]]) (Mat 1 [[1%R]]) toy_short).

(** [SGLDNet(n_nets=0, ...)]: a buffer that holds nothing. *)
Definition toy_none : SGLDNet unit unit :=
  init unit 0 0.001%R 2000 0.1%R 0.00001%R 5 0 true false false tt.

(** [SGLDNet(..., normalize_output=True, normalize_input=True)] *)
Definition toy_norm : SGLDNet unit unit :=
  init unit 5 0.001%R 2000 0.1%R 0.00001%R 5 0 true true true tt.

(** [SGLDNet(n_nets=1, n_iters=1, ...)], trained on one row: the buffer
    holds the weights of iteration 0. *)
Definition toy_one : SGLDNet unit unit :=
  init unit 1 0.001%R 1 0.1%R 0.00001%R 5 0 true false false tt.

Definition toy_single : SGLDNet unit unit :=
  snd (toy_train (Mat 1 [[1%R]]) (Mat 1 [[1%R]]) toy_one).

(** [SGLDNet(n_nets=1, n_iters=1, normalize_input=True, ...)], trained on
    two rows of two columns. *)
Definition toy_wide : SGLDNet unit unit :=
  init unit 1 0.001%R 1 0.1%R 0.00001%R 5 0 true false true tt.

Definition toy_wide_trained : SGLDNet unit unit :=
  snd (toy_train (Mat 2 [[1%R; 2%R]; [3%R; 4%R]]) (Mat 1 [[1%R]; [2%R]]) toy_wide).

(** Four rows stored with [bsize = 2]. *)
Definition toy_four : SGLDNet unit unit :=
  set_Y (Mat 1 [[10%R]; [20%R]; [30%R]; [40%R]])
    (set_X (Mat 1 [[1%R]; [2%R]; [3%R]; [4%R]]) (set_bsize 2 toy_model)).

Lemma toy_trained_on : trained_on toy_trained 1 0%R 1%R.
Proof.
  unfold trained_on. split; [vm_compute; reflexivity |].
  split; [eexists; vm_compute; reflexivity |].
  split; intros Hflag; vm_compute in Hflag; discriminate Hflag.
Qed.

Lemma toy_trained_samples :
  exists a b : R,
    deque.items (samples toy_trained) = [[Vec [a]]; [Vec [b]]] /\
    a = 1%R /\ b = 201%R.
Proof. do 2 eexists. split; [vm_compute; reflexivity |]. split; lra. Qed.

Lemma toy_trained_flags :
  normalize_input toy_trained = false /\ normalize_output toy_trained = false.
Proof. split; vm_compute; reflexivity. Qed.

Lemma sample_buffer_keeps_most_recent_run :
  deque.len (deque.extend (deque.new 2) [10; 20; 30; 40]) <= 2 /\
  (2 < 4 ->
   deque.len (deque.extend (deque.new 2) [10; 20; 30; 40]) = 2 /\
   deque.items (deque.extend (deque.new 2) [10; 20; 30; 40]) = [30; 40]).
Proof. exact (@sample_buffer_keeps_most_recent nat 2 [10; 20; 30; 40]). Defined.

Lemma train_collects_every_200th_run :
  [[1%R]] <> [] /\
  length [[1%R]] = length [[1%R]] /\
  deque.maxlen (samples toy_model) = n_nets toy_model /\
  exists s1 : SGLDNet unit unit,
    toy_train (Mat 1 [[1%R]]) (Mat 1 [[1%R]]) toy_model = (Return tt, s1) /\
    length (deque.items (samples s1)) = 5.
Proof.
  assert (Hrows : [[1%R]] <> []) by discriminate.
  assert (Hmax : deque.maxlen (samples toy_model) = n_nets toy_model) by reflexivity.
  split; [exact Hrows |]. split; [reflexivity |]. split; [exact Hmax |].
  destruct (train_collects_every_200th toy_get_net toy_forward toy_SGLDSampler
              toy_prepare_updates toy_step toy_model 1 [[1%R]] Hrows eq_refl Hmax)
    as (s0 & s1 & i_end & _ & _ & _ & Htrain & _ & Hscenario).
  exists (set_is_trained true s1). split; [exact Htrain |].
  destruct (Hscenario eq_refl eq_refl eq_refl eq_refl) as [_ Hitems].
  apply (f_equal (@length _)) in Hitems. rewrite !length_map in Hitems.
  exact Hitems.
Defined.

(** The objective of a model trained on three rows, on a batch of one row. *)
Lemma train_objective_scales_prior_by_N_run :
  exists s0 : SGLDNet unit unit,
    train_setup toy_get_net toy_forward toy_SGLDSampler toy_prepare_updates
      (Mat 1 [[1%R]; [2%R]; [3%R]]) (Mat 1 [[1%R]; [2%R]; [3%R]]) toy_model =
    (Return tt, s0) /\
    train_nll toy_forward toy_model 3 [Vec [2%R]] (Mat 1 [[1%R]]) (Mat 1 [[4%R]]) =
    Return (nll_spec toy_forward 3 (wd toy_model) (noise_std toy_model)
              [Vec [2%R]] [[1%R]] [4%R]).
Proof.
  destruct (train_objective_scales_prior_by_N toy_get_net toy_forward
              toy_SGLDSampler toy_prepare_updates toy_model 1 1
              [[1%R]; [2%R]; [3%R]] [[1%R]; [2%R]; [3%R]])
    as (s0 & Hrun & _ & Hformula).
  exists s0. split; [exact Hrun |].
  exact (Hformula [Vec [2%R]] 1 [[1%R]] [4%R] eq_refl).
Defined.

(** With three rows and [bsize = 2], iteration 1 starts at row 2 and gets
    the one row that is left. *)
Lemma minibatch_is_truncated_slice_run :
  let s := set_Y (Mat 1 [[10%R]; [20%R]; [30%R]])
             (set_X (Mat 1 [[1%R]; [2%R]; [3%R]]) (set_bsize 2 toy_model)) in
  bsize s = 2%Z /\
  minibatch 1 s = (Return (Mat 1 [[3%R]], Mat 1 [[30%R]]), s).
Proof.
  intros s. split; [reflexivity |].
  assert (Hrows : [[1%R]; [2%R]; [3%R]] <> []) by discriminate.
  assert (Hbs : (0 <= bsize s)%Z) by (cbn; lia).
  exact (proj1 (@minibatch_is_truncated_slice unit unit s 1 1
                  [[1%R]; [2%R]; [3%R]] [[10%R]; [20%R]; [30%R]] 1
                  eq_refl eq_refl Hrows Hbs)).
Defined.

(** The samples predict 1 and 201 at the input 0: mean 101, and variance
    10000 with the divisor 2 (it would be 20000 with the divisor 1). *)
Lemma predict_mean_and_population_variance_run :
  trained_on toy_trained 1 0%R 1%R /\
  deque.items (samples toy_trained) <> [] /\
  exists s',
    toy_predict (Mat 1 [[0%R]]) toy_trained =
    (Return (Some (Mat 1 [[101%R]], Mat 1 [[10000%R]])), s').
Proof.
  assert (Hne : deque.items (samples toy_trained) <> []).
  { destruct toy_trained_samples as (a & b & -> & _). discriminate. }
  split; [exact toy_trained_on |]. split; [exact Hne |].
  destruct (predict_mean_and_population_variance toy_forward [[0%R]]
              toy_trained_on Hne) as (rows_ & Hnt & Hpred).
  destruct toy_trained_flags as [Hni Hno].
  unfold normalized_test, bind, gets, ret in Hnt. rewrite Hni in Hnt.
  apply (f_equal fst) in Hnt. cbn [fst] in Hnt. injection Hnt as <-.
  eexists. unfold toy_predict. rewrite Hpred.
  destruct toy_trained_samples as (a & b & -> & -> & ->). rewrite Hno.
  unfold ensemble_mean, population_variance, ensemble_mean, mean_list, sq_dev,
    sample_outputs, column, toy_forward, sum_list.
  cbn [map nth hd fold_left sum_all length INR seq]. unfold sum_list.
  cbn [fold_left]. repeat f_equal; field.
Defined.

Lemma sample_functions_reads_buffer_in_order_run :
  trained_on toy_trained 1 0%R 1%R /\
  (exists s', toy_sample_functions (Mat 1 [[0%R]]) 2 toy_trained =
              (Return (Mat 1 [[1%R]; [201%R]]), s')) /\
  (exists s', toy_sample_functions (Mat 1 [[0%R]]) 3 toy_trained =
              (Raise IndexError, s')).
Proof.
  destruct toy_trained_flags as [Hni Hno].
  split; [exact toy_trained_on |]. split.
  - destruct (sample_functions_reads_buffer_in_order toy_forward [[0%R]] 2
                toy_trained_on) as (rows_ & Hnt & Hfill & _).
    unfold normalized_test, bind, gets, ret in Hnt. rewrite Hni in Hnt.
    apply (f_equal fst) in Hnt. cbn [fst] in Hnt. injection Hnt as <-.
    destruct toy_trained_samples as (a & b & Hsmp & -> & ->).
    rewrite Hsmp, Hno in Hfill.
    destruct Hfill as (s' & Hrun); [cbn; lia |].
    exists s'. unfold toy_sample_functions. rewrite Hrun.
    unfold draw, toy_forward, sum_list.
    cbn [length seq map nth hd fold_left sum_all]. unfold sum_list.
    cbn [fold_left]. repeat f_equal; field.
  - destruct (sample_functions_reads_buffer_in_order toy_forward [[0%R]] 3
                toy_trained_on) as (rows_ & _ & _ & Hover).
    apply Hover.
    destruct toy_trained_samples as (a & b & -> & _). cbn. lia.
Defined.

(** C7, a run: [predict] on a freshly constructed model returns [None]
    and raises nothing. *)
Lemma predict_untrained_is_silent :
  is_trained toy_model = false /\
  toy_predict (Mat 1 [[0%R]]) toy_model = (Return None, toy_model) /\
  raises (fst (toy_predict (Mat 1 [[0%R]]) toy_model)) = false.
Proof. repeat apply conj; reflexivity. Qed.

Lemma predict_untrained_returns_none_run :
  is_trained (set_bsize 3 toy_model) = false /\
  toy_predict (Mat 2 [[0%R; 1%R]]) (set_bsize 3 toy_model) =
    (Return None, set_bsize 3 toy_model) /\
  raises (fst (toy_predict (Mat 2 [[0%R; 1%R]]) (set_bsize 3 toy_model))) = false.
Proof.
  split; [reflexivity |].
  exact (predict_untrained_returns_none toy_forward (set_bsize 3 toy_model)
           (Mat 2 [[0%R; 1%R]]) eq_refl).
Defined.

(** C8, a run: with [burn_in = n_iters = 5] training returns and stores no
    sample.  On the trained model [predict] raises the [IndexError] that
    [sample_functions] raises for an index past the buffer; no exception of
    its own marks the empty buffer. *)
Lemma predict_empty_buffer_is_index_error :
  fst (toy_train (Mat 1 [[1%R]]) (Mat 1 [[1%R]]) toy_short) = Return tt /\
  is_trained toy_emptied = true /\
  deque.items (samples toy_emptied) = [] /\
  toy_predict (Mat 1 [[0%R]]) toy_emptied = (Raise IndexError, toy_emptied) /\
  fst (toy_sample_functions (Mat 1 [[0%R]]) 1 toy_emptied) = Raise IndexError.
Proof. repeat apply conj; vm_compute; reflexivity. Qed.

Lemma predict_empty_buffer_raises_run :
  [[1%R]] <> [] /\
  deque.maxlen (samples toy_short) = n_nets toy_short /\
  (n_iters toy_short <= burn_in toy_short)%Z /\
  exists s' : SGLDNet unit unit,
    toy_train (Mat 1 [[1%R]]) (Mat 1 [[1%R]]) toy_short = (Return tt, s') /\
    deque.items (samples s') = [] /\
    toy_predict (Mat 1 [[5%R]; [7%R]]) s' = (Raise IndexError, s').
Proof.
  assert (Hrows : [[1%R]] <> []) by discriminate.
  assert (Hmax : deque.maxlen (samples toy_short) = n_nets toy_short) by reflexivity.
  assert (Hburn : (n_iters toy_short <= burn_in toy_short)%Z) by (cbn; lia).
  split; [exact Hrows |]. split; [exact Hmax |]. split; [exact Hburn |].
  destruct (predict_empty_buffer_raises toy_get_net toy_forward toy_SGLDSampler
              toy_prepare_updates toy_step toy_short 1 [[1%R]] Hrows Hmax)
    as (s' & Htrain & Hnone & Hraise).
  exists s'. split; [exact Htrain |]. split; [exact (Hnone Hburn) |].
  exact (Hraise (Hnone Hburn) [[5%R]; [7%R]]).
Defined.

(** The column 1, 3 has mean 2 and deviation 1. *)
Lemma denormalize_inverts_normalize_run :
  exists q mean std : ndarray,
    wf (Mat 1 [[1%R]; [3%R]]) /\
    normalize_inputs (Mat 1 [[1%R]; [3%R]]) None None = Return (q, mean, std) /\
    Forall (fun v => v <> 0%R) (entries std) /\
    denormalize q mean std = Return (Mat 1 [[1%R]; [3%R]]).
Proof.
  assert (Hwf : wf (Mat 1 [[1%R]; [3%R]])) by (repeat constructor).
  do 3 eexists. split; [exact Hwf |]. split; [reflexivity |].
  assert (Hnz : Forall (fun v => v <> 0%R)
            (entries (Vec (map sqrt (map (fun x => (x / INR 2)%R)
               (map (fun j => sum_list (column j
                  (map (map (fun x => (x * x)%R))
                     (map (fun r => broadcast Rminus 0%R r
                         (map (fun x => (x / INR 2)%R)
                            (map (fun j => sum_list (column j [[1%R]; [3%R]]))
                               (seq 0 1))))
                        [[1%R]; [3%R]]))))
                  (seq 0 1))))))).
  { cbn. constructor; [| constructor].
    unfold sum_list. cbn [fold_left].
    replace ((0 + (1 - (0 + 1 + 3) / (1 + 1)) * (1 - (0 + 1 + 3) / (1 + 1)) +
              (3 - (0 + 1 + 3) / (1 + 1)) * (3 - (0 + 1 + 3) / (1 + 1))) / (1 + 1))%R
      with 1%R by field.
    rewrite sqrt_1. lra. }
  split; [exact Hnz |].
  exact (denormalize_inverts_normalize (Mat 1 [[1%R]; [3%R]]) Hwf eq_refl Hnz).
Defined.

(** A model with [bsize = 5] trained on one row keeps [bsize = 1] when it
    is trained again on three rows. *)
Lemma train_overwrites_bsize_run :
  bsize toy_model = 5%Z /\
  bsize (snd (toy_train (Mat 1 [[1%R]]) (Mat 1 [[1%R]]) toy_model)) = 1%Z /\
  bsize (snd (toy_train (Mat 1 [[1%R]; [2%R]; [3%R]]) (Mat 1 [[1%R]; [2%R]; [3%R]])
                (snd (toy_train (Mat 1 [[1%R]]) (Mat 1 [[1%R]]) toy_model)))) = 1%Z.
Proof.
  destruct (train_overwrites_bsize toy_get_net toy_forward toy_SGLDSampler
              toy_prepare_updates toy_step toy_model 1 1 [[1%R]] [[1%R]])
    as (Hfirst & _ & Hagain).
  split; [reflexivity |]. split; [exact Hfirst |].
  apply Hagain; cbn; lia.
Defined.

(** ** Further runs *)

Lemma toy_single_on : trained_on toy_single 1 0%R 1%R.
Proof.
  unfold trained_on. split; [vm_compute; reflexivity |].
  split; [eexists; vm_compute; reflexivity |].
  split; intros Hflag; vm_compute in Hflag; discriminate Hflag.
Qed.

Lemma toy_single_samples :
  exists a : R, deque.items (samples toy_single) = [[Vec [a]]].
Proof. eexists. vm_compute. reflexivity. Qed.

Lemma toy_single_flags :
  normalize_input toy_single = false /\ normalize_output toy_single = false.
Proof. split; vm_compute; reflexivity. Qed.

Lemma toy_wide_on : trained_on toy_wide_trained 2 0%R 1%R.
Proof.
  unfold trained_on. split; [vm_compute; reflexivity |].
  split; [eexists; vm_compute; reflexivity |].
  split; intros Hflag.
  - do 2 eexists. split; [vm_compute; reflexivity |].
    split; [vm_compute; reflexivity |]. split; reflexivity.
  - vm_compute in Hflag. discriminate Hflag.
Qed.

Lemma toy_trained_nonempty : deque.items (samples toy_trained) <> [].
Proof. destruct toy_trained_samples as (a & b & -> & _). discriminate. Qed.

(** A buffer that held a sample before the call. *)
Lemma train_forgets_buffer_run :
  let d := deque.mk 5 [[Vec [7%R]]] in
  deque.maxlen d = deque.maxlen (samples toy_model) /\
  toy_train (Mat 1 [[1%R]]) (Mat 1 [[1%R]]) (set_samples d toy_model) =
  toy_train (Mat 1 [[1%R]]) (Mat 1 [[1%R]]) toy_model.
Proof.
  intros d. split; [reflexivity |].
  exact (train_forgets_buffer toy_get_net toy_forward toy_SGLDSampler
           toy_prepare_updates toy_step 1 [[1%R]] (Mat 1 [[1%R]]) d toy_model eq_refl).
Defined.

Lemma train_without_iterations_run :
  ((n_iters toy_none <= 0)%Z \/ n_nets toy_none = 0) /\
  exists s' : SGLDNet unit unit,
    toy_train (Mat 1 [[1%R]]) (Mat 1 [[1%R]]) toy_none = (Return tt, s') /\
    is_trained s' = true /\
    deque.items (samples s') = [] /\
    net s' = Some [Vec [0%R]].
Proof.
  assert (Hnone : (n_iters toy_none <= 0)%Z \/ n_nets toy_none = 0)
    by (right; reflexivity).
  split; [exact Hnone |].
  exact (train_without_iterations toy_get_net toy_forward toy_SGLDSampler
           toy_prepare_updates toy_step toy_none 1 1 [[1%R]] [[1%R]] Hnone).
Defined.

Lemma train_on_no_rows_run :
  (0 < n_iters toy_model)%Z /\ 0 < n_nets toy_model /\
  exists s' : SGLDNet unit unit,
    toy_train (Mat 1 []) (Mat 1 []) toy_model = (Raise ZeroDivisionError, s') /\
    deque.items (samples s') = [] /\
    is_trained s' = false /\
    bsize s' = 0%Z.
Proof.
  assert (Hn : (0 < n_iters toy_model)%Z) by reflexivity.
  assert (Hm : 0 < n_nets toy_model) by (cbn; lia).
  split; [exact Hn |]. split; [exact Hm |].
  exact (train_on_no_rows toy_get_net toy_forward toy_SGLDSampler
           toy_prepare_updates toy_step toy_model 1 1 [] Hn Hm).
Defined.

(** A trained model whose second call of [train], on no rows, raises. *)
Lemma train_never_unsets_is_trained_run :
  is_trained toy_trained = true /\
  is_trained (snd (toy_train (Mat 1 []) (Mat 1 []) toy_trained)) = true.
Proof.
  destruct toy_trained_on as (Htr & _). split; [exact Htr |].
  exact (proj1 (train_never_unsets_is_trained toy_get_net toy_forward toy_SGLDSampler
                  toy_prepare_updates toy_step (Mat 1 []) (Mat 1 []) toy_trained) Htr).
Defined.

(** With [n_iters = 2000] and [burn_in = 0] ten snapshots are due; the
    buffer of capacity 5 takes five. *)
Lemma train_sample_count_run :
  [[1%R]] <> [] /\
  deque.maxlen (samples toy_model) = n_nets toy_model /\
  exists s' : SGLDNet unit unit,
    toy_train (Mat 1 [[1%R]]) (Mat 1 [[1%R]]) toy_model = (Return tt, s') /\
    deque.len (samples s') = 5.
Proof.
  assert (Hrows : [[1%R]] <> []) by discriminate.
  assert (Hmax : deque.maxlen (samples toy_model) = n_nets toy_model) by reflexivity.
  split; [exact Hrows |]. split; [exact Hmax |].
  destruct (train_sample_count toy_get_net toy_forward toy_SGLDSampler
              toy_prepare_updates toy_step toy_model 1 1 [[1%R]] Hrows Hmax)
    as (s' & Htrain & Hlen).
  exists s'. split; [exact Htrain |]. rewrite Hlen. reflexivity.
Defined.

Lemma predict_leaves_last_sample_loaded_run :
  trained_on toy_trained 1 0%R 1%R /\
  deque.items (samples toy_trained) <> [] /\
  exists m v : ndarray,
    toy_predict (Mat 1 [[0%R]]) toy_trained =
    (Return (Some (m, v)),
     set_params (last (deque.items (samples toy_trained)) []) toy_trained).
Proof.
  split; [exact toy_trained_on |]. split; [exact toy_trained_nonempty |].
  exact (predict_leaves_last_sample_loaded toy_forward [[0%R]]
           toy_trained_on toy_trained_nonempty).
Defined.

Lemma predict_is_repeatable_run :
  trained_on toy_trained 1 0%R 1%R /\
  deque.items (samples toy_trained) <> [] /\
  fst (toy_predict (Mat 1 [[5%R]]) (snd (toy_predict (Mat 1 [[0%R]]) toy_trained))) =
  fst (toy_predict (Mat 1 [[5%R]]) toy_trained).
Proof.
  split; [exact toy_trained_on |]. split; [exact toy_trained_nonempty |].
  exact (predict_is_repeatable toy_forward [[0%R]] (Mat 1 [[5%R]])
           toy_trained_on toy_trained_nonempty).
Defined.

Lemma predict_variance_nonnegative_run :
  trained_on toy_trained 1 0%R 1%R /\
  deque.items (samples toy_trained) <> [] /\
  exists (m : ndarray) (vs : list (list R)) (s' : SGLDNet unit unit),
    toy_predict (Mat 1 [[0%R]; [5%R]]) toy_trained =
      (Return (Some (m, Mat 1 vs)), s') /\
    length vs = 2 /\
    Forall (fun r => exists v, r = [v] /\ (0 <= v)%R) vs.
Proof.
  split; [exact toy_trained_on |]. split; [exact toy_trained_nonempty |].
  exact (predict_variance_nonnegative toy_forward [[0%R]; [5%R]]
           toy_trained_on toy_trained_nonempty).
Defined.

Lemma predict_single_sample_run :
  trained_on toy_single 1 0%R 1%R /\
  exists sample : Params,
    deque.items (samples toy_single) = [sample] /\
    toy_predict (Mat 1 [[0%R]; [5%R]]) toy_single =
    (Return
       (Some (Mat 1 [[toy_forward sample [0%R]]; [toy_forward sample [5%R]]],
              Mat 1 [[0%R]; [0%R]])),
     set_params sample toy_single).
Proof.
  split; [exact toy_single_on |].
  destruct toy_single_samples as (a & Hone).
  exists [Vec [a]]. split; [exact Hone |].
  destruct (predict_single_sample toy_forward [[0%R]; [5%R]] toy_single_on Hone)
    as (rows_ & Hnt & Hpred).
  destruct toy_single_flags as [Hni Hno].
  unfold normalized_test, bind, gets, ret in Hnt. rewrite Hni in Hnt.
  apply (f_equal fst) in Hnt. cbn [fst] in Hnt. injection Hnt as <-.
  cbv zeta in Hpred. rewrite Hno in Hpred. exact Hpred.
Defined.

Lemma predict_summarises_sample_functions_run :
  trained_on toy_trained 1 0%R 1%R /\
  deque.items (samples toy_trained) <> [] /\
  exists (M V F : list (list R)) (s1 s2 : SGLDNet unit unit),
    toy_predict (Mat 1 [[0%R]]) toy_trained =
      (Return (Some (Mat 1 M, Mat 1 V)), s1) /\
    toy_sample_functions (Mat 1 [[0%R]]) (deque.len (samples toy_trained)) toy_trained =
      (Return (Mat 1 F), s2) /\
    forall j : nat, j < 1 ->
      nth j M [] = [ensemble_mean F j] /\
      exists v : R,
        nth j V [] = [v] /\
        population_variance F j =
        (if normalize_output toy_trained then (1 * 1 * v)%R else v).
Proof.
  split; [exact toy_trained_on |]. split; [exact toy_trained_nonempty |].
  exact (predict_summarises_sample_functions toy_forward [[0%R]]
           toy_trained_on toy_trained_nonempty).
Defined.

(** The column 1, 3 has mean 2 and deviation 1. *)
Lemma toy_column_statistics :
  normalize_inputs (Mat 1 [[1%R]; [3%R]]) None None =
  Return (Mat 1 (map (fun r => zipWith Rdiv
                                 (zipWith Rminus r [ensemble_mean [[1%R]; [3%R]] 0])
                                 [sqrt (population_variance [[1%R]; [3%R]] 0)])
                   [[1%R]; [3%R]]),
          Vec [ensemble_mean [[1%R]; [3%R]] 0],
          Vec [sqrt (population_variance [[1%R]; [3%R]] 0)]) /\
  sqrt (population_variance [[1%R]; [3%R]] 0) = 1%R.
Proof.
  split.
  - apply (@normalize_inputs_formula 1 [[1%R]; [3%R]]). repeat constructor.
  - replace (population_variance [[1%R]; [3%R]] 0) with 1%R; [apply sqrt_1 |].
    unfold population_variance, ensemble_mean, mean_list, sq_dev, column, sum_list.
    cbn [map nth fold_left length INR]. field.
Qed.

Lemma normalize_gives_zero_mean_unit_variance_run :
  exists q m sd : ndarray,
    wf (Mat 1 [[1%R]; [3%R]]) /\
    [[1%R]; [3%R]] <> [] /\
    normalize_inputs (Mat 1 [[1%R]; [3%R]]) None None = Return (q, m, sd) /\
    Forall (fun v => v <> 0%R) (entries sd) /\
    mean0 q = Return (Vec [0%R]) /\ var0 q = Return (Vec [1%R]) /\
    std0 q = Return (Vec [1%R]).
Proof.
  destruct toy_column_statistics as [Hnorm Hsd].
  assert (Hwf : wf (Mat 1 [[1%R]; [3%R]])) by (repeat constructor).
  assert (Hrows : [[1%R]; [3%R]] <> []) by discriminate.
  assert (Hnz : Forall (fun v => v <> 0%R)
                  (entries (Vec [sqrt (population_variance [[1%R]; [3%R]] 0)]))).
  { cbn [entries]. constructor; [rewrite Hsd; lra | constructor]. }
  do 3 eexists. split; [exact Hwf |]. split; [exact Hrows |].
  split; [exact Hnorm |]. split; [exact Hnz |].
  exact (normalize_gives_zero_mean_unit_variance Hwf Hrows (or_introl Hnorm) Hnz).
Defined.

Lemma train_stores_standardised_data_run :
  wf (Mat 1 [[1%R]; [3%R]]) /\ [[1%R]; [3%R]] <> [] /\
  normalize_input toy_norm = true /\ normalize_output toy_norm = true /\
  let s' := snd (toy_train (Mat 1 [[1%R]; [3%R]]) (Mat 1 [[1%R]; [3%R]]) toy_norm) in
  exists qx mx sx qy my sy : ndarray,
    normalize_inputs (Mat 1 [[1%R]; [3%R]]) None None = Return (qx, mx, sx) /\
    normalize_targets (Mat 1 [[1%R]; [3%R]]) None None = Return (qy, my, sy) /\
    X s' = Some qx /\ x_mean s' = Some mx /\ x_std s' = Some sx /\
    Y s' = Some qy /\ y_mean s' = Some my /\ y_std s' = Some sy /\
    (Forall (fun v => v <> 0%R) (entries sx) ->
     mean0 qx = Return (Vec [0%R]) /\ var0 qx = Return (Vec [1%R])) /\
    (Forall (fun v => v <> 0%R) (entries sy) ->
     mean0 qy = Return (Vec [0%R]) /\ var0 qy = Return (Vec [1%R])).
Proof.
  assert (Hwf : wf (Mat 1 [[1%R]; [3%R]])) by (repeat constructor).
  assert (Hrows : [[1%R]; [3%R]] <> []) by discriminate.
  split; [exact Hwf |]. split; [exact Hrows |].
  split; [reflexivity |]. split; [reflexivity |].
  exact (train_stores_standardised_data toy_get_net toy_forward toy_SGLDSampler
           toy_prepare_updates toy_step toy_norm Hwf Hwf Hrows Hrows eq_refl eq_refl).
Defined.


(** Four rows and [bsize = 2]: two batches make an epoch. *)
Lemma minibatches_cover_the_data_run :
  (0 < bsize toy_four)%Z /\ 0 < 2 /\
  length [[1%R]; [2%R]; [3%R]; [4%R]] = 2 * Z.to_nat (bsize toy_four) /\
  (exists ymb,
     minibatch 1 toy_four = (Return (Mat 1 [[3%R]; [4%R]], ymb), toy_four)) /\
  minibatch 2 toy_four = minibatch 0 toy_four.
Proof.
  assert (Hbs : (0 < bsize toy_four)%Z) by reflexivity.
  assert (Hq : 0 < 2) by lia.
  assert (Hlen : length [[1%R]; [2%R]; [3%R]; [4%R]] = 2 * Z.to_nat (bsize toy_four))
    by reflexivity.
  split; [exact Hbs |]. split; [exact Hq |]. split; [exact Hlen |].
  destruct (@minibatches_cover_the_data unit unit toy_four 1 1
              [[1%R]; [2%R]; [3%R]; [4%R]] [[10%R]; [20%R]; [30%R]; [40%R]] 2
              eq_refl eq_refl Hbs Hq Hlen) as (Hbatch & _ & Hperiod).
  split.
  - assert (H1 : 1 < 2) by lia. exact (proj2 (Hbatch 1 H1)).
  - exact (Hperiod 0%Z).
Defined.

Lemma small_data_gives_full_batches_run :
  [[1%R]; [2%R]] <> [] /\
  (Z.of_nat (length [[1%R]; [2%R]]) <= bsize toy_model)%Z /\
  exists (s0 : SGLDNet unit unit) (xs ys : list (list R)),
    train_setup toy_get_net toy_forward toy_SGLDSampler toy_prepare_updates
      (Mat 1 [[1%R]; [2%R]]) (Mat 1 [[10%R]; [20%R]]) toy_model = (Return tt, s0) /\
    X s0 = Some (Mat 1 xs) /\ Y s0 = Some (Mat 1 ys) /\
    bsize s0 = 2%Z /\
    forall i : Z, minibatch i s0 = (Return (Mat 1 xs, Mat 1 ys), s0).
Proof.
  assert (Hrows : [[1%R]; [2%R]] <> []) by discriminate.
  assert (Hsmall : (Z.of_nat (length [[1%R]; [2%R]]) <= bsize toy_model)%Z)
    by (cbn; lia).
  split; [exact Hrows |]. split; [exact Hsmall |].
  exact (small_data_gives_full_batches toy_get_net toy_forward toy_SGLDSampler
           toy_prepare_updates toy_model 1 1 [[10%R]; [20%R]] Hrows eq_refl Hsmall).
Defined.

Lemma sample_functions_on_fresh_model_run :
  toy_sample_functions (Mat 1 [[0%R]]) 1 toy_model = (Raise AttributeError, toy_model) /\
  toy_sample_functions (Mat 1 [[0%R]]) 0 toy_model = (Return (Mat 1 []), toy_model).
Proof.
  exact (sample_functions_on_fresh_model unit toy_forward 5 0.001%R 2000 0.1%R
           0.00001%R 5 0 true false false tt 1 [[0%R]] 0).
Defined.

(** With [n_iters = 2000], [burn_in = 0] and [n_nets = 5] the loop stops
    at [i = 801].  With the defaults of [__init__] ([n_iters = 50000],
    [burn_in = 1000], [n_nets = 100]) it would stop at [i = 20801]. *)
Lemma train_iteration_count_run :
  [[1%R]] <> [] /\
  deque.maxlen (samples toy_model) = n_nets toy_model /\
  Z.of_nat (iterations_run 50000 1000 100) = 20801%Z /\
  exists s0 s1 : SGLDNet unit unit,
    train_loop toy_step (Z.to_nat (n_iters s0)) 0 s0 = (Return 801%Z, s1) /\
    toy_train (Mat 1 [[1%R]]) (Mat 1 [[1%R]]) toy_model =
      (Return tt, set_is_trained true s1).
Proof.
  assert (Hrows : [[1%R]] <> []) by discriminate.
  assert (Hmax : deque.maxlen (samples toy_model) = n_nets toy_model) by reflexivity.
  split; [exact Hrows |]. split; [exact Hmax |].
  split; [vm_compute; reflexivity |].
  destruct (train_iteration_count toy_get_net toy_forward toy_SGLDSampler
              toy_prepare_updates toy_step toy_model 1 1 [[1%R]] Hrows Hmax)
    as (s0 & s1 & _ & Hloop & Htrain & _).
  assert (Hk : iterations_run (n_iters toy_model) (burn_in toy_model) (n_nets toy_model) =
               801) by (vm_compute; reflexivity).
  rewrite Hk in Hloop. exists s0, s1. split; [exact Hloop | exact Htrain].
Defined.

Lemma train_terminates_run :
  fst (toy_train (Mat 1 [[1%R]]) (Vec [1%R]) toy_model) <> Abort OutOfFuel.
Proof.
  exact (@train_terminates unit unit toy_get_net toy_forward toy_SGLDSampler
           toy_prepare_updates toy_step (Mat 1 [[1%R]]) (Vec [1%R]) toy_model OutOfFuel).
Defined.

Lemma normalize_with_given_statistics_run :
  wf (Mat 1 [[1%R]; [3%R]]) /\ length [2%R] = 1 /\
  Forall (fun v => v <> 0%R) [4%R] /\
  exists q : ndarray,
    normalize_inputs (Mat 1 [[1%R]; [3%R]]) (Some (Vec [2%R])) (Some (Vec [4%R])) =
      Return (q, Vec [2%R], Vec [4%R]) /\
    normalize_targets (Mat 1 [[1%R]; [3%R]]) (Some (Vec [2%R])) (Some (Vec [4%R])) =
      Return (q, Vec [2%R], Vec [4%R]) /\
    denormalize q (Vec [2%R]) (Vec [4%R]) = Return (Mat 1 [[1%R]; [3%R]]).
Proof.
  assert (Hwf : wf (Mat 1 [[1%R]; [3%R]])) by (repeat constructor).
  assert (Hnz : Forall (fun v => v <> 0%R) [4%R]) by (constructor; [lra | constructor]).
  split; [exact Hwf |]. split; [reflexivity |]. split; [exact Hnz |].
  exact (@normalize_with_given_statistics 1 [[1%R]; [3%R]] [2%R] [4%R]
           Hwf eq_refl eq_refl Hnz).
Defined.

(** A model trained on two columns, asked about points of three. *)
Lemma wrong_width_raises_value_error_run :
  trained_on toy_wide_trained 2 0%R 1%R /\
  normalize_input toy_wide_trained = true /\
  toy_predict (Mat 3 [[1%R; 2%R; 3%R]]) toy_wide_trained =
    (Raise ValueError, toy_wide_trained) /\
  toy_sample_functions (Mat 3 [[1%R; 2%R; 3%R]]) 1 toy_wide_trained =
    (Raise ValueError, toy_wide_trained).
Proof.
  assert (Hni : normalize_input toy_wide_trained = true) by (vm_compute; reflexivity).
  assert (H32 : 3 <> 2) by discriminate.
  assert (H31 : 3 <> 1) by discriminate.
  assert (H21 : 2 <> 1) by discriminate.
  destruct (wrong_width_raises_value_error toy_forward [[1%R; 2%R; 3%R]]
              toy_wide_on Hni H32 H31 H21) as [Hpred Hdraw].
  split; [exact toy_wide_on |]. split; [exact Hni |].
  split; [exact Hpred | exact (Hdraw 1)].
Defined.
